(** * Laundry OS API: command mailbox, serve-once delivery and device stats

    A shallow embedding of the five Go programs of the repository:

    - [main.go]: the in-process server (two maps guarded by one mutex);
    - [laundryStart/main.go], [laundryLatest/main.go]: the DynamoDB-backed
      submit and poll handlers;
    - [laundryUpdateStats/main.go], [laundryGetStats/main.go]: the
      DynamoDB-backed stats handlers.

    Go's [string] is a byte string and is modelled by [string]; [int64] (and
    [int], 64 bits wide on the deployment targets) by [Z] with the wrap-around
    written out where the code can overflow; Go maps and the DynamoDB table by
    [gmap].  The clock and the outcome of each DynamoDB call are inputs of the
    handlers. *)

From Stdlib Require Import ZArith String Ascii List Lia Bool SpecFloat.
From stdpp Require Import base option gmap strings list fin_maps.

Local Open Scope string_scope.
Local Open Scope Z_scope.

(** ** The parts of the Go standard library the handlers use *)

Module Go.

(** [int64] arithmetic wraps around. *)
Definition wrap64 (z : Z) : Z := (z + 2 ^ 63) mod 2 ^ 64 - 2 ^ 63.

Definition int64_range (z : Z) : Prop := - 2 ^ 63 <= z < 2 ^ 63.

Definition byte_of (c : ascii) : Z := Z.of_N (N_of_ascii c).

(** [subtle.ConstantTimeCompare]: 0 at once when the lengths differ,
    otherwise the OR of the byte-wise XORs is compared with 0. *)
Fixpoint xor_fold (x y : string) (v : Z) : Z :=
  match x, y with
  | String a x', String b y' =>
      xor_fold x' y' (Z.lor v (Z.lxor (byte_of a) (byte_of b)))
  | _, _ => v
  end.

Definition ConstantTimeCompare (x y : string) : Z :=
  if negb (Nat.eqb (String.length x) (String.length y)) then 0
  else if Z.eqb (xor_fold x y 0) 0 then 1 else 0.

(** [strings.TrimSpace] removes leading and trailing Unicode white space.
    On the UTF-8 bytes of a Go string that is: the six ASCII space bytes, and
    the encodings of U+0085, U+00A0, U+1680, U+2000..U+200A, U+2028, U+2029,
    U+202F, U+205F and U+3000. *)
Definition bytes (l : list nat) : string :=
  string_of_list_ascii (List.map ascii_of_nat l).

Definition space_encodings : list string :=
  List.map bytes
    [ [9]; [10]; [11]; [12]; [13]; [32];
      [194; 133]; [194; 160];
      [225; 154; 128];
      [226; 128; 128]; [226; 128; 129]; [226; 128; 130]; [226; 128; 131];
      [226; 128; 132]; [226; 128; 133]; [226; 128; 134]; [226; 128; 135];
      [226; 128; 136]; [226; 128; 137]; [226; 128; 138];
      [226; 128; 168]; [226; 128; 169]; [226; 128; 175];
      [226; 129; 159];
      [227; 128; 128] ]%nat.

(** The rest of [s] behind [p], when [p] is a prefix of [s]. *)
Fixpoint strip_prefix (p s : string) : option string :=
  match p, s with
  | EmptyString, _ => Some s
  | String a p', String b s' =>
      if Ascii.eqb a b then strip_prefix p' s' else None
  | String _ _, EmptyString => None
  end.

Fixpoint strip_first (ps : list string) (s : string) : option string :=
  match ps with
  | [] => None
  | p :: ps' =>
      match strip_prefix p s with
      | Some r => Some r
      | None => strip_first ps' s
      end
  end.

Fixpoint trim_left (fuel : nat) (encs : list string) (s : string) : string :=
  match fuel with
  | O => s
  | S fuel' =>
      match strip_first encs s with
      | Some r => trim_left fuel' encs r
      | None => s
      end
  end.

Definition rev_string (s : string) : string :=
  string_of_list_ascii (List.rev (list_ascii_of_string s)).

Definition TrimSpace (s : string) : string :=
  let l := trim_left (String.length s) space_encodings s in
  rev_string
    (trim_left (String.length l) (List.map rev_string space_encodings)
       (rev_string l)).

(** [strconv.FormatInt (n, 10)] and [strconv.Itoa]. *)
Definition digit_char (d : Z) : ascii := ascii_of_N (Z.to_N (48 + d)).

Fixpoint format_bits (fuel : nat) (u : Z) (acc : string) : string :=
  match fuel with
  | O => acc
  | S fuel' =>
      if u <? 10 then String (digit_char u) acc
      else format_bits fuel' (u / 10) (String (digit_char (u mod 10)) acc)
  end.

Definition FormatUint (u : Z) : string := format_bits 20 u "".

Definition FormatInt (n : Z) : string :=
  if n <? 0 then String "-" (FormatUint (- n)) else FormatUint n.

Definition Itoa (n : Z) : string := FormatInt n.

(** [strconv.ParseInt (s, 10, 64)]: an optional sign and at least one
    decimal digit; [None] stands for a non-nil error (syntax or range). *)
Definition is_digit (c : ascii) : bool :=
  (48 <=? byte_of c) && (byte_of c <=? 57).

Fixpoint parse_digits (s : string) (acc : Z) : option Z :=
  match s with
  | EmptyString => Some acc
  | String c s' =>
      if is_digit c then parse_digits s' (acc * 10 + (byte_of c - 48))
      else None
  end.

Definition ParseUint (s : string) : option Z :=
  match s with
  | EmptyString => None
  | _ => match parse_digits s 0 with
         | Some u => if u <? 2 ^ 64 then Some u else None
         | None => None
         end
  end.

Definition ParseInt (s : string) : option Z :=
  match s with
  | EmptyString => None
  | String c s' =>
      let neg := Ascii.eqb c "-" in
      let digits := if Ascii.eqb c "+" || neg then s' else s in
      match ParseUint digits with
      | None => None
      | Some un =>
          if negb neg && (2 ^ 63 <=? un) then None
          else if neg && (2 ^ 63 <? un) then None
          else Some (if neg then - un else un)
      end
  end.

(** The dynamic values the handlers put in a [map[string]any], and the
    kind of JSON value [encoding/json] writes for each. *)
Inductive value :=
| VBool (b : bool)
| VInt64 (n : Z)
| VString (s : string).

Inductive json_kind := JsonBoolean | JsonNumber | JsonString.

Definition kind_of (v : value) : json_kind :=
  match v with
  | VBool _ => JsonBoolean
  | VInt64 _ => JsonNumber
  | VString _ => JsonString
  end.

(** What a handler hands to [json.Marshal]: one of the two map types, or a
    struct of the program (type [T]). *)
Inductive any (T : Type) :=
| MapStringString (m : list (string * string))
| MapStringAny (m : list (string * value))
| Struct (v : T).
Arguments MapStringString {T} m.
Arguments MapStringAny {T} m.
Arguments Struct {T} v.

(** The status code and the value encoded as the body. *)
Record Response (T : Type) := { StatusCode : Z; Body : any T }.
Arguments StatusCode {T} r.
Arguments Body {T} r.

Fixpoint field {A : Type} (k : string) (m : list (string * A)) : option A :=
  match m with
  | [] => None
  | (k', v) :: m' => if String.eqb k k' then Some v else field k m'
  end.

(** The field [k] of a body that is a map, as [encoding/json] sees it. *)
Definition body_field {T : Type} (k : string) (b : any T) : option value :=
  match b with
  | MapStringString m => option_map VString (field k m)
  | MapStringAny m => field k m
  | Struct _ => None
  end.

(** [timingSafeEq], the same function in all five programs. *)
Definition timingSafeEq (a b : string) : bool :=
  ConstantTimeCompare a b =? 1.

(** [m[k]] on a [map[string]string]: the zero value when [k] is absent. *)
Definition index (m : gmap string string) (k : string) : string :=
  default "" (m !! k).

(** A string made of white space only (the empty string included). *)
Inductive WhiteSpace : string -> Prop :=
| WhiteSpace_nil : WhiteSpace ""
| WhiteSpace_cons (p s : string) :
    In p space_encodings -> WhiteSpace s -> WhiteSpace (p ++ s).

(** The longest leading run of decimal digits of a string, and the
    integer a string of decimal digits denotes. *)
Fixpoint leading_digits (s : string) : string :=
  match s with
  | EmptyString => EmptyString
  | String c s' =>
      if is_digit c then String c (leading_digits s') else EmptyString
  end.

Definition decimal_value (ds : string) : Z :=
  fold_left (fun a c => a * 10 + (byte_of c - 48))
    (list_ascii_of_string ds) 0.

(** A token that must be turned away: it is empty, or no secret is
    configured, or the two differ in some byte. *)
Definition unauthorized (token secret : string) : Prop :=
  token = "" \/ secret = "" \/ token <> secret.

Definition authorized (token secret : string) : Prop :=
  token <> "" /\ secret <> "" /\ token = secret.

End Go.

(** ** The in-process server, [main.go] *)

Module Volatile.
Import Go.

Record Command := {
  DeviceID : string;
  Type_ : string;
  DurationMinutes : Z;
  CreatedAt : Z;
  Token : string
}.

Record LatestResponse := { Command_ : option Command }.

(** The two package-level maps guarded by [mu]. *)
Record State := {
  latestByDevice : gmap string Command;
  lastServedAt : gmap string Z
}.

(** A request: its method, its body as [json.Decoder.Decode] reads it into
    a [Command] ([None] when it returns an error), and the first value of
    each query parameter. *)
Record Request := {
  Method : string;
  Decoded : option Command;
  Query : gmap string string
}.

Abbreviation Response := (Go.Response LatestResponse).

Definition writeJSON (status : Z) (v : any LatestResponse) : Response :=
  {| StatusCode := status; Body := v |}.

Definition writeErr (status : Z) (msg : string) : Response :=
  writeJSON status (MapStringString [("error", msg)]).

Definition startMachine (sharedSecret : string) (now : Z)
    (st : State) (r : Request) : Response * State :=
  if negb (String.eqb (Method r) "POST") then
    (writeErr 405 "method not allowed", st)
  else
    match Decoded r with
    | None => (writeErr 400 "invalid json", st)
    | Some cmd =>
        if String.eqb (Token cmd) ""
           || negb (timingSafeEq (Token cmd) sharedSecret) then
          (writeErr 401 "unauthorized", st)
        else if String.eqb (DeviceID cmd) "" then
          (writeErr 400 "deviceId required", st)
        else if negb (String.eqb (Type_ cmd) "wash")
                && negb (String.eqb (Type_ cmd) "dry") then
          (writeErr 400 "type must be wash or dry", st)
        else if DurationMinutes cmd <=? 0 then
          (writeErr 400 "duration must be greater than 0 minutes", st)
        else
          let cmd := {| DeviceID := DeviceID cmd;
                        Type_ := Type_ cmd;
                        DurationMinutes := DurationMinutes cmd;
                        CreatedAt := now;
                        Token := "" |} in
          (writeJSON 200
             (MapStringAny [("ok", VBool true);
                            ("createdAt", VInt64 (CreatedAt cmd))]),
           {| latestByDevice := <[DeviceID cmd := cmd]> (latestByDevice st);
              lastServedAt := lastServedAt st |})
    end.

(** [lastServedAt[deviceID]]: 0 when the device has no entry. *)
Definition servedAt (st : State) (deviceID : string) : Z :=
  default 0 (lastServedAt st !! deviceID).

Definition getLatest (sharedSecret : string)
    (st : State) (r : Request) : Response * State :=
  if negb (String.eqb (Method r) "GET") then
    (writeErr 405 "method not allowed", st)
  else
    let deviceID := index (Query r) "deviceId" in
    let token := index (Query r) "token" in
    if String.eqb deviceID "" then
      (writeErr 400 "deviceId required", st)
    else if String.eqb token ""
            || negb (timingSafeEq token sharedSecret) then
      (writeErr 401 "unauthorized", st)
    else
      match latestByDevice st !! deviceID with
      | None => (writeJSON 200 (Struct {| Command_ := None |}), st)
      | Some cmd =>
          if servedAt st deviceID >=? CreatedAt cmd then
            (writeJSON 200 (Struct {| Command_ := None |}), st)
          else
            (writeJSON 200 (Struct {| Command_ := Some cmd |}),
             {| latestByDevice := latestByDevice st;
                lastServedAt :=
                  <[deviceID := CreatedAt cmd]> (lastServedAt st) |})
      end.

End Volatile.

(** ** The DynamoDB table behind the Lambda handlers *)

Module Dynamo.

Inductive AttributeValue :=
| AttributeValueMemberS (Value : string)
| AttributeValueMemberN (Value : string)
| AttributeValueMemberBOOL (Value : bool)
| AttributeValueMemberNULL.

(** An item maps attribute names to values; the table maps the value of
    the partition key, the string attribute [deviceId], to the item. *)
Abbreviation Item := (gmap string AttributeValue).
Abbreviation Table := (gmap string Item).

Definition key_of (item : Item) : option string :=
  match item !! "deviceId" with
  | Some (AttributeValueMemberS k) => Some k
  | _ => None
  end.

(** [PutItem] replaces the whole item under its key.  [err] is the error
    the service answers with, if any; the table is then left as it was. *)
Definition PutItem (err : option string) (t : Table) (item : Item)
    : option string * Table :=
  match err with
  | Some e => (Some e, t)
  | None =>
      match key_of item with
      | Some k => (None, <[k := item]> t)
      | None => (Some "ValidationException", t)
      end
  end.

(** [GetItem] with [ConsistentRead]: [None] is a failed call, [Some None]
    an output whose [Item] is nil. *)
Definition GetItem (fail : bool) (t : Table) (key : string)
    : option (option Item) :=
  if fail then None else Some (t !! key).

(** [UpdateItem] with the update expression [SET attr = :v]: the attribute
    is set on the item under [key], which is created when absent.  A failed
    call changes nothing. *)
Definition UpdateItem_SET (fail : bool) (t : Table) (key attr : string)
    (v : AttributeValue) : Table :=
  if fail then t
  else
    let item :=
      default {[ "deviceId" := AttributeValueMemberS key ]} (t !! key) in
    <[key := <[attr := v]> item]> t.

Record Server := { table : string; sharedSecret : string }.

End Dynamo.

(** ** [laundryStart/main.go] *)

Module LaundryStart.
Import Go Dynamo.

Record Command := {
  DeviceID : string;
  Type_ : string;
  DurationMinutes : Z;
  Token : string
}.

(** The request, by its body as [json.Unmarshal] decodes it into a
    [Command]: [None] when it returns an error. *)
Record Request := { Decoded : option Command }.

Abbreviation Response := (Go.Response Empty_set).

Definition resp (status : Z) (v : any Empty_set) : Response :=
  {| StatusCode := status; Body := v |}.

Definition handler (s : Server) (now : Z) (putErr : option string)
    (t : Table) (req : Request) : Response * Table :=
  match Decoded req with
  | None => (resp 400 (MapStringString [("error", "invalid json")]), t)
  | Some cmd =>
      let deviceID := TrimSpace (DeviceID cmd) in
      if String.eqb (Token cmd) "" || String.eqb (sharedSecret s) ""
         || negb (timingSafeEq (Token cmd) (sharedSecret s)) then
        (resp 401 (MapStringString [("error", "unauthorized")]), t)
      else if String.eqb deviceID "" then
        (resp 400 (MapStringString [("error", "deviceId required")]), t)
      else if negb (String.eqb (Type_ cmd) "wash")
              && negb (String.eqb (Type_ cmd) "dry") then
        (resp 400
           (MapStringString [("error", "type must be wash or dry")]), t)
      else if DurationMinutes cmd <=? 0 then
        (resp 400
           (MapStringString [("error", "durationMinutes must be > 0")]), t)
      else
        let durationStr := Itoa (DurationMinutes cmd) in
        let createdAtStr := FormatInt now in
        let item : Item :=
          <["deviceId" := AttributeValueMemberS deviceID]>
          (<["type" := AttributeValueMemberS (Type_ cmd)]>
          (<["durationMinutes" := AttributeValueMemberN durationStr]>
          (<["createdAt" := AttributeValueMemberN createdAtStr]> ∅))) in
        match PutItem putErr t item with
        | (Some err, t') =>
            (resp 500
               (MapStringString [("error", err); ("table", table s)]), t')
        | (None, t') =>
            (resp 200
               (MapStringAny [("ok", VBool true);
                              ("createdAt", VInt64 now)]), t')
        end
  end.

(** The item the handler puts for a body it accepts. *)
Definition item_of (deviceID : string) (cmd : Command) (now : Z) : Item :=
  <["deviceId" := AttributeValueMemberS deviceID]>
  (<["type" := AttributeValueMemberS (Type_ cmd)]>
  (<["durationMinutes" := AttributeValueMemberN (Itoa (DurationMinutes cmd))]>
  (<["createdAt" := AttributeValueMemberN (FormatInt now)]> ∅))).

End LaundryStart.

(** ** [laundryLatest/main.go] *)

Module LaundryLatest.
Import Go Dynamo.

Record Command := {
  DeviceID : string;
  Type_ : string;
  DurationMinutes : Z;
  CreatedAt : Z
}.

Record LatestResponse := { Command_ : option Command }.

Record Request := { QueryStringParameters : gmap string string }.

Abbreviation Response := (Go.Response LatestResponse).

Definition resp (status : Z) (v : any LatestResponse) : Response :=
  {| StatusCode := status; Body := v |}.

(** The loop of [mustInt64]: it stops at the first character that is not
    a decimal digit (a byte of a multi-byte character never is one), and
    [n*10 + int64(c-'0')] wraps around. *)
Fixpoint mustInt64_loop (s : string) (n : Z) : Z :=
  match s with
  | EmptyString => n
  | String c s' =>
      if (byte_of c <? 48) || (byte_of c >? 57) then n
      else mustInt64_loop s' (wrap64 (n * 10 + (byte_of c - 48)))
  end.

Definition mustInt64 (s : string) : Z := mustInt64_loop s 0.

(** The loop of [mustInt64] without the wrap-around. *)
Fixpoint digits_loop (s : string) (n : Z) : Z :=
  match s with
  | EmptyString => n
  | String c s' =>
      if is_digit c then digits_loop s' (n * 10 + (byte_of c - 48)) else n
  end.

Definition handler (s : Server) (now : Z) (getFail updFail : bool)
    (t : Table) (req : Request) : Response * Table :=
  let deviceID := TrimSpace (index (QueryStringParameters req) "deviceId") in
  let token := index (QueryStringParameters req) "token" in
  if String.eqb deviceID "" then
    (resp 400 (MapStringString [("error", "deviceId required")]), t)
  else if String.eqb token "" || String.eqb (sharedSecret s) ""
          || negb (timingSafeEq token (sharedSecret s)) then
    (resp 401 (MapStringString [("error", "unauthorized")]), t)
  else
    match GetItem getFail t deviceID with
    | None => (resp 500 (MapStringString [("error", "get failed")]), t)
    | Some None => (resp 200 (Struct {| Command_ := None |}), t)
    | Some (Some item) =>
        match item !! "servedAt" with
        | Some _ => (resp 200 (Struct {| Command_ := None |}), t)
        | None =>
            let type :=
              match item !! "type" with
              | Some (AttributeValueMemberS v) => v
              | _ => ""
              end in
            let durationMinutes :=
              match item !! "durationMinutes" with
              | Some (AttributeValueMemberN v) => mustInt64 v
              | _ => 0
              end in
            let createdAt :=
              match item !! "createdAt" with
              | Some (AttributeValueMemberN v) => mustInt64 v
              | _ => 0
              end in
            let cmd := {| DeviceID := deviceID;
                          Type_ := type;
                          DurationMinutes := durationMinutes;
                          CreatedAt := createdAt |} in
            let t' :=
              UpdateItem_SET updFail t deviceID "servedAt"
                (AttributeValueMemberN (FormatInt now)) in
            (resp 200 (Struct {| Command_ := Some cmd |}), t')
        end
    end.

End LaundryLatest.

(** ** [laundryUpdateStats/main.go] and [laundryGetStats/main.go]

    [float64] and its decimal codec in [strconv] are parameters of the two
    stats handlers: [FormatFloat f fmt prec bitSize] is the string Go writes
    and [ParseFloat s bitSize] the number it reads, [None] standing for a
    non-nil error. *)

Module LaundryStats.
Import Go Dynamo.

Section WithFloat64.
Context {float64 : Type}.
Variable zero : float64.
Variable FormatFloat : float64 -> ascii -> Z -> Z -> string.
Variable ParseFloat : string -> Z -> option float64.

(** The struct both programs declare. *)
Record Stats := {
  DeviceID : string;
  TotalSpent : float64;
  NumRuns : Z;
  Token : string
}.

Abbreviation Response := (Go.Response Stats).

Definition resp (status : Z) (v : any Stats) : Response :=
  {| StatusCode := status; Body := v |}.

(** [laundryUpdateStats]: the request by its body as [json.Unmarshal]
    decodes it into a [Stats]. *)
Record UpdateRequest := { Decoded : option Stats }.

Definition update_handler (s : Server) (now : Z) (putErr : option string)
    (t : Table) (req : UpdateRequest) : Response * Table :=
  match Decoded req with
  | None => (resp 400 (MapStringString [("error", "invalid json")]), t)
  | Some stats =>
      let deviceID := TrimSpace (DeviceID stats) in
      if String.eqb (Token stats) "" || String.eqb (sharedSecret s) ""
         || negb (timingSafeEq (Token stats) (sharedSecret s)) then
        (resp 401 (MapStringString [("error", "unauthorized")]), t)
      else if String.eqb deviceID "" then
        (resp 400 (MapStringString [("error", "deviceId required")]), t)
      else
        let totalSpentStr := FormatFloat (TotalSpent stats) "f" 2 64 in
        let numRunsStr := FormatInt (NumRuns stats) in
        let updatedAtStr := FormatInt now in
        let item : Item :=
          <["deviceId" := AttributeValueMemberS deviceID]>
          (<["totalSpent" := AttributeValueMemberN totalSpentStr]>
          (<["numRuns" := AttributeValueMemberN numRunsStr]>
          (<["updatedAt" := AttributeValueMemberN updatedAtStr]> ∅))) in
        match PutItem putErr t item with
        | (Some err, t') =>
            (resp 500
               (MapStringString [("error", err); ("table", table s)]),
             t')
        | (None, t') =>
            (resp 200
               (MapStringAny [("ok", VBool true);
                              ("lastUpdatedAt", VString updatedAtStr)]),
             t')
        end
  end.

(** The item [laundryUpdateStats] writes. *)
Definition stats_item (d : string) (stats : Stats)
    (now : Z) : Item :=
  <["deviceId" := AttributeValueMemberS d]>
  (<["totalSpent" :=
       AttributeValueMemberN
         (FormatFloat (TotalSpent stats) "f" 2 64)]>
  (<["numRuns" :=
       AttributeValueMemberN (FormatInt (NumRuns stats))]>
  (<["updatedAt" := AttributeValueMemberN (FormatInt now)]> ∅))).

(** [laundryGetStats]: it only reads the table. *)
Record GetRequest := { QueryStringParameters : gmap string string }.

Definition get_handler (s : Server) (getFail : bool)
    (t : Table) (req : GetRequest) : Response :=
  let deviceID :=
    TrimSpace (index (QueryStringParameters req) "deviceId") in
  let token := index (QueryStringParameters req) "token" in
  if String.eqb deviceID "" then
    resp 400 (MapStringString [("error", "deviceId required")])
  else if String.eqb token "" || String.eqb (sharedSecret s) ""
          || negb (timingSafeEq token (sharedSecret s)) then
    resp 401 (MapStringString [("error", "unauthorized")])
  else
    match GetItem getFail t deviceID with
    | None => resp 500 (MapStringString [("error", "get failed")])
    | Some None => resp 404 (MapStringString [("error", "not found")])
    | Some (Some item) =>
        let total :=
          match item !! "totalSpent" with
          | Some (AttributeValueMemberN v) => ParseFloat v 64
          | _ => Some zero
          end in
        match total with
        | None =>
            resp 500
              (MapStringString [("error", "float conversion failed")])
        | Some totalSpent =>
            let runs :=
              match item !! "numRuns" with
              | Some (AttributeValueMemberN v) => ParseInt v
              | _ => Some 0
              end in
            match runs with
            | None =>
                resp 500
                  (MapStringString [("error", "int conversion failed")])
            | Some numRuns =>
                resp 200
                  (Struct {| DeviceID := deviceID;
                             TotalSpent := totalSpent;
                             NumRuns := numRuns;
                             Token := "" |})
            end
        end
    end.

End WithFloat64.

End LaundryStats.

(** ** An instance of the float codec

    Binary64 numbers as [spec_float], with the codec for plain decimal
    notation: [FormatFloat] writes the format ['f'] (the exact value rounded
    half-to-even at [prec] decimals), [ParseFloat] reads an optional sign,
    digits and an optional fraction, rounding to the nearest binary64, ties
    to even.  The other notations of [strconv] are left out: it is the
    instance the stats handlers are run on, not a model of all of
    [strconv]. *)

Module Float64.
Import Go.

Definition float64 : Type := spec_float.

Definition zero : float64 := S754_zero false.

Definition round_half_even (n d : Z) : Z :=
  let q := n / d in
  match Z.compare (2 * (n mod d)) d with
  | Lt => q
  | Gt => q + 1
  | Eq => if Z.even q then q else q + 1
  end.

(** The binary64 nearest to [n / d] for [0 < n] and [0 < d], ties to
    even.  Every binary64 is a multiple of [2 ^ -1074]: the quotient is
    rounded to a multiple of [2 ^ (g - 1074)], the spacing of the binary64
    numbers around it.  An infinity stands for a result beyond the largest
    binary64. *)
Definition nearest (neg : bool) (n d : Z) : float64 :=
  let g := Z.max (Z.log2 (n * 2 ^ 1074 / d) - 52) 0 in
  let m := round_half_even (n * 2 ^ 1074) (d * 2 ^ g) in
  let g := if m =? 2 ^ 53 then g + 1 else g in
  let m := if m =? 2 ^ 53 then 2 ^ 52 else m in
  match m with
  | Zpos p =>
      if g - 1074 <=? 971 then S754_finite neg p (g - 1074)
      else S754_infinity neg
  | _ => S754_zero neg
  end.




Definition decimal (u : Z) : string := format_bits 400 u "".

Definition tail (s : string) : string :=
  match s with
  | EmptyString => EmptyString
  | String _ s' => s'
  end.

(** [c] hundredths (for [prec] = 2) written with a decimal point. *)
Definition fixed (neg : bool) (c prec : Z) : string :=
  (if neg then "-" else "")
  ++ decimal (c / 10 ^ prec)
  ++ (if prec =? 0 then ""
      else String "." (tail (decimal (10 ^ prec + c mod 10 ^ prec)))).

Definition FormatFloat (x : float64) (fmt : ascii) (prec bitSize : Z)
    : string :=
  match x with
  | S754_nan => "NaN"
  | S754_infinity s => if s then "-Inf" else "+Inf"
  | S754_zero s => fixed s 0 prec
  | S754_finite s m e =>
      fixed s
        (if 0 <=? e then Zpos m * 2 ^ e * 10 ^ prec
         else round_half_even (Zpos m * 10 ^ prec) (2 ^ (- e)))
        prec
  end.

Fixpoint split_dot (s : string) : string * option string :=
  match s with
  | EmptyString => (EmptyString, None)
  | String c s' =>
      if Ascii.eqb c "." then (EmptyString, Some s')
      else let (i, f) := split_dot s' in (String c i, f)
  end.

Definition all_digits (s : string) : bool :=
  forallb is_digit (list_ascii_of_string s).

Definition ParseFloat (s : string) (bitSize : Z) : option float64 :=
  let (neg, body) :=
    match s with
    | String c s' =>
        if Ascii.eqb c "-" then (true, s')
        else if Ascii.eqb c "+" then (false, s')
        else (false, s)
    | EmptyString => (false, EmptyString)
    end in
  let (i, f) := split_dot body in
  let f := default "" f in
  if all_digits i && all_digits f
     && negb (Nat.eqb (String.length i + String.length f) 0) then
    let r :=
      match decimal_value (i ++ f) with
      | Zpos m => nearest neg (Zpos m) (10 ^ Z.of_nat (String.length f))
      | _ => S754_zero neg
      end in
    match r with
    | S754_infinity _ => None
    | _ => Some r
    end
  else None.


End Float64.

(** ** Sequential traces of calls *)

(** The in-process server: a trace of [/start] and [/command/latest]
    requests, each [/start] with the clock reading it gets. *)
Module VolatileTrace.
Import Go Volatile.

Inductive call :=
| Submit (now : Z) (r : Request)
| TakeNext (r : Request).

Definition exec (secret : string) (st : State) (c : call)
    : Response * State :=
  match c with
  | Submit now r => startMachine secret now st r
  | TakeNext r => getLatest secret st r
  end.

Fixpoint run (secret : string) (st : State) (cs : list call)
    : list Response * State :=
  match cs with
  | [] => ([], st)
  | c :: cs' =>
      let (r, st') := exec secret st c in
      let (rs, st'') := run secret st' cs' in
      (r :: rs, st'')
  end.

(** The calls that name device [d]. *)
Definition submits_to (d : string) (c : call) : bool :=
  match c with
  | Submit _ r =>
      match Decoded r with
      | Some cmd => String.eqb (DeviceID cmd) d
      | None => false
      end
  | TakeNext _ => false
  end.

Definition polls (d : string) (c : call) : bool :=
  match c with
  | Submit _ _ => false
  | TakeNext r => String.eqb (index (Query r) "deviceId") d
  end.

(** The command a response carries, if any. *)
Definition delivered (r : Response) : option Command :=
  match Body r with
  | Struct v => Command_ v
  | _ => None
  end.

(** The commands the polls of device [d] were answered with, in order. *)
Fixpoint deliveries (d : string) (cs : list call) (rs : list Response)
    : list Command :=
  match cs, rs with
  | c :: cs', r :: rs' =>
      match (if polls d c then delivered r else None) with
      | Some cmd => cmd :: deliveries d cs' rs'
      | None => deliveries d cs' rs'
      end
  | _, _ => []
  end.

(** The requests a client sends for the two operations. *)
Definition submit_request (cmd : Command) : Request :=
  {| Method := "POST"; Decoded := Some cmd; Query := ∅ |}.

Definition poll_request (deviceID token : string) : Request :=
  {| Method := "GET"; Decoded := None;
     Query := <["deviceId" := deviceID]> (<["token" := token]> ∅) |}.

(** The three states of a device. *)
Definition NoCommand (st : State) (d : string) : Prop :=
  latestByDevice st !! d = None.

Definition Served (st : State) (d : string) : Prop :=
  exists cmd, latestByDevice st !! d = Some cmd
              /\ CreatedAt cmd <= servedAt st d.

Definition Pending (st : State) (d : string) (cmd : Command) : Prop :=
  latestByDevice st !! d = Some cmd /\ servedAt st d < CreatedAt cmd.

(** The command [startMachine] stores for an accepted body. *)
Definition stored (cmd : Command) (now : Z) : Command :=
  {| DeviceID := DeviceID cmd;
     Type_ := Type_ cmd;
     DurationMinutes := DurationMinutes cmd;
     CreatedAt := now;
     Token := "" |}.

(** A poll of device [d] that passes the checks of the request. *)
Definition accepted_poll (secret d : string) (c : call) : Prop :=
  match c with
  | Submit _ _ => False
  | TakeNext r =>
      Method r = "GET" /\ index (Query r) "deviceId" = d
      /\ authorized (index (Query r) "token") secret
  end.

End VolatileTrace.

(** The Lambda handlers over one table: each call comes with the clock
    reading and the outcome of the DynamoDB calls it makes. *)
Module DurableTrace.
Import Go Dynamo.

Inductive call :=
| Submit (now : Z) (putErr : option string) (r : LaundryStart.Request)
| TakeNext (now : Z) (getFail updFail : bool) (r : LaundryLatest.Request).

Inductive response :=
| Started (r : LaundryStart.Response)
| Polled (r : LaundryLatest.Response).

Definition exec (s : Server) (t : Table) (c : call) : response * Table :=
  match c with
  | Submit now putErr r =>
      let (o, t') := LaundryStart.handler s now putErr t r in
      (Started o, t')
  | TakeNext now getFail updFail r =>
      let (o, t') := LaundryLatest.handler s now getFail updFail t r in
      (Polled o, t')
  end.

Fixpoint run (s : Server) (t : Table) (cs : list call)
    : list response * Table :=
  match cs with
  | [] => ([], t)
  | c :: cs' =>
      let (r, t') := exec s t c in
      let (rs, t'') := run s t' cs' in
      (r :: rs, t'')
  end.

(** The calls that name device [d], by the trimmed identifier. *)
Definition submits_to (d : string) (c : call) : bool :=
  match c with
  | Submit _ _ r =>
      match LaundryStart.Decoded r with
      | Some cmd => String.eqb (TrimSpace (LaundryStart.DeviceID cmd)) d
      | None => false
      end
  | TakeNext _ _ _ _ => false
  end.

Definition polls (d : string) (c : call) : bool :=
  match c with
  | Submit _ _ _ => false
  | TakeNext _ _ _ r =>
      String.eqb
        (TrimSpace
           (index (LaundryLatest.QueryStringParameters r) "deviceId")) d
  end.

(** A poll of [d] whose mark-served write fails. *)
Definition mark_fails (d : string) (c : call) : bool :=
  match c with
  | Submit _ _ _ => false
  | TakeNext _ _ updFail _ => polls d c && updFail
  end.

Definition delivered (r : response) : option LaundryLatest.Command :=
  match r with
  | Polled o =>
      match Body o with
      | Struct v => LaundryLatest.Command_ v
      | _ => None
      end
  | Started _ => None
  end.

Fixpoint deliveries (d : string) (cs : list call) (rs : list response)
    : list LaundryLatest.Command :=
  match cs, rs with
  | c :: cs', r :: rs' =>
      match (if polls d c then delivered r else None) with
      | Some cmd => cmd :: deliveries d cs' rs'
      | None => deliveries d cs' rs'
      end
  | _, _ => []
  end.

Definition poll_request (deviceID token : string)
    : LaundryLatest.Request :=
  {| LaundryLatest.QueryStringParameters :=
       <["deviceId" := deviceID]> (<["token" := token]> ∅) |}.

Definition NoCommand (t : Table) (d : string) : Prop := t !! d = None.

Definition Served (t : Table) (d : string) : Prop :=
  exists item : Item, t !! d = Some item /\ is_Some (item !! "servedAt").

Definition Pending (t : Table) (d : string) : Prop :=
  exists item : Item, t !! d = Some item /\ item !! "servedAt" = None.

(** The command a poll builds from the item [laundryStart] wrote for the
    body [cmd] at clock [now], for a clock that is not negative. *)
Definition stored (cmd : LaundryStart.Command) (now : Z)
    : LaundryLatest.Command :=
  {| LaundryLatest.DeviceID := TrimSpace (LaundryStart.DeviceID cmd);
     LaundryLatest.Type_ := LaundryStart.Type_ cmd;
     LaundryLatest.DurationMinutes := LaundryStart.DurationMinutes cmd;
     LaundryLatest.CreatedAt := now |}.

(** A poll of device [d] that passes the checks of the request, and whose
    read of the table succeeds. *)
Definition accepted_poll (s : Server) (d : string) (c : call) : Prop :=
  match c with
  | Submit _ _ _ => False
  | TakeNext _ getFail _ r =>
      getFail = false
      /\ TrimSpace
           (index (LaundryLatest.QueryStringParameters r) "deviceId") = d
      /\ authorized
           (index (LaundryLatest.QueryStringParameters r) "token")
           (sharedSecret s)
  end.

End DurableTrace.

(** ** Concurrent polls *)

(** [getLatest] calls running at once in the in-process server.  The
    checks of the request read no shared variable, so a call starts at
    [mu.Lock()]; from there every statement is a step of its own, and the
    steps of different calls interleave freely. *)
Module VolatileThreads.
Import Go Volatile.

Inductive pc :=
| AtLock                     (* before mu.Lock() *)
| AtLookup                   (* before cmd, ok := latestByDevice[deviceID] *)
| AtCheck (cmd : Command)    (* before lastServedAt[deviceID] >= cmd.CreatedAt *)
| AtMark (cmd : Command)     (* before lastServedAt[deviceID] = cmd.CreatedAt *)
| AtUnlock (r : Response)    (* response written, the deferred mu.Unlock() is due *)
| Done (r : Response).

Record thread := { deviceID : string; at_ : pc }.

Record Shared := { mu : bool; store : State }.

Definition start (sharedSecret : string) (r : Request) : thread :=
  let deviceID := index (Query r) "deviceId" in
  let token := index (Query r) "token" in
  {| deviceID := deviceID;
     at_ :=
       if negb (String.eqb (Method r) "GET") then
         Done (writeErr 405 "method not allowed")
       else if String.eqb deviceID "" then
         Done (writeErr 400 "deviceId required")
       else if String.eqb token ""
               || negb (timingSafeEq token sharedSecret) then
         Done (writeErr 401 "unauthorized")
       else AtLock |}.

Definition goto (th : thread) (p : pc) : thread :=
  {| deviceID := deviceID th; at_ := p |}.

Definition step_thread (th : thread) (sh : Shared)
    : option (thread * Shared) :=
  let st := store sh in
  match at_ th with
  | AtLock =>
      if mu sh then None
      else Some (goto th AtLookup, {| mu := true; store := st |})
  | AtLookup =>
      match latestByDevice st !! deviceID th with
      | None =>
          Some (goto th
                  (AtUnlock (writeJSON 200 (Struct {| Command_ := None |}))),
                sh)
      | Some cmd => Some (goto th (AtCheck cmd), sh)
      end
  | AtCheck cmd =>
      if servedAt st (deviceID th) >=? CreatedAt cmd then
        Some (goto th
                (AtUnlock (writeJSON 200 (Struct {| Command_ := None |}))),
              sh)
      else Some (goto th (AtMark cmd), sh)
  | AtMark cmd =>
      Some (goto th
              (AtUnlock
                 (writeJSON 200 (Struct {| Command_ := Some cmd |}))),
            {| mu := mu sh;
               store :=
                 {| latestByDevice := latestByDevice st;
                    lastServedAt :=
                      <[deviceID th := CreatedAt cmd]> (lastServedAt st) |}
            |})
  | AtUnlock r => Some (goto th (Done r), {| mu := false; store := st |})
  | Done _ => None
  end.

(** One step of the system is one step of one of its threads. *)
Inductive step : list thread * Shared -> list thread * Shared -> Prop :=
| step_at (l1 l2 : list thread) (th th' : thread) (sh sh' : Shared) :
    step_thread th sh = Some (th', sh') ->
    step ((l1 ++ th :: l2)%list, sh) ((l1 ++ th' :: l2)%list, sh').

Fixpoint count (f : thread -> bool) (l : list thread) : nat :=
  match l with
  | [] => O
  | th :: l' => ((if f th then 1 else 0) + count f l')%nat
  end.

(** The thread has its answer, and the answer carries a command for [d]. *)
Definition delivers (d : string) (th : thread) : bool :=
  String.eqb (deviceID th) d
  && match at_ th with
     | AtUnlock r | Done r =>
         match VolatileTrace.delivered r with
         | Some _ => true
         | None => false
         end
     | _ => false
     end.

Definition holds_lock (th : thread) : bool :=
  match at_ th with
  | AtLookup | AtCheck _ | AtMark _ | AtUnlock _ => true
  | AtLock | Done _ => false
  end.

Definition marking (d : string) (th : thread) : bool :=
  String.eqb (deviceID th) d
  && match at_ th with AtMark _ => true | _ => false end.

Definition initial (sharedSecret : string) (st : State)
    (rs : list Request) : list thread * Shared :=
  (List.map (start sharedSecret) rs, {| mu := false; store := st |}).

(** What holds of a thread past its lookup: the command it read is the
    one stored, and past the test the watermark is below it. *)
Definition local_ok (st : State) (th : thread) : Prop :=
  match at_ th with
  | AtCheck cmd => latestByDevice st !! deviceID th = Some cmd
  | AtMark cmd =>
      latestByDevice st !! deviceID th = Some cmd
      /\ servedAt st (deviceID th) < CreatedAt cmd
  | _ => True
  end.

(** The invariant of the system, for device [d]: the mutex is held by
    exactly the thread inside the critical section, if any; at most one
    thread has delivered or is about to; and once one has delivered, the
    watermark of [d] has reached its stored command. *)
Definition invariant (d : string) (cfg : list thread * Shared) : Prop :=
  count holds_lock (fst cfg) = (if mu (snd cfg) then 1 else 0)%nat
  /\ Forall (local_ok (store (snd cfg))) (fst cfg)
  /\ (count (delivers d) (fst cfg) + count (marking d) (fst cfg) <= 1)%nat
  /\ ((1 <= count (delivers d) (fst cfg))%nat ->
      forall c, latestByDevice (store (snd cfg)) !! d = Some c ->
                CreatedAt c <= servedAt (store (snd cfg)) d).

End VolatileThreads.

(** Calls of the [laundryLatest] handler running at once over one table:
    the read ([GetItem]) and the write ([UpdateItem]) are two steps, and the
    steps of different calls interleave.  Both store calls succeed. *)
Module DurableThreads.
Import Go Dynamo LaundryLatest.

Inductive pc :=
| AtGet                      (* before GetItem *)
| AtUpdate (cmd : Command)   (* item decoded, before UpdateItem *)
| Done (r : Response).

Record thread := { deviceID : string; now : Z; at_ : pc }.

Definition start (s : Server) (now : Z) (req : Request) : thread :=
  let deviceID := TrimSpace (index (QueryStringParameters req) "deviceId") in
  let token := index (QueryStringParameters req) "token" in
  {| deviceID := deviceID;
     now := now;
     at_ :=
       if String.eqb deviceID "" then
         Done (resp 400 (MapStringString [("error", "deviceId required")]))
       else if String.eqb token "" || String.eqb (sharedSecret s) ""
               || negb (timingSafeEq token (sharedSecret s)) then
         Done (resp 401 (MapStringString [("error", "unauthorized")]))
       else AtGet |}.

Definition goto (th : thread) (p : pc) : thread :=
  {| deviceID := deviceID th; now := now th; at_ := p |}.

(** The command the handler builds from an item that has no [servedAt]. *)
Definition command_of (deviceID : string) (item : Item) : Command :=
  {| DeviceID := deviceID;
     Type_ :=
       match item !! "type" with
       | Some (AttributeValueMemberS v) => v
       | _ => ""
       end;
     DurationMinutes :=
       match item !! "durationMinutes" with
       | Some (AttributeValueMemberN v) => mustInt64 v
       | _ => 0
       end;
     CreatedAt :=
       match item !! "createdAt" with
       | Some (AttributeValueMemberN v) => mustInt64 v
       | _ => 0
       end |}.

Definition step_thread (th : thread) (t : Table) : option (thread * Table) :=
  match at_ th with
  | AtGet =>
      match GetItem false t (deviceID th) with
      | None =>
          Some (goto th
                  (Done (resp 500
                           (MapStringString [("error", "get failed")]))),
                t)
      | Some None =>
          Some (goto th (Done (resp 200 (Struct {| Command_ := None |}))), t)
      | Some (Some item) =>
          match item !! "servedAt" with
          | Some _ =>
              Some (goto th
                      (Done (resp 200 (Struct {| Command_ := None |}))), t)
          | None =>
              Some (goto th (AtUpdate (command_of (deviceID th) item)), t)
          end
      end
  | AtUpdate cmd =>
      Some (goto th (Done (resp 200 (Struct {| Command_ := Some cmd |}))),
            UpdateItem_SET false t (deviceID th) "servedAt"
              (AttributeValueMemberN (FormatInt (now th))))
  | Done _ => None
  end.

Inductive step : list thread * Table -> list thread * Table -> Prop :=
| step_at (l1 l2 : list thread) (th th' : thread) (t t' : Table) :
    step_thread th t = Some (th', t') ->
    step ((l1 ++ th :: l2)%list, t) ((l1 ++ th' :: l2)%list, t').

(** The thread is done and its answer carries command [cmd]. *)
Definition answered (cmd : Command) (th : thread) : Prop :=
  at_ th = Done (resp 200 (Struct {| Command_ := Some cmd |})).

End DurableThreads.

(** ** Further notions the properties are stated with *)

Module Mailbox.
Import Go Dynamo.

Definition valid_type (ty : string) : Prop := ty = "wash" \/ ty = "dry".

(** A body the in-process server accepts, and one the Lambda submit
    handler accepts. *)
Definition accepted_body (secret : string) (cmd : Volatile.Command) : Prop :=
  authorized (Volatile.Token cmd) secret
  /\ Volatile.DeviceID cmd <> ""
  /\ valid_type (Volatile.Type_ cmd)
  /\ 0 < Volatile.DurationMinutes cmd.

Definition accepted_start (s : Server) (cmd : LaundryStart.Command) : Prop :=
  authorized (LaundryStart.Token cmd) (sharedSecret s)
  /\ TrimSpace (LaundryStart.DeviceID cmd) <> ""
  /\ valid_type (LaundryStart.Type_ cmd)
  /\ 0 < LaundryStart.DurationMinutes cmd.

(** The state of the in-process server at start-up. *)
Definition empty_state : Volatile.State :=
  {| Volatile.latestByDevice := ∅; Volatile.lastServedAt := ∅ |}.

(** Every stored command sits under its own device, which is named, has a
    valid type and duration, and carries no token. *)
Definition well_formed (st : Volatile.State) : Prop :=
  forall d cmd,
    Volatile.latestByDevice st !! d = Some cmd ->
    Volatile.DeviceID cmd = d /\ d <> "" /\ Volatile.Token cmd = ""
    /\ valid_type (Volatile.Type_ cmd)
    /\ 0 < Volatile.DurationMinutes cmd.

(** The calls of a trace that name device [d]. *)
Definition names (d : string) (c : VolatileTrace.call) : bool :=
  VolatileTrace.submits_to d c || VolatileTrace.polls d c.

Definition table_names (d : string) (c : DurableTrace.call) : bool :=
  DurableTrace.submits_to d c || DurableTrace.polls d c.

(** A thread of [getLatest] that has its answer, the answer being 200
    without a command for [d]. *)
Definition answered_empty (d : string) (th : VolatileThreads.thread) : bool :=
  String.eqb (VolatileThreads.deviceID th) d
  && match VolatileThreads.at_ th with
     | VolatileThreads.AtUnlock r | VolatileThreads.Done r =>
         (StatusCode r =? 200)
         && match VolatileTrace.delivered r with
            | Some _ => false
            | None => true
            end
     | _ => false
     end.

Definition done (th : VolatileThreads.thread) : bool :=
  match VolatileThreads.at_ th with
  | VolatileThreads.Done _ => true
  | _ => false
  end.

(** The thread is done with the answer of an accepted poll of [d]. *)
Definition done_accepted (d : string) (th : VolatileThreads.thread) : bool :=
  String.eqb (VolatileThreads.deviceID th) d
  && match VolatileThreads.at_ th with
     | VolatileThreads.Done r => StatusCode r =? 200
     | _ => false
     end.

(** The numbers of [l] increase strictly, starting above [lo]. *)
Fixpoint increasing_from (lo : Z) (l : list Z) : Prop :=
  match l with
  | [] => True
  | x :: l' => lo < x /\ increasing_from x l'
  end.

(** Two states of the in-process server that agree on device [d]. *)
Definition same_view (d : string) (st1 st2 : Volatile.State) : Prop :=
  Volatile.latestByDevice st1 !! d = Volatile.latestByDevice st2 !! d
  /\ Volatile.servedAt st1 d = Volatile.servedAt st2 d.

(** The command in the answer a thread of [getLatest] has written, if
    any. *)
Definition answer_of (th : VolatileThreads.thread)
    : option Volatile.Command :=
  match VolatileThreads.at_ th with
  | VolatileThreads.AtUnlock r | VolatileThreads.Done r =>
      VolatileTrace.delivered r
  | _ => None
  end.

(** What holds while polls run at once over a state in which [cmd] was
    pending for [d]: the command stays stored; the watermark of [d] reaches
    it only when a poll has taken it; a poll of [d] is answered without a
    command only once the watermark has reached it; and no other command is
    handed out for [d]. *)
Definition pending_invariant (d : string) (cmd : Volatile.Command)
    (cfg : list VolatileThreads.thread * VolatileThreads.Shared) : Prop :=
  let st := VolatileThreads.store (snd cfg) in
  Volatile.latestByDevice st !! d = Some cmd
  /\ (Volatile.servedAt st d < Volatile.CreatedAt cmd
      \/ (1 <= VolatileThreads.count (VolatileThreads.delivers d) (fst cfg))%nat)
  /\ ((1 <= VolatileThreads.count (answered_empty d) (fst cfg))%nat ->
      Volatile.CreatedAt cmd <= Volatile.servedAt st d)
  /\ Forall (fun th => VolatileThreads.deviceID th = d ->
                       forall c, answer_of th = Some c -> c = cmd)
        (fst cfg).

(** Calls of the Lambda poll handler started at once over a table, each
    with its clock reading. *)
Definition table_initial (s : Server) (t : Table)
    (rs : list (Z * LaundryLatest.Request))
    : list DurableThreads.thread * Table :=
  (List.map (fun nr => DurableThreads.start s (fst nr) (snd nr)) rs, t).

(** The thread is a poll of [d] answered 200 without a command. *)
Definition table_empty (d : string) (th : DurableThreads.thread) : Prop :=
  DurableThreads.deviceID th = d
  /\ DurableThreads.at_ th
     = DurableThreads.Done
         (LaundryLatest.resp 200
            (Struct {| LaundryLatest.Command_ := None |})).

(** The thread is a poll of [d] answered with command [cmd]. *)
Definition table_got (d : string) (cmd : LaundryLatest.Command)
    (th : DurableThreads.thread) : Prop :=
  DurableThreads.deviceID th = d /\ DurableThreads.answered cmd th.

(** What holds while polls run at once over a table in which [item0] is
    the unserved item of [d]: the item stays as it is until a poll that got
    its command has marked it; a poll holds or returns no other command; and
    a poll is answered without a command only once the item is marked. *)
Definition table_pending_invariant (d : string) (item0 : Item)
    (cfg : list DurableThreads.thread * Table) : Prop :=
  let cmd0 := DurableThreads.command_of d item0 in
  (snd cfg !! d = Some item0
   \/ ((exists item, snd cfg !! d = Some item /\ item !! "servedAt" <> None)
       /\ Exists (table_got d cmd0) (fst cfg)))
  /\ Forall (fun th =>
               DurableThreads.deviceID th = d ->
               match DurableThreads.at_ th with
               | DurableThreads.AtGet => True
               | DurableThreads.AtUpdate c => c = cmd0
               | DurableThreads.Done _ =>
                   forall c, DurableThreads.answered c th -> c = cmd0
               end)
        (fst cfg)
  /\ (Exists (table_empty d) (fst cfg) -> snd cfg !! d <> Some item0).

End Mailbox.

(** ** The whole in-process server

    Calls of [startMachine] and of [getLatest] running at once.  The checks
    of a request and the clock reading of [startMachine] touch no shared
    variable, so a call starts at its [mu.Lock()]; from there every
    statement is a step, and the steps of the calls interleave freely.  The
    calls of [getLatest] step as in [VolatileThreads]. *)
Module ServerThreads.
Import Go Volatile.

Inductive submit_pc :=
| SLock (cmd : Command)     (* before mu.Lock() *)
| SStore (cmd : Command)    (* before latestByDevice[cmd.DeviceID] = cmd *)
| SUnlock (cmd : Command)   (* before mu.Unlock() *)
| SWrite (cmd : Command)    (* before writeJSON(w, 200, ...) *)
| SDone (r : Response).

Inductive code :=
| Submitting (p : submit_pc)
| Polling (p : VolatileThreads.thread).

(** A call in progress: the request it serves and where it stands. *)
Record thread := { call : VolatileTrace.call; at_ : code }.

(** [startMachine] up to [mu.Lock()]: the checks, then the clock reading
    and the token cleared in the local [cmd]. *)
Definition start_submit (sharedSecret : string) (now : Z) (r : Request)
    : submit_pc :=
  if negb (String.eqb (Method r) "POST") then
    SDone (writeErr 405 "method not allowed")
  else
    match Decoded r with
    | None => SDone (writeErr 400 "invalid json")
    | Some cmd =>
        if String.eqb (Token cmd) ""
           || negb (timingSafeEq (Token cmd) sharedSecret) then
          SDone (writeErr 401 "unauthorized")
        else if String.eqb (DeviceID cmd) "" then
          SDone (writeErr 400 "deviceId required")
        else if negb (String.eqb (Type_ cmd) "wash")
                && negb (String.eqb (Type_ cmd) "dry") then
          SDone (writeErr 400 "type must be wash or dry")
        else if DurationMinutes cmd <=? 0 then
          SDone (writeErr 400 "duration must be greater than 0 minutes")
        else
          SLock {| DeviceID := DeviceID cmd;
                   Type_ := Type_ cmd;
                   DurationMinutes := DurationMinutes cmd;
                   CreatedAt := now;
                   Token := "" |}
    end.

Definition start (sharedSecret : string) (c : VolatileTrace.call) : thread :=
  {| call := c;
     at_ :=
       match c with
       | VolatileTrace.Submit now r =>
           Submitting (start_submit sharedSecret now r)
       | VolatileTrace.TakeNext r =>
           Polling (VolatileThreads.start sharedSecret r)
       end |}.

(** The last statement of [startMachine]. *)
Definition ok (cmd : Command) : Response :=
  writeJSON 200
    (MapStringAny [("ok", VBool true); ("createdAt", VInt64 (CreatedAt cmd))]).

Definition step_submit (p : submit_pc) (sh : VolatileThreads.Shared)
    : option (submit_pc * VolatileThreads.Shared) :=
  let st := VolatileThreads.store sh in
  match p with
  | SLock cmd =>
      if VolatileThreads.mu sh then None
      else Some (SStore cmd,
                 {| VolatileThreads.mu := true; VolatileThreads.store := st |})
  | SStore cmd =>
      Some (SUnlock cmd,
            {| VolatileThreads.mu := VolatileThreads.mu sh;
               VolatileThreads.store :=
                 {| latestByDevice :=
                      <[DeviceID cmd := cmd]> (latestByDevice st);
                    lastServedAt := lastServedAt st |} |})
  | SUnlock cmd =>
      Some (SWrite cmd,
            {| VolatileThreads.mu := false; VolatileThreads.store := st |})
  | SWrite cmd => Some (SDone (ok cmd), sh)
  | SDone _ => None
  end.

Definition step_thread (th : thread) (sh : VolatileThreads.Shared)
    : option (thread * VolatileThreads.Shared) :=
  match at_ th with
  | Submitting p =>
      match step_submit p sh with
      | Some (p', sh') => Some ({| call := call th; at_ := Submitting p' |}, sh')
      | None => None
      end
  | Polling p =>
      match VolatileThreads.step_thread p sh with
      | Some (p', sh') => Some ({| call := call th; at_ := Polling p' |}, sh')
      | None => None
      end
  end.

(** One step of the server is one step of one of its calls. *)
Inductive step
  : list thread * VolatileThreads.Shared ->
    list thread * VolatileThreads.Shared -> Prop :=
| step_at (l1 l2 : list thread) (th th' : thread)
    (sh sh' : VolatileThreads.Shared) :
    step_thread th sh = Some (th', sh') ->
    step ((l1 ++ th :: l2)%list, sh) ((l1 ++ th' :: l2)%list, sh').

Definition initial (sharedSecret : string) (st : State)
    (cs : list VolatileTrace.call) : list thread * VolatileThreads.Shared :=
  (List.map (start sharedSecret) cs,
   {| VolatileThreads.mu := false; VolatileThreads.store := st |}).

(** The response of a call that has returned. *)
Definition answer (th : thread) : option Response :=
  match at_ th with
  | Submitting (SDone r) => Some r
  | Submitting _ => None
  | Polling p =>
      match VolatileThreads.at_ p with
      | VolatileThreads.Done r => Some r
      | _ => None
      end
  end.

(** The response of a call that has left its critical section: returned
    already, or about to be written. *)
Definition answer_due (th : thread) : option Response :=
  match at_ th with
  | Submitting (SWrite cmd) => Some (ok cmd)
  | _ => answer th
  end.

(** The statements a call has still to run. *)
Definition steps_left_of (th : thread) : nat :=
  match at_ th with
  | Submitting (SLock _) => 4
  | Submitting (SStore _) => 3
  | Submitting (SUnlock _) => 2
  | Submitting (SWrite _) => 1
  | Submitting (SDone _) => 0
  | Polling p =>
      match VolatileThreads.at_ p with
      | VolatileThreads.AtLock => 5
      | VolatileThreads.AtLookup => 4
      | VolatileThreads.AtCheck _ => 3
      | VolatileThreads.AtMark _ => 2
      | VolatileThreads.AtUnlock _ => 1
      | VolatileThreads.Done _ => 0
      end
  end.

Definition steps_left (cfg : list thread * VolatileThreads.Shared) : nat :=
  list_sum (List.map steps_left_of (fst cfg)).

(** What holds of the call inside the critical section, [S] being the
    state the lock was taken in: up to its writes the maps are still [S],
    and once its writes are done the response and the maps are those of
    the whole function run on [S]. *)
Definition inside_ok (sharedSecret : string) (S : State)
    (sh : VolatileThreads.Shared) (th : thread) : Prop :=
  match at_ th, call th with
  | Submitting (SStore cmd), VolatileTrace.Submit now r =>
      VolatileThreads.store sh = S
      /\ start_submit sharedSecret now r = SLock cmd
  | Submitting (SUnlock cmd), VolatileTrace.Submit now r =>
      startMachine sharedSecret now S r = (ok cmd, VolatileThreads.store sh)
  | Polling p, VolatileTrace.TakeNext r =>
      VolatileThreads.deviceID p = index (Query r) "deviceId"
      /\ VolatileThreads.at_ (VolatileThreads.start sharedSecret r)
         = VolatileThreads.AtLock
      /\ match VolatileThreads.at_ p with
         | VolatileThreads.AtLookup => VolatileThreads.store sh = S
         | VolatileThreads.AtCheck cmd =>
             VolatileThreads.store sh = S
             /\ latestByDevice S !! VolatileThreads.deviceID p = Some cmd
         | VolatileThreads.AtMark cmd =>
             VolatileThreads.store sh = S
             /\ latestByDevice S !! VolatileThreads.deviceID p = Some cmd
             /\ servedAt S (VolatileThreads.deviceID p) < CreatedAt cmd
         | VolatileThreads.AtUnlock r' =>
             getLatest sharedSecret S r = (r', VolatileThreads.store sh)
         | _ => False
         end
  | _, _ => False
  end.

(** The invariant of the server: the calls are those it was started with;
    the calls that have left their critical section, in the order they
    left it ([lin]), are answered as by the functions run one after the
    other in that order from the initial state; the call inside, if any,
    works on the state this leads to; the others have not begun. *)
Definition linearized (sharedSecret : string) (st : State)
    (cs : list VolatileTrace.call)
    (cfg : list thread * VolatileThreads.Shared) : Prop :=
  List.map call (fst cfg) = cs
  /\ exists lin ins pend : list thread,
      Permutation (fst cfg) (lin ++ ins ++ pend)
      /\ Forall (fun th => th = start sharedSecret (call th)) pend
      /\ List.map answer_due lin
         = List.map Some
             (fst (VolatileTrace.run sharedSecret st (List.map call lin)))
      /\ let S :=
           snd (VolatileTrace.run sharedSecret st (List.map call lin)) in
         if VolatileThreads.mu (snd cfg) then
           exists th, ins = [th] /\ inside_ok sharedSecret S (snd cfg) th
         else ins = [] /\ VolatileThreads.store (snd cfg) = S.

End ServerThreads.

(** * Properties *)

(** ** The library functions *)

Module GoFacts.
Import Go.

Lemma byte_of_inj (a b : ascii) : byte_of a = byte_of b -> a = b.
Proof.
  unfold byte_of. intros H. apply N2Z.inj in H.
  rewrite <- (ascii_N_embedding a), <- (ascii_N_embedding b). now f_equal.
Qed.

Lemma byte_of_range (c : ascii) : 0 <= byte_of c < 256.
Proof.
  unfold byte_of. pose proof (N_ascii_bounded c). lia.
Qed.

Lemma xor_fold_zero (x y : string) (v : Z) :
  xor_fold x y v = 0 -> v = 0.
Proof.
  revert y v. induction x as [|a x IH]; intros [|b y] v; simpl; auto.
  intros H. apply IH in H. apply Z.lor_eq_0_iff in H. tauto.
Qed.

Lemma xor_fold_eq (x y : string) (v : Z) :
  String.length x = String.length y ->
  xor_fold x y v = 0 -> x = y.
Proof.
  revert y v. induction x as [|a x IH]; intros [|b y] v; simpl; try easy.
  intros Hlen H. injection Hlen as Hlen.
  pose proof (xor_fold_zero _ _ _ H) as Hv.
  apply Z.lor_eq_0_iff in Hv. destruct Hv as [_ Hab].
  apply Z.lxor_eq in Hab. apply byte_of_inj in Hab. subst b.
  f_equal. eapply IH; eauto.
Qed.

Lemma xor_fold_refl (x : string) : xor_fold x x 0 = 0.
Proof.
  induction x as [|a x IH]; simpl; auto.
  now rewrite Z.lxor_nilpotent.
Qed.

(** The constant-time comparison decides equality of the two byte
    strings. *)
Lemma timingSafeEq_spec (a b : string) : timingSafeEq a b = true <-> a = b.
Proof.
  unfold timingSafeEq, ConstantTimeCompare. split.
  - destruct (Nat.eqb_spec (String.length a) (String.length b)) as [Hl|Hl];
      simpl; [|discriminate].
    destruct (Z.eqb_spec (xor_fold a b 0) 0) as [Hx|Hx]; [|discriminate].
    intros _. eapply xor_fold_eq; eauto.
  - intros ->. rewrite Nat.eqb_refl. simpl.
    now rewrite xor_fold_refl.
Qed.

Lemma timingSafeEq_false (a b : string) : a <> b -> timingSafeEq a b = false.
Proof.
  intros Hne. destruct (timingSafeEq a b) eqn:E; auto.
  apply timingSafeEq_spec in E. contradiction.
Qed.

Lemma eqb_empty_false (s : string) : s <> "" -> String.eqb s "" = false.
Proof. intros H. now apply String.eqb_neq. Qed.

(** *** White space *)

Lemma strip_first_space (p s : string) :
  In p space_encodings ->
  strip_first space_encodings (p ++ s) = Some s.
Proof.
  unfold space_encodings. simpl.
  intros H.
  repeat (destruct H as [<- | H]; [reflexivity|]).
  destruct H.
Qed.

Lemma space_nonempty (p : string) :
  In p space_encodings -> (1 <= String.length p)%nat.
Proof.
  unfold space_encodings. simpl. intros H.
  repeat (destruct H as [<- | H]; [simpl; lia|]).
  destruct H.
Qed.

Lemma length_append (s1 s2 : string) :
  String.length (s1 ++ s2) = (String.length s1 + String.length s2)%nat.
Proof. induction s1 as [|c s1 IH]; simpl; auto. Qed.

Lemma trim_left_space (s : string) :
  WhiteSpace s ->
  forall fuel, (String.length s <= fuel)%nat ->
               trim_left fuel space_encodings s = "".
Proof.
  induction 1 as [|p s Hp Hs IH]; intros fuel Hfuel.
  - destruct fuel; reflexivity.
  - rewrite length_append in Hfuel.
    pose proof (space_nonempty _ Hp).
    destruct fuel as [|fuel]; [lia|]. cbn [trim_left].
    rewrite strip_first_space by assumption.
    apply IH. lia.
Qed.

(** White space only trims to the empty string. *)
Lemma TrimSpace_WhiteSpace (s : string) : WhiteSpace s -> TrimSpace s = "".
Proof.
  intros H. unfold TrimSpace.
  rewrite trim_left_space by (auto; lia). reflexivity.
Qed.

Lemma TrimSpace_empty : TrimSpace "" = "".
Proof. reflexivity. Qed.

End GoFacts.

(** ** Decimal strings *)

Module DecimalFacts.
Import Go LaundryLatest.

Lemma byte_of_digit_char (d : Z) :
  0 <= d < 10 -> byte_of (digit_char d) = 48 + d.
Proof.
  intros Hd. unfold byte_of, digit_char.
  rewrite N_ascii_embedding by lia. lia.
Qed.

Lemma is_digit_digit_char (d : Z) :
  0 <= d < 10 -> is_digit (digit_char d) = true.
Proof.
  intros Hd. unfold is_digit. rewrite byte_of_digit_char by assumption.
  apply andb_true_iff. split; apply Z.leb_le; lia.
Qed.

Lemma wrap64_small (z : Z) : int64_range z -> wrap64 z = z.
Proof.
  unfold int64_range, wrap64. intros H.
  rewrite Z.mod_small by lia. lia.
Qed.

Lemma wrap64_range (z : Z) : int64_range (wrap64 z).
Proof.
  unfold int64_range, wrap64.
  pose proof (Z.mod_pos_bound (z + 2 ^ 63) (2 ^ 64) ltac:(lia)). lia.
Qed.

(** [wrap64] only depends on its argument modulo 2^64. *)
Lemma wrap64_step (a d : Z) : wrap64 (wrap64 a * 10 + d) = wrap64 (a * 10 + d).
Proof.
  unfold wrap64. f_equal.
  set (q := (a + 2 ^ 63) / 2 ^ 64). set (r := (a + 2 ^ 63) mod 2 ^ 64).
  assert (Ha : a = 2 ^ 64 * q + r - 2 ^ 63)
    by (unfold q, r; pose proof (Z.div_mod (a + 2 ^ 63) (2 ^ 64)); lia).
  replace (a * 10 + d + 2 ^ 63)
    with ((r - 2 ^ 63) * 10 + d + 2 ^ 63 + (10 * q) * 2 ^ 64) by lia.
  now rewrite Z.mod_add by lia.
Qed.

Lemma guard_is_digit (c : ascii) :
  (byte_of c <? 48) || (byte_of c >? 57) = negb (is_digit c).
Proof.
  unfold is_digit.
  destruct (Z.ltb_spec (byte_of c) 48), (Z.leb_spec 48 (byte_of c)),
    (Z.leb_spec (byte_of c) 57); rewrite ?Z.gtb_ltb; simpl; try lia;
    try (destruct (Z.ltb_spec 57 (byte_of c)); simpl; auto; lia).
Qed.

Lemma mustInt64_loop_wrap (s : string) (n : Z) :
  mustInt64_loop s (wrap64 n) = wrap64 (digits_loop s n).
Proof.
  revert n. induction s as [|c s IH]; intros n; simpl.
  - reflexivity.
  - rewrite guard_is_digit. destruct (is_digit c); simpl.
    + rewrite wrap64_step. apply IH.
    + reflexivity.
Qed.

Lemma digits_loop_leading (s : string) (n : Z) :
  digits_loop s n
  = fold_left (fun a c => a * 10 + (byte_of c - 48))
      (list_ascii_of_string (leading_digits s)) n.
Proof.
  revert n. induction s as [|c s IH]; intros n; simpl; auto.
  destruct (is_digit c); simpl; auto.
Qed.

(** [mustInt64] yields the value of the leading digits, wrapped to 64
    bits. *)
Lemma mustInt64_spec (s : string) :
  mustInt64 s = wrap64 (decimal_value (leading_digits s)).
Proof.
  unfold mustInt64, decimal_value.
  rewrite <- digits_loop_leading.
  rewrite <- mustInt64_loop_wrap. reflexivity.
Qed.

Lemma decimal_value_nonneg_from (l : list ascii) (n : Z) :
  Forall (fun c => is_digit c = true) l -> 0 <= n ->
  0 <= fold_left (fun a c => a * 10 + (byte_of c - 48)) l n.
Proof.
  intros Hl. revert n. induction Hl as [|c l Hc Hl IH]; intros n Hn; simpl.
  - assumption.
  - apply IH. unfold is_digit in Hc. apply andb_true_iff in Hc.
    destruct Hc as [Hc _]. apply Z.leb_le in Hc. lia.
Qed.

Lemma leading_digits_digits (s : string) :
  Forall (fun c => is_digit c = true)
    (list_ascii_of_string (leading_digits s)).
Proof.
  induction s as [|c s IH]; simpl; [constructor|].
  destruct (is_digit c) eqn:E; simpl; constructor; auto.
Qed.

Lemma mustInt64_small (s : string) :
  decimal_value (leading_digits s) < 2 ^ 63 ->
  mustInt64 s = decimal_value (leading_digits s).
Proof.
  intros H. rewrite mustInt64_spec. apply wrap64_small.
  unfold int64_range. split; [|assumption].
  pose proof (decimal_value_nonneg_from _ 0 (leading_digits_digits s)).
  unfold decimal_value. lia.
Qed.

Lemma mustInt64_nondigit (c : ascii) (s : string) :
  is_digit c = false -> mustInt64 (String c s) = 0.
Proof.
  intros H. unfold mustInt64. simpl. rewrite guard_is_digit, H. reflexivity.
Qed.

(** Formatting then reading back. *)
Lemma digits_loop_format_bits (fuel : nat) (u : Z) (acc : string) :
  0 <= u < 10 ^ Z.of_nat fuel ->
  digits_loop (format_bits fuel u acc) 0 = digits_loop acc u.
Proof.
  revert u acc. induction fuel as [|fuel IH]; intros u acc Hu.
  - simpl in *. assert (u = 0) by lia. now subst.
  - cbn [format_bits]. destruct (Z.ltb_spec u 10) as [Hlt|Hge].
    + simpl. rewrite is_digit_digit_char, byte_of_digit_char by lia.
      f_equal. lia.
    + rewrite IH.
      * simpl. pose proof (Z.mod_pos_bound u 10 ltac:(lia)).
        rewrite is_digit_digit_char, byte_of_digit_char by lia.
        f_equal. pose proof (Z.div_mod u 10). lia.
      * rewrite Nat2Z.inj_succ, Z.pow_succ_r in Hu by lia.
        split; [apply Z.div_pos; lia|].
        apply Z.div_lt_upper_bound; lia.
Qed.




Lemma pow10_20 : 2 ^ 64 < 10 ^ Z.of_nat 20.
Proof. reflexivity. Qed.

(** [mustInt64] reads back what [FormatInt] writes for a number that is
    not negative. *)
Lemma mustInt64_FormatInt (n : Z) :
  0 <= n < 2 ^ 63 -> mustInt64 (FormatInt n) = n.
Proof.
  intros Hn. unfold FormatInt. destruct (Z.ltb_spec n 0); [lia|].
  unfold FormatUint, mustInt64.
  change 0 with (wrap64 0) at 1. rewrite mustInt64_loop_wrap.
  rewrite digits_loop_format_bits.
  - simpl. apply wrap64_small. unfold int64_range. lia.
  - pose proof pow10_20. lia.
Qed.







End DecimalFacts.

(** ** The token check *)

Module AuthFacts.
Import Go GoFacts.

Lemma guard_rejects (token secret : string) :
  unauthorized token secret ->
  String.eqb token "" || String.eqb secret ""
  || negb (timingSafeEq token secret) = true.
Proof.
  intros [-> | [-> | Hne]].
  - reflexivity.
  - now rewrite orb_true_r.
  - rewrite timingSafeEq_false by assumption. now rewrite orb_true_r.
Qed.

Lemma guard_accepts (token secret : string) :
  authorized token secret ->
  String.eqb token "" || String.eqb secret ""
  || negb (timingSafeEq token secret) = false.
Proof.
  intros (Ht & Hs & ->).
  rewrite (eqb_empty_false _ Hs).
  now rewrite (proj2 (timingSafeEq_spec secret secret) eq_refl).
Qed.

(** The in-process server does not test the secret for emptiness: an
    empty token is turned away first, and a token that is not empty
    differs from an empty secret. *)
Lemma guard_volatile_rejects (token secret : string) :
  unauthorized token secret ->
  String.eqb token "" || negb (timingSafeEq token secret) = true.
Proof.
  intros [-> | [-> | Hne]].
  - reflexivity.
  - destruct (String.eqb_spec token "") as [->|Hne]; [reflexivity|].
    now rewrite timingSafeEq_false.
  - rewrite timingSafeEq_false by assumption. now rewrite orb_true_r.
Qed.

Lemma guard_volatile_accepts (token secret : string) :
  authorized token secret ->
  String.eqb token "" || negb (timingSafeEq token secret) = false.
Proof.
  intros (Ht & Hs & ->).
  rewrite (eqb_empty_false _ Hs).
  now rewrite (proj2 (timingSafeEq_spec secret secret) eq_refl).
Qed.

Lemma unauthorized_or_authorized (token secret : string) :
  unauthorized token secret \/ authorized token secret.
Proof.
  unfold unauthorized, authorized.
  destruct (String.eqb_spec token ""); [tauto|].
  destruct (String.eqb_spec secret ""); [tauto|].
  destruct (String.eqb_spec token secret); tauto.
Qed.

Lemma not_both (token secret : string) :
  unauthorized token secret -> authorized token secret -> False.
Proof. unfold unauthorized, authorized. tauto. Qed.

End AuthFacts.

(** ** Requests turned away before the store *)

Module RejectFacts.
Import Go Dynamo GoFacts AuthFacts.

(** In the in-process server. *)
Lemma startMachine_unauthorized secret now st r cmd :
  Volatile.Method r = "POST" ->
  Volatile.Decoded r = Some cmd ->
  unauthorized (Volatile.Token cmd) secret ->
  Volatile.startMachine secret now st r
  = (Volatile.writeErr 401 "unauthorized", st).
Proof.
  intros Hm Hd Hu. unfold Volatile.startMachine.
  rewrite Hm, Hd. simpl. now rewrite guard_volatile_rejects.
Qed.


Lemma getLatest_no_device secret st r :
  Volatile.Method r = "GET" ->
  index (Volatile.Query r) "deviceId" = "" ->
  Volatile.getLatest secret st r
  = (Volatile.writeErr 400 "deviceId required", st).
Proof.
  intros Hm Hd. unfold Volatile.getLatest. rewrite Hm, Hd. reflexivity.
Qed.

Lemma getLatest_unauthorized secret st r :
  Volatile.Method r = "GET" ->
  index (Volatile.Query r) "deviceId" <> "" ->
  unauthorized (index (Volatile.Query r) "token") secret ->
  Volatile.getLatest secret st r
  = (Volatile.writeErr 401 "unauthorized", st).
Proof.
  intros Hm Hd Hu. unfold Volatile.getLatest. rewrite Hm. simpl.
  rewrite (eqb_empty_false _ Hd). now rewrite guard_volatile_rejects.
Qed.

(** In the Lambda handlers. *)
Lemma start_unauthorized s now putErr t req cmd :
  LaundryStart.Decoded req = Some cmd ->
  unauthorized (LaundryStart.Token cmd) (sharedSecret s) ->
  LaundryStart.handler s now putErr t req
  = (LaundryStart.resp 401 (MapStringString [("error", "unauthorized")]),
     t).
Proof.
  intros Hd Hu. unfold LaundryStart.handler. rewrite Hd.
  now rewrite guard_rejects.
Qed.


Lemma latest_no_device s now gf uf t req :
  TrimSpace (index (LaundryLatest.QueryStringParameters req) "deviceId")
  = "" ->
  LaundryLatest.handler s now gf uf t req
  = (LaundryLatest.resp 400
       (MapStringString [("error", "deviceId required")]), t).
Proof. intros Hd. unfold LaundryLatest.handler. now rewrite Hd. Qed.

Lemma latest_unauthorized s now gf uf t req :
  TrimSpace (index (LaundryLatest.QueryStringParameters req) "deviceId")
  <> "" ->
  unauthorized (index (LaundryLatest.QueryStringParameters req) "token")
    (sharedSecret s) ->
  LaundryLatest.handler s now gf uf t req
  = (LaundryLatest.resp 401
       (MapStringString [("error", "unauthorized")]), t).
Proof.
  intros Hd Hu. unfold LaundryLatest.handler.
  rewrite (eqb_empty_false _ Hd). now rewrite guard_rejects.
Qed.

Section Stats.
Context {float64 : Type}.
Variable zero : float64.
Variable FormatFloat : float64 -> ascii -> Z -> Z -> string.
Variable ParseFloat : string -> Z -> option float64.

Lemma update_unauthorized s now putErr t req
    (stats : @LaundryStats.Stats float64) :
  LaundryStats.Decoded req = Some stats ->
  unauthorized (LaundryStats.Token stats) (sharedSecret s) ->
  LaundryStats.update_handler FormatFloat s now putErr t req
  = (LaundryStats.resp 401
       (MapStringString [("error", "unauthorized")]), t).
Proof.
  intros Hd Hu. unfold LaundryStats.update_handler. rewrite Hd.
  now rewrite guard_rejects.
Qed.

Lemma get_no_device s gf t req :
  TrimSpace (index (LaundryStats.QueryStringParameters req) "deviceId")
  = "" ->
  LaundryStats.get_handler zero ParseFloat s gf t req
  = LaundryStats.resp 400
      (MapStringString [("error", "deviceId required")]).
Proof. intros Hd. unfold LaundryStats.get_handler. now rewrite Hd. Qed.

Lemma get_unauthorized s gf t req :
  TrimSpace (index (LaundryStats.QueryStringParameters req) "deviceId")
  <> "" ->
  unauthorized (index (LaundryStats.QueryStringParameters req) "token")
    (sharedSecret s) ->
  LaundryStats.get_handler zero ParseFloat s gf t req
  = LaundryStats.resp 401 (MapStringString [("error", "unauthorized")]).
Proof.
  intros Hd Hu. unfold LaundryStats.get_handler.
  rewrite (eqb_empty_false _ Hd). now rewrite guard_rejects.
Qed.

End Stats.

End RejectFacts.

(** ** Authorization *)

Import Go Dynamo.

(** The poll handler answers a request that names no device with 400 whatever
    the token is: a missing token does not always give 401. *)
Lemma unauthorized_poll_without_device_is_400 :
  ~ (forall s now getFail updFail t req,
        unauthorized
          (index (LaundryLatest.QueryStringParameters req) "token")
          (sharedSecret s) ->
        StatusCode (fst (LaundryLatest.handler s now getFail updFail t req))
        = 401).
Proof.
  intros H.
  specialize (H {| table := "commands"; sharedSecret := "s3cret" |}
                0 false false ∅
                {| LaundryLatest.QueryStringParameters := ∅ |}).
  assert (Hu : unauthorized "" "s3cret") by (left; reflexivity).
  specialize (H Hu). vm_compute in H. discriminate H.
Qed.

(** C5 (amended): a request whose token is empty, or differs from the secret,
    or meets an unconfigured secret, is turned away by every operation, with
    the table or maps left as they were and an answer that does not depend
    on them: 401 from submit and update-stats (for a body that decodes),
    and from poll and get-stats when the request names a device; 400 from
    poll and get-stats when it names none, because they look at the device
    identifier first. *)
Theorem unauthorized_is_turned_away_before_the_store
    {float64 : Type} (zero : float64)
    (FormatFloat : float64 -> ascii -> Z -> Z -> string)
    (ParseFloat : string -> Z -> option float64)
    (token secret : string) :
  unauthorized token secret ->
  (forall now st r cmd,
      Volatile.Method r = "POST" -> Volatile.Decoded r = Some cmd ->
      Volatile.Token cmd = token ->
      Volatile.startMachine secret now st r
      = (Volatile.writeErr 401 "unauthorized", st))
  /\ (forall st r,
         Volatile.Method r = "GET" ->
         index (Volatile.Query r) "token" = token ->
         Volatile.getLatest secret st r
         = (if String.eqb (index (Volatile.Query r) "deviceId") ""
            then Volatile.writeErr 400 "deviceId required"
            else Volatile.writeErr 401 "unauthorized", st))
  /\ (forall s now putErr t req cmd,
         sharedSecret s = secret -> LaundryStart.Decoded req = Some cmd ->
         LaundryStart.Token cmd = token ->
         LaundryStart.handler s now putErr t req
         = (LaundryStart.resp 401
              (MapStringString [("error", "unauthorized")]), t))
  /\ (forall s now getFail updFail t req,
         sharedSecret s = secret ->
         index (LaundryLatest.QueryStringParameters req) "token" = token ->
         LaundryLatest.handler s now getFail updFail t req
         = (if String.eqb
                 (TrimSpace
                    (index (LaundryLatest.QueryStringParameters req)
                       "deviceId")) ""
            then LaundryLatest.resp 400
                   (MapStringString [("error", "deviceId required")])
            else LaundryLatest.resp 401
                   (MapStringString [("error", "unauthorized")]), t))
  /\ (forall s now putErr t req (stats : @LaundryStats.Stats float64),
         sharedSecret s = secret -> LaundryStats.Decoded req = Some stats ->
         LaundryStats.Token stats = token ->
         LaundryStats.update_handler FormatFloat s now putErr t req
         = (LaundryStats.resp 401
              (MapStringString [("error", "unauthorized")]), t))
  /\ (forall s getFail t req,
         sharedSecret s = secret ->
         index (LaundryStats.QueryStringParameters req) "token" = token ->
         LaundryStats.get_handler zero ParseFloat s getFail t req
         = (if String.eqb
                 (TrimSpace
                    (index (LaundryStats.QueryStringParameters req)
                       "deviceId")) ""
            then LaundryStats.resp 400
                   (MapStringString [("error", "deviceId required")])
            else LaundryStats.resp 401
                   (MapStringString [("error", "unauthorized")]))).
Proof.
  intros Hu. repeat split.
  - intros now st r cmd Hm Hd <-.
    eapply RejectFacts.startMachine_unauthorized; eauto.
  - intros st r Hm <-.
    destruct (String.eqb_spec (index (Volatile.Query r) "deviceId") "")
      as [E|E].
    + now apply RejectFacts.getLatest_no_device.
    + now apply RejectFacts.getLatest_unauthorized.
  - intros s now putErr t req cmd <- Hd <-.
    eapply RejectFacts.start_unauthorized; eauto.
  - intros s now gf uf t req <- <-.
    destruct (String.eqb_spec
                (TrimSpace
                   (index (LaundryLatest.QueryStringParameters req)
                      "deviceId")) "") as [E|E].
    + now apply RejectFacts.latest_no_device.
    + now apply RejectFacts.latest_unauthorized.
  - intros s now putErr t req stats <- Hd <-.
    eapply RejectFacts.update_unauthorized; eauto.
  - intros s gf t req <- <-.
    destruct (String.eqb_spec
                (TrimSpace
                   (index (LaundryStats.QueryStringParameters req)
                      "deviceId")) "") as [E|E].
    + now apply RejectFacts.get_no_device.
    + now apply RejectFacts.get_unauthorized.
Qed.

(** A wrong token against the secret "s3cret": the poll of device D1 is
    answered 401 and the table is the one before. *)
Lemma unauthorized_is_turned_away_witness :
  unauthorized "guess" "s3cret"
  /\ LaundryLatest.handler {| table := "commands"; sharedSecret := "s3cret" |}
       1700000000000 false false ∅ (DurableTrace.poll_request "D1" "guess")
     = (LaundryLatest.resp 401
          (MapStringString [("error", "unauthorized")]), ∅).
Proof.
  assert (Hu : unauthorized "guess" "s3cret")
    by (right; right; discriminate).
  split; [exact Hu|].
  pose proof (unauthorized_is_turned_away_before_the_store
                Float64.zero Float64.FormatFloat Float64.ParseFloat
                "guess" "s3cret" Hu) as (_ & _ & _ & H & _).
  exact (H {| table := "commands"; sharedSecret := "s3cret" |}
           1700000000000 false false ∅
           (DurableTrace.poll_request "D1" "guess") eq_refl eq_refl).
Defined.

(** ** Submitting without a device identifier *)




(** ** Reading without a device identifier *)

(** C10: on the poll and get-stats paths the device identifier is checked
    before the token.  A request whose deviceId is empty (for the Lambda
    handlers: empty or white space only) is answered 400 whatever its token,
    and 401 is only ever the answer to a request that names a device. *)
Theorem device_check_precedes_token_check
    {float64 : Type} (zero : float64)
    (ParseFloat : string -> Z -> option float64)
    (secret : string) (st : Volatile.State) (r : Volatile.Request)
    (s : Server) (now : Z) (getFail updFail : bool) (t : Table)
    (req : LaundryLatest.Request)
    (s' : Server) (getFail' : bool) (t' : Table)
    (req' : LaundryStats.GetRequest) :
  Volatile.Method r = "GET" ->
  index (Volatile.Query r) "deviceId" = "" ->
  WhiteSpace (index (LaundryLatest.QueryStringParameters req) "deviceId") ->
  WhiteSpace (index (LaundryStats.QueryStringParameters req') "deviceId") ->
  Volatile.getLatest secret st r
  = (Volatile.writeErr 400 "deviceId required", st)
  /\ LaundryLatest.handler s now getFail updFail t req
     = (LaundryLatest.resp 400
          (MapStringString [("error", "deviceId required")]), t)
  /\ LaundryStats.get_handler zero ParseFloat s' getFail' t' req'
     = LaundryStats.resp 400
         (MapStringString [("error", "deviceId required")])
  /\ (forall secret st r,
         StatusCode (fst (Volatile.getLatest secret st r)) = 401 ->
         index (Volatile.Query r) "deviceId" <> "")
  /\ (forall s now getFail updFail t req,
         StatusCode (fst (LaundryLatest.handler s now getFail updFail t req))
         = 401 ->
         ~ WhiteSpace
             (index (LaundryLatest.QueryStringParameters req) "deviceId"))
  /\ (forall s getFail t req,
         StatusCode (LaundryStats.get_handler zero ParseFloat s getFail t req)
         = 401 ->
         ~ WhiteSpace
             (index (LaundryStats.QueryStringParameters req) "deviceId")).
Proof.
  intros Hm Hd Hw Hw'.
  apply GoFacts.TrimSpace_WhiteSpace in Hw, Hw'.
  split; [now apply RejectFacts.getLatest_no_device|].
  split; [now apply RejectFacts.latest_no_device|].
  split; [now apply RejectFacts.get_no_device|].
  split; [|split].
  - intros secret0 st0 r0 H E. revert H.
    unfold Volatile.getLatest. rewrite E.
    destruct (String.eqb (Volatile.Method r0) "GET"); simpl; discriminate.
  - intros s0 now0 gf uf t0 req0 H W.
    apply GoFacts.TrimSpace_WhiteSpace in W.
    rewrite (RejectFacts.latest_no_device _ _ _ _ _ _ W) in H.
    discriminate H.
  - intros s0 gf t0 req0 H W.
    apply GoFacts.TrimSpace_WhiteSpace in W.
    rewrite (RejectFacts.get_no_device _ _ _ _ _ _ W) in H.
    discriminate H.
Qed.

(** Three requests without a token: no deviceId parameter, a deviceId of one
    blank, and a deviceId of one no-break space (U+00A0). *)
Lemma device_check_precedes_token_check_witness :
  StatusCode
    (fst (LaundryLatest.handler
            {| table := "commands"; sharedSecret := "s3cret" |}
            1700000000000 false false ∅
            (DurableTrace.poll_request " " ""))) = 400.
Proof.
  assert (Hsp : WhiteSpace " ").
  { apply (WhiteSpace_cons " " ""); [vm_compute; tauto|].
    apply WhiteSpace_nil. }
  pose (req' := {| LaundryStats.QueryStringParameters :=
                     <["deviceId" := bytes [194; 160]%nat]> ∅ |}).
  assert (Hnb : WhiteSpace
                  (index (LaundryStats.QueryStringParameters req')
                     "deviceId")).
  { replace (index (LaundryStats.QueryStringParameters req') "deviceId")
      with (bytes [194; 160]%nat ++ "") by (vm_compute; reflexivity).
    apply WhiteSpace_cons; [vm_compute; tauto|]. apply WhiteSpace_nil. }
  destruct (device_check_precedes_token_check
              Float64.zero Float64.ParseFloat
              "s3cret"
              {| Volatile.latestByDevice := ∅; Volatile.lastServedAt := ∅ |}
              (VolatileTrace.poll_request "" "")
              {| table := "commands"; sharedSecret := "s3cret" |}
              1700000000000 false false ∅
              (DurableTrace.poll_request " " "")
              {| table := "stats"; sharedSecret := "s3cret" |}
              false ∅
              req' eq_refl eq_refl Hsp Hnb) as (_ & H & _).
  now rewrite H.
Defined.

(** ** Polling a device that has nothing to deliver *)

Module IdleFacts.
Import GoFacts AuthFacts.

Lemma getLatest_accepted secret st r :
  Volatile.Method r = "GET" ->
  index (Volatile.Query r) "deviceId" <> "" ->
  authorized (index (Volatile.Query r) "token") secret ->
  Volatile.getLatest secret st r
  = let deviceID := index (Volatile.Query r) "deviceId" in
    match Volatile.latestByDevice st !! deviceID with
    | None =>
        (Volatile.writeJSON 200 (Struct {| Volatile.Command_ := None |}), st)
    | Some cmd =>
        if Volatile.servedAt st deviceID >=? Volatile.CreatedAt cmd then
          (Volatile.writeJSON 200 (Struct {| Volatile.Command_ := None |}),
           st)
        else
          (Volatile.writeJSON 200
             (Struct {| Volatile.Command_ := Some cmd |}),
           {| Volatile.latestByDevice := Volatile.latestByDevice st;
              Volatile.lastServedAt :=
                <[deviceID := Volatile.CreatedAt cmd]>
                  (Volatile.lastServedAt st) |})
    end.
Proof.
  intros Hm Hd Ha. unfold Volatile.getLatest. rewrite Hm. simpl.
  rewrite (eqb_empty_false _ Hd).
  now rewrite guard_volatile_accepts.
Qed.

Lemma latest_accepted s now getFail updFail t req :
  TrimSpace (index (LaundryLatest.QueryStringParameters req) "deviceId")
  <> "" ->
  authorized (index (LaundryLatest.QueryStringParameters req) "token")
    (sharedSecret s) ->
  LaundryLatest.handler s now getFail updFail t req
  = let deviceID :=
      TrimSpace (index (LaundryLatest.QueryStringParameters req) "deviceId")
    in
    match GetItem getFail t deviceID with
    | None =>
        (LaundryLatest.resp 500 (MapStringString [("error", "get failed")]),
         t)
    | Some None =>
        (LaundryLatest.resp 200
           (Struct {| LaundryLatest.Command_ := None |}), t)
    | Some (Some item) =>
        match item !! "servedAt" with
        | Some _ =>
            (LaundryLatest.resp 200
               (Struct {| LaundryLatest.Command_ := None |}), t)
        | None =>
            (LaundryLatest.resp 200
               (Struct {| LaundryLatest.Command_ :=
                            Some (DurableThreads.command_of deviceID item) |}),
             UpdateItem_SET updFail t deviceID "servedAt"
               (AttributeValueMemberN (FormatInt now)))
        end
    end.
Proof.
  intros Hd Ha. unfold LaundryLatest.handler.
  rewrite (eqb_empty_false _ Hd).
  now rewrite guard_accepts.
Qed.

End IdleFacts.

(** C8: a poll of a device that has no stored command, or whose stored
    command was served already, is answered 200 with a null command and
    leaves the maps (the table) exactly as they were. *)
Theorem poll_of_idle_device_changes_nothing
    (secret : string) (st : Volatile.State) (r : Volatile.Request)
    (s : Server) (now : Z) (updFail : bool) (t : Table)
    (req : LaundryLatest.Request) :
  Volatile.Method r = "GET" ->
  index (Volatile.Query r) "deviceId" <> "" ->
  authorized (index (Volatile.Query r) "token") secret ->
  VolatileTrace.NoCommand st (index (Volatile.Query r) "deviceId")
  \/ VolatileTrace.Served st (index (Volatile.Query r) "deviceId") ->
  TrimSpace (index (LaundryLatest.QueryStringParameters req) "deviceId")
  <> "" ->
  authorized (index (LaundryLatest.QueryStringParameters req) "token")
    (sharedSecret s) ->
  DurableTrace.NoCommand t
    (TrimSpace (index (LaundryLatest.QueryStringParameters req) "deviceId"))
  \/ DurableTrace.Served t
       (TrimSpace
          (index (LaundryLatest.QueryStringParameters req) "deviceId")) ->
  Volatile.getLatest secret st r
  = (Volatile.writeJSON 200 (Struct {| Volatile.Command_ := None |}), st)
  /\ LaundryLatest.handler s now false updFail t req
     = (LaundryLatest.resp 200
          (Struct {| LaundryLatest.Command_ := None |}), t).
Proof.
  intros Hm Hd Ha Hidle Hd' Ha' Hidle'. split.
  - rewrite IdleFacts.getLatest_accepted by assumption. cbv zeta.
    destruct Hidle as [Hn | (cmd & Hc & Hs)].
    + unfold VolatileTrace.NoCommand in Hn. now rewrite Hn.
    + rewrite Hc.
      destruct (Z.geb_spec
                  (Volatile.servedAt st (index (Volatile.Query r) "deviceId"))
                  (Volatile.CreatedAt cmd)); [reflexivity|lia].
  - rewrite IdleFacts.latest_accepted by assumption. cbv zeta.
    unfold GetItem.
    destruct Hidle' as [Hn | (item & Hi & [v Hv])].
    + unfold DurableTrace.NoCommand in Hn. now rewrite Hn.
    + rewrite Hi, Hv. reflexivity.
Qed.

(** Device D1 after one submit and one poll, in either store. *)
Lemma poll_of_idle_device_witness :
  LaundryLatest.handler {| table := "commands"; sharedSecret := "s3cret" |}
    1700000001000 false false
    (<["D1" := <["servedAt" := AttributeValueMemberN "1700000000500"]>
                 (<["deviceId" := AttributeValueMemberS "D1"]> ∅)]> ∅)
    (DurableTrace.poll_request " D1" "s3cret")
  = (LaundryLatest.resp 200 (Struct {| LaundryLatest.Command_ := None |}),
     <["D1" := <["servedAt" := AttributeValueMemberN "1700000000500"]>
                 (<["deviceId" := AttributeValueMemberS "D1"]> ∅)]> ∅).
Proof.
  pose (cmd := {| Volatile.DeviceID := "D1"; Volatile.Type_ := "wash";
                  Volatile.DurationMinutes := 30;
                  Volatile.CreatedAt := 1700000000000;
                  Volatile.Token := "" |}).
  pose (st := {| Volatile.latestByDevice := <["D1" := cmd]> ∅;
                 Volatile.lastServedAt := <["D1" := 1700000000000]> ∅ |}).
  pose (item := <["servedAt" := AttributeValueMemberN "1700000000500"]>
                  (<["deviceId" := AttributeValueMemberS "D1"]>
                     (∅ : gmap string AttributeValue))).
  assert (Ha : authorized "s3cret" "s3cret")
    by (repeat split; discriminate).
  assert (Hs : VolatileTrace.Served st "D1").
  { exists cmd. split; [reflexivity|]. vm_compute. discriminate. }
  assert (Hs' : DurableTrace.Served (<["D1" := item]> ∅) "D1").
  { exists item. split; [reflexivity|].
    exists (AttributeValueMemberN "1700000000500"). reflexivity. }
  assert (Hne : TrimSpace " D1" <> "") by (vm_compute; discriminate).
  exact (proj2 (poll_of_idle_device_changes_nothing
                  "s3cret" st (VolatileTrace.poll_request "D1" "s3cret")
                  {| table := "commands"; sharedSecret := "s3cret" |}
                  1700000001000 false (<["D1" := item]> ∅)
                  (DurableTrace.poll_request " D1" "s3cret")
                  eq_refl ltac:(discriminate) Ha (or_intror Hs)
                  Hne Ha (or_intror Hs'))).
Defined.

(** ** Numbers read back by the poll handler *)

(** A [createdAt] of twenty digits and a fraction: the run of digits
    denotes 2^63, the command comes back with -2^63. *)
Lemma poll_wraps_a_long_run_of_digits :
  let item : Item :=
    <["deviceId" := AttributeValueMemberS "D1"]>
    (<["type" := AttributeValueMemberS "wash"]>
    (<["durationMinutes" := AttributeValueMemberN "30"]>
    (<["createdAt" := AttributeValueMemberN "9223372036854775808.5"]> ∅)))
  in
  fst (LaundryLatest.handler
         {| table := "commands"; sharedSecret := "s3cret" |}
         1700000000000 false false (<["D1" := item]> ∅)
         (DurableTrace.poll_request "D1" "s3cret"))
  = LaundryLatest.resp 200
      (Struct {| LaundryLatest.Command_ :=
                   Some {| LaundryLatest.DeviceID := "D1";
                           LaundryLatest.Type_ := "wash";
                           LaundryLatest.DurationMinutes := 30;
                           LaundryLatest.CreatedAt := - 9223372036854775808
                        |} |})
  /\ decimal_value (leading_digits "9223372036854775808.5")
     = 9223372036854775808.
Proof. split; vm_compute; reflexivity. Qed.

(** C9 (amended): the poll handler reports no decode error.  For a stored
    item not yet served, the [durationMinutes] and [createdAt] strings are
    each read as the value of their longest leading run of decimal digits
    reduced to 64 bits with wrap-around: the value itself when it is below
    2^63, and 0 when the string does not start with a digit; the command is
    returned with status 200 and these numbers.  The only 500 of the handler
    is the failed read. *)
Theorem poll_reads_leading_digits
    (s : Server) (now : Z) (updFail : bool) (t : Table)
    (req : LaundryLatest.Request) (item : Item) (ds cs : string) :
  let d :=
    TrimSpace (index (LaundryLatest.QueryStringParameters req) "deviceId") in
  d <> "" ->
  authorized (index (LaundryLatest.QueryStringParameters req) "token")
    (sharedSecret s) ->
  t !! d = Some item ->
  item !! "servedAt" = None ->
  item !! "durationMinutes" = Some (AttributeValueMemberN ds) ->
  item !! "createdAt" = Some (AttributeValueMemberN cs) ->
  (exists cmd,
      fst (LaundryLatest.handler s now false updFail t req)
      = LaundryLatest.resp 200
          (Struct {| LaundryLatest.Command_ := Some cmd |})
      /\ LaundryLatest.DeviceID cmd = d
      /\ LaundryLatest.DurationMinutes cmd
         = wrap64 (decimal_value (leading_digits ds))
      /\ LaundryLatest.CreatedAt cmd
         = wrap64 (decimal_value (leading_digits cs))
      /\ (decimal_value (leading_digits ds) < 2 ^ 63 ->
          LaundryLatest.DurationMinutes cmd
          = decimal_value (leading_digits ds))
      /\ (decimal_value (leading_digits cs) < 2 ^ 63 ->
          LaundryLatest.CreatedAt cmd = decimal_value (leading_digits cs))
      /\ (leading_digits ds = "" -> LaundryLatest.DurationMinutes cmd = 0)
      /\ (leading_digits cs = "" -> LaundryLatest.CreatedAt cmd = 0))
  /\ (forall s now getFail updFail t req,
         StatusCode (fst (LaundryLatest.handler s now getFail updFail t req))
         = 500 ->
         getFail = true
         /\ fst (LaundryLatest.handler s now getFail updFail t req)
            = LaundryLatest.resp 500
                (MapStringString [("error", "get failed")])).
Proof.
  intros d Hd Ha Ht Hs Hds Hcs. split.
  - exists (DurableThreads.command_of d item).
    rewrite IdleFacts.latest_accepted by assumption. cbv zeta.
    fold d. unfold GetItem. rewrite Ht, Hs.
    unfold DurableThreads.command_of. rewrite Hds, Hcs. simpl.
    rewrite !DecimalFacts.mustInt64_spec.
    repeat split; try reflexivity.
    + intros H. rewrite <- DecimalFacts.mustInt64_spec.
      now apply DecimalFacts.mustInt64_small.
    + intros H. rewrite <- DecimalFacts.mustInt64_spec.
      now apply DecimalFacts.mustInt64_small.
    + intros ->. reflexivity.
    + intros ->. reflexivity.
  - clear. intros s now gf uf t req.
    unfold LaundryLatest.handler, GetItem.
    repeat match goal with
           | |- context [if ?b then _ else _] => destruct b
           | |- context [match ?x with _ => _ end] => destruct x
           end; simpl; intros H; try discriminate H; auto.
Qed.

(** A stored [createdAt] of "1700000000000.75" and a [durationMinutes]
    of "-5". *)
Lemma poll_reads_leading_digits_witness :
  exists cmd,
    fst (LaundryLatest.handler
           {| table := "commands"; sharedSecret := "s3cret" |}
           1700000009000 false false
           (<["D1" :=
                <["deviceId" := AttributeValueMemberS "D1"]>
                (<["type" := AttributeValueMemberS "dry"]>
                (<["durationMinutes" := AttributeValueMemberN "-5"]>
                (<["createdAt" := AttributeValueMemberN "1700000000000.75"]>
                   ∅)))]> ∅)
           (DurableTrace.poll_request "D1" "s3cret"))
    = LaundryLatest.resp 200 (Struct {| LaundryLatest.Command_ := Some cmd |})
    /\ LaundryLatest.DurationMinutes cmd = 0
    /\ LaundryLatest.CreatedAt cmd = 1700000000000.
Proof.
  pose (item :=
          <["deviceId" := AttributeValueMemberS "D1"]>
          (<["type" := AttributeValueMemberS "dry"]>
          (<["durationMinutes" := AttributeValueMemberN "-5"]>
          (<["createdAt" := AttributeValueMemberN "1700000000000.75"]>
             (∅ : gmap string AttributeValue))))).
  assert (Ha : authorized "s3cret" "s3cret")
    by (repeat split; discriminate).
  assert (Hne : TrimSpace "D1" <> "") by (vm_compute; discriminate).
  assert (Ht : (<["D1" := item]> ∅ : Table)
               !! TrimSpace
                    (index
                       (LaundryLatest.QueryStringParameters
                          (DurableTrace.poll_request "D1" "s3cret"))
                       "deviceId") = Some item)
    by (vm_compute; reflexivity).
  destruct (poll_reads_leading_digits
              {| table := "commands"; sharedSecret := "s3cret" |}
              1700000009000 false (<["D1" := item]> ∅)
              (DurableTrace.poll_request "D1" "s3cret")
              item "-5" "1700000000000.75"
              Hne Ha Ht eq_refl eq_refl eq_refl)
    as [(cmd & E & _ & _ & _ & _ & Hc & Hd & _) _].
  exists cmd. split; [exact E|]. split.
  - apply Hd. reflexivity.
  - rewrite Hc; [reflexivity|]. vm_compute. reflexivity.
Defined.

(** ** Device stats *)

Module StatsFacts.
Import GoFacts AuthFacts.

Section Stats.
Context {float64 : Type}.
Variable zero : float64.
Variable FormatFloat : float64 -> ascii -> Z -> Z -> string.
Variable ParseFloat : string -> Z -> option float64.

Lemma update_stored s now t (stats : @LaundryStats.Stats float64) :
  authorized (LaundryStats.Token stats) (sharedSecret s) ->
  TrimSpace (LaundryStats.DeviceID stats) <> "" ->
  LaundryStats.update_handler FormatFloat s now None t
    {| LaundryStats.Decoded := Some stats |}
  = (LaundryStats.resp 200
       (MapStringAny [("ok", VBool true);
                      ("lastUpdatedAt", VString (FormatInt now))]),
     <[TrimSpace (LaundryStats.DeviceID stats) :=
         LaundryStats.stats_item FormatFloat
           (TrimSpace (LaundryStats.DeviceID stats)) stats now]> t).
Proof.
  intros Ha Hd. unfold LaundryStats.update_handler. simpl.
  rewrite guard_accepts by assumption.
  rewrite (eqb_empty_false _ Hd).
  unfold PutItem, key_of. rewrite lookup_insert_eq. reflexivity.
Qed.


End Stats.

End StatsFacts.

(** ** The amount, written and read back *)

Module RoundFacts.
Import Float64.

Lemma rhe_cases n d :
  0 < d ->
  exists q r,
    n = d * q + r /\ 0 <= r < d
    /\ round_half_even n d
       = match Z.compare (2 * r) d with
         | Lt => q
         | Gt => q + 1
         | Eq => if Z.even q then q else q + 1
         end.
Proof.
  intros Hd. exists (n / d), (n mod d). split; [apply Z.div_mod; lia|].
  split; [apply Z.mod_pos_bound; lia|reflexivity].
Qed.



(** No integer is nearer. *)
Lemma rhe_min n d z :
  0 < d -> Z.abs (round_half_even n d * d - n) <= Z.abs (z * d - n).
Proof.
  intros Hd. destruct (rhe_cases n d Hd) as (q & r & -> & Hr & ->).
  assert (z <= q \/ q + 1 <= z) as [Hz|Hz] by lia;
    destruct (Z.compare_spec (2 * r) d); try destruct (Z.even q); nia.
Qed.






Lemma digits2_bounds (p : positive) :
  2 ^ (Zpos (digits2_pos p) - 1) <= Zpos p < 2 ^ Zpos (digits2_pos p).
Proof.
  induction p as [p IH|p IH|]; cbn [digits2_pos].
  - rewrite Pos2Z.inj_succ.
    replace (Z.succ (Zpos (digits2_pos p)) - 1)
      with (Z.succ (Zpos (digits2_pos p) - 1)) by lia.
    rewrite !Z.pow_succ_r by lia. lia.
  - rewrite Pos2Z.inj_succ.
    replace (Z.succ (Zpos (digits2_pos p)) - 1)
      with (Z.succ (Zpos (digits2_pos p) - 1)) by lia.
    rewrite !Z.pow_succ_r by lia. lia.
  - simpl. lia.
Qed.


(** What [bounded] says of a binary64. *)
Lemma bounded_inv (m : positive) (e : Z) :
  bounded 53 1024 m e = true ->
  -1074 <= e <= 971 /\ Zpos m < 2 ^ 53.
Proof.
  unfold bounded, canonical_mantissa, fexp, emin. intros H.
  apply andb_true_iff in H as [Hc He].
  apply Z.leb_le in He. apply Z.eqb_eq in Hc.
  pose proof (digits2_bounds m) as Hd.
  assert (Hdig : Zpos (digits2_pos m) <= 53) by lia.
  split; [lia|].
  eapply Z.lt_le_trans; [apply Hd|].
  apply Z.pow_le_mono_r; lia.
Qed.




Lemma round_minimal (N d g : Z) (m : positive) (e : Z) :
  0 < d -> 0 <= g ->
  (0 < g -> d * 2 ^ g * 2 ^ 52 <= N) ->
  bounded 53 1024 m e = true ->
  Z.abs (round_half_even N (d * 2 ^ g) * 2 ^ g * d - N)
  <= Z.abs (Zpos m * 2 ^ (e + 1074) * d - N).
Proof.
  intros Hd Hg HN Hb. apply bounded_inv in Hb as [He Hm].
  assert (HG : 0 < 2 ^ g) by (apply Z.pow_pos_nonneg; lia).
  set (G := 2 ^ g) in *.
  destruct (Z.le_gt_cases g (e + 1074)) as [Hge|Hlt].
  - (* the binary64 is a multiple of G *)
    assert (E : 2 ^ (e + 1074) = 2 ^ (e + 1074 - g) * G).
    { subst G. rewrite <- Z.pow_add_r by lia. f_equal. lia. }
    rewrite E.
    pose proof (rhe_min N (d * G) (Zpos m * 2 ^ (e + 1074 - g))
                  ltac:(nia)) as H.
    replace (round_half_even N (d * G) * G * d)
      with (round_half_even N (d * G) * (d * G)) by lia.
    replace (Zpos m * (2 ^ (e + 1074 - g) * G) * d)
      with (Zpos m * 2 ^ (e + 1074 - g) * (d * G)) by lia.
    exact H.
  - (* the binary64 lies below the binade *)
    assert (E : G = 2 ^ (e + 1074) * 2 ^ (g - (e + 1074))).
    { subst G. rewrite <- Z.pow_add_r by lia. f_equal. lia. }
    specialize (HN ltac:(lia)).
    assert (H2 : 2 <= 2 ^ (g - (e + 1074))).
    { change 2 with (2 ^ 1) at 1. apply Z.pow_le_mono_r; lia. }
    assert (Hpos : 0 < 2 ^ (e + 1074)) by (apply Z.pow_pos_nonneg; lia).
    pose proof (rhe_min N (d * G) (2 ^ 52) ltac:(nia)) as H.
    replace (round_half_even N (d * G) * G * d)
      with (round_half_even N (d * G) * (d * G)) by lia.
    assert (H52 : 2 ^ 52 = 4503599627370496) by reflexivity.
    assert (H53 : 2 ^ 53 = 9007199254740992) by reflexivity.
    rewrite H52, H53 in *.
    set (B := 2 ^ (e + 1074)) in *. set (K := 2 ^ (g - (e + 1074))) in *.
    assert (Ha : Zpos m * B * d <= 4503599627370496 * (d * G)).
    { rewrite E. nia. }
    lia.
Qed.


(** [nearest] rounds to the nearest: no binary64 is nearer to [n / d] than
    its finite result (both differences in units of [2 ^ -1074 / d]). *)
Lemma nearest_is_nearest (neg : bool) (n d : Z) (p : positive) (e : Z)
    (m : positive) (e0 : Z) :
  0 < n -> 0 < d ->
  nearest neg n d = S754_finite neg p e ->
  bounded 53 1024 m e0 = true ->
  Z.abs (Zpos p * 2 ^ (e + 1074) * d - n * 2 ^ 1074)
  <= Z.abs (Zpos m * 2 ^ (e0 + 1074) * d - n * 2 ^ 1074).
Proof.
  intros Hn Hd E Hb. unfold nearest in E.
  assert (HP : 0 < 2 ^ 1074) by (apply Z.pow_pos_nonneg; lia).
  set (P := 2 ^ 1074) in *.
  pose proof (Z.div_mod (n * P) d ltac:(lia)) as Hdiv.
  pose proof (Z.mod_pos_bound (n * P) d ltac:(lia)) as Hmod.
  set (f := n * P / d) in *.
  assert (Hf : 0 <= f) by (apply Z.div_pos; nia).
  set (g := Z.max (Z.log2 f - 52) 0) in *.
  assert (Hg : 0 <= g) by lia.
  assert (HN : 0 < g -> d * 2 ^ g * 2 ^ 52 <= n * P).
  { intros Hpos. assert (g = Z.log2 f - 52) as -> by lia.
    assert (0 < f).
    { destruct (Z.eq_dec f 0) as [->|]; [simpl in *; lia|lia]. }
    pose proof (Z.log2_spec f ltac:(lia)) as [Hlog _].
    replace (d * 2 ^ (Z.log2 f - 52) * 2 ^ 52) with (d * 2 ^ Z.log2 f).
    - nia.
    - rewrite <- Z.mul_assoc, <- Z.pow_add_r by lia. do 2 f_equal. lia. }
  pose proof (round_minimal (n * P) d g m e0 Hd Hg HN Hb) as Hmin.
  set (M := round_half_even (n * P) (d * 2 ^ g)) in *.
  assert (HV : Zpos p * 2 ^ (e + 1074) = M * 2 ^ g).
  { destruct (Z.eqb_spec M (2 ^ 53)) as [EM|NM].
    - change (2 ^ 52) with (Zpos 4503599627370496) in E. cbv iota in E.
      destruct (g + 1 - 1074 <=? 971); [|discriminate].
      injection E as <- <-.
      replace (g + 1 - 1074 + 1074) with (g + 1) by lia.
      rewrite Z.pow_add_r by lia. rewrite EM.
      change (2 ^ 53) with (Zpos 4503599627370496 * 2 ^ 1). lia.
    - destruct M as [|q|q]; try discriminate.
      destruct (g - 1074 <=? 971); [|discriminate].
      injection E as <- <-. do 2 f_equal. lia. }
  rewrite HV. exact Hmin.
Qed.

End RoundFacts.

Module CodecFacts.
Import Float64 DecimalFacts.














End CodecFacts.

Module AmountFacts.
Import Float64.


End AmountFacts.



(** [nearest] against the division of the Standard Library's IEEE 754
    specification, on quotients that are exact, inexact, tied, subnormal,
    below the least subnormal and beyond the largest binary64. *)
Example nearest_agrees_with_SFdiv :
  let l := [(1235, 100); (1, 100); (1, 3); (2 ^ 53 + 1, 1); (2 ^ 53 + 3, 1);
            (2 ^ 54 + 2, 1); (2 ^ 54 + 6, 1); (9007199254740993, 10 ^ 16);
            (5, 10 ^ 324); (25, 10 ^ 325); (3, 10 ^ 324); (1, 10 ^ 330);
            (7, 2 ^ 1075); (3, 2 ^ 1075); (1, 2 ^ 1075);
            (2 ^ 1024 - 2 ^ 970 - 1, 1); (2 ^ 1024 - 2 ^ 970, 1);
            (10 ^ 309, 1)] in
  List.map (fun nd => Float64.nearest false (fst nd) (snd nd)) l
  = List.map
      (fun nd =>
         SFdiv 53 1024 (S754_finite false (Z.to_pos (fst nd)) 0)
           (S754_finite false (Z.to_pos (snd nd)) 0)) l.
Proof. vm_compute. reflexivity. Qed.

(** ** The answer of update-stats *)

(** C7: a successful update-stats is answered 200 with the body
    [{ok, lastUpdatedAt}], but [lastUpdatedAt] is the decimal string of the
    timestamp, which is encoded as a JSON string, not as a JSON number.
    Here for device D1 at clock 1700000000000, whatever the amount. *)
Theorem update_stats_answers_the_timestamp_as_a_string
    {float64 : Type}
    (FormatFloat : float64 -> ascii -> Z -> Z -> string) (x : float64) :
  let r :=
    fst (LaundryStats.update_handler FormatFloat
           {| table := "stats"; sharedSecret := "s3cret" |}
           1700000000000 None ∅
           {| LaundryStats.Decoded :=
                Some {| LaundryStats.DeviceID := "D1";
                        LaundryStats.TotalSpent := x;
                        LaundryStats.NumRuns := 3;
                        LaundryStats.Token := "s3cret" |} |}) in
  StatusCode r = 200
  /\ body_field "ok" (Body r) = Some (VBool true)
  /\ body_field "lastUpdatedAt" (Body r) = Some (VString "1700000000000")
  /\ option_map kind_of (body_field "lastUpdatedAt" (Body r))
     = Some JsonString.
Proof.
  intros r. subst r.
  rewrite StatsFacts.update_stored.
  - repeat split.
  - repeat split; discriminate.
  - vm_compute. discriminate.
Qed.

(** ** Serve-once delivery in the in-process server *)

Module VolatileFacts.
Import Volatile VolatileTrace GoFacts AuthFacts.

(** [startMachine] either turns the request away and changes nothing, or
    stores the command under its device. *)
Lemma startMachine_cases secret now st r :
  (StatusCode (fst (startMachine secret now st r)) <> 200
   /\ snd (startMachine secret now st r) = st)
  \/ (exists cmd,
         Decoded r = Some cmd /\ DeviceID cmd <> ""
         /\ 0 < DurationMinutes cmd
         /\ startMachine secret now st r
            = (writeJSON 200
                 (MapStringAny [("ok", VBool true);
                                ("createdAt", VInt64 now)]),
               {| latestByDevice :=
                    <[DeviceID cmd := stored cmd now]> (latestByDevice st);
                  lastServedAt := lastServedAt st |})).
Proof.
  unfold startMachine.
  destruct (negb (String.eqb (Method r) "POST"));
    [left; split; [discriminate|reflexivity]|].
  destruct (Decoded r) as [cmd|];
    [|left; split; [discriminate|reflexivity]].
  destruct (String.eqb (Token cmd) "" || negb (timingSafeEq (Token cmd) secret));
    [left; split; [discriminate|reflexivity]|].
  destruct (String.eqb_spec (DeviceID cmd) "") as [E|E];
    [left; split; [discriminate|reflexivity]|].
  destruct (negb (String.eqb (Type_ cmd) "wash")
            && negb (String.eqb (Type_ cmd) "dry"));
    [left; split; [discriminate|reflexivity]|].
  destruct (Z.leb_spec (DurationMinutes cmd) 0) as [L|L];
    [left; split; [discriminate|reflexivity]|].
  right. exists cmd. repeat split; auto.
Qed.

(** [getLatest] either carries no command and changes nothing, or carries
    the stored command of the device, which was pending, and raises the
    watermark to its [CreatedAt]. *)
Lemma getLatest_cases secret st r :
  (delivered (fst (getLatest secret st r)) = None
   /\ snd (getLatest secret st r) = st)
  \/ (exists cmd,
         latestByDevice st !! index (Query r) "deviceId" = Some cmd
         /\ servedAt st (index (Query r) "deviceId") < CreatedAt cmd
         /\ getLatest secret st r
            = (writeJSON 200 (Struct {| Command_ := Some cmd |}),
               {| latestByDevice := latestByDevice st;
                  lastServedAt :=
                    <[index (Query r) "deviceId" := CreatedAt cmd]>
                      (lastServedAt st) |})).
Proof.
  unfold getLatest.
  destruct (negb (String.eqb (Method r) "GET")); [left; split; reflexivity|].
  cbv zeta.
  destruct (String.eqb (index (Query r) "deviceId") "");
    [left; split; reflexivity|].
  destruct (String.eqb (index (Query r) "token") ""
            || negb (timingSafeEq (index (Query r) "token") secret));
    [left; split; reflexivity|].
  destruct (latestByDevice st !! index (Query r) "deviceId") as [cmd|] eqn:E;
    [|left; split; reflexivity].
  destruct (Z.geb_spec (servedAt st (index (Query r) "deviceId"))
              (CreatedAt cmd)) as [G|G];
    [left; split; reflexivity|].
  right. exists cmd. repeat split; auto.
Qed.

Lemma servedAt_insert st d d' v :
  servedAt {| latestByDevice := latestByDevice st;
              lastServedAt := <[d' := v]> (lastServedAt st) |} d
  = if decide (d' = d) then v else servedAt st d.
Proof.
  unfold servedAt. simpl. rewrite lookup_insert.
  destruct (decide (d' = d)); reflexivity.
Qed.

(** A call that neither submits to [d] nor polls [d] leaves the slot and
    the watermark of [d] alone. *)
Lemma exec_other secret d st c :
  submits_to d c = false -> polls d c = false ->
  latestByDevice (snd (exec secret st c)) !! d = latestByDevice st !! d
  /\ servedAt (snd (exec secret st c)) d = servedAt st d.
Proof.
  destruct c as [now r|r]; simpl; intros Hs Hp.
  - destruct (startMachine_cases secret now st r)
      as [[_ ->] | (cmd & Hd & _ & _ & ->)]; [auto|].
    rewrite Hd in Hs. apply String.eqb_neq in Hs. simpl.
    rewrite lookup_insert_ne by assumption. auto.
  - apply String.eqb_neq in Hp.
    destruct (getLatest_cases secret st r)
      as [[_ ->] | (cmd & _ & _ & ->)]; [auto|].
    cbn [snd]. rewrite servedAt_insert. simpl.
    destruct (decide (index (Query r) "deviceId" = d)); [contradiction|auto].
Qed.

(** A submit to another device or a rejected submit of [d]. *)
Lemma exec_submit_elsewhere secret d st now r :
  submits_to d (Submit now r) = false ->
  latestByDevice (snd (startMachine secret now st r)) !! d
  = latestByDevice st !! d
  /\ servedAt (snd (startMachine secret now st r)) d = servedAt st d.
Proof.
  intros Hs. apply (exec_other secret d st (Submit now r) Hs eq_refl).
Qed.

Lemma run_cons secret st c cs :
  fst (run secret st (c :: cs))
  = fst (exec secret st c) :: fst (run secret (snd (exec secret st c)) cs).
Proof.
  cbn [run]. destruct (exec secret st c) as [r st']. cbn [fst snd].
  destruct (run secret st' cs) as [rs st'']. reflexivity.
Qed.

Lemma run_app secret st cs1 cs2 :
  fst (run secret st (cs1 ++ cs2))
  = (fst (run secret st cs1)
     ++ fst (run secret (snd (run secret st cs1)) cs2))%list.
Proof.
  revert st. induction cs1 as [|c cs1 IH]; intros st; [reflexivity|].
  cbn [run app]. destruct (exec secret st c) as [r st'].
  specialize (IH st').
  destruct (run secret st' cs1) as [rs1 st1].
  destruct (run secret st' (cs1 ++ cs2)) as [rs st2].
  cbn [fst snd] in *. now rewrite IH.
Qed.

Lemma run_length secret st cs :
  List.length (fst (run secret st cs)) = List.length cs.
Proof.
  revert st. induction cs as [|c cs IH]; intros st; [reflexivity|].
  rewrite run_cons. simpl. now rewrite IH.
Qed.

Lemma run_snd_app secret st cs1 cs2 :
  snd (run secret st (cs1 ++ cs2))
  = snd (run secret (snd (run secret st cs1)) cs2).
Proof.
  revert st. induction cs1 as [|c cs1 IH]; intros st; [reflexivity|].
  cbn [run app]. destruct (exec secret st c) as [r st'].
  specialize (IH st').
  destruct (run secret st' cs1) as [rs1 st1].
  destruct (run secret st' (cs1 ++ cs2)) as [rs st2].
  cbn [fst snd] in *. exact IH.
Qed.

(** The answers to a segment of a trace are those of the segment run from
    the state the calls before it lead to: what follows does not matter. *)
Lemma run_segment secret st pre c seg post :
  take (List.length seg)
    (drop (S (List.length pre))
       (fst (run secret st (pre ++ c :: seg ++ post))))
  = fst (run secret
           (snd (exec secret (snd (run secret st pre)) c)) seg).
Proof.
  rewrite run_app.
  rewrite drop_app_ge by (rewrite run_length; lia).
  rewrite run_length.
  replace (S (List.length pre) - List.length pre)%nat with 1%nat by lia.
  rewrite run_cons. cbn [drop]. rewrite drop_0.
  rewrite run_app, take_app_length'; [reflexivity|].
  symmetry. apply run_length.
Qed.

(** While the device has nothing pending and nobody submits to it, no poll
    of it carries a command. *)
Lemma idle_segment secret d seg :
  Forall (fun c => submits_to d c = false) seg ->
  forall st,
    (forall c, latestByDevice st !! d = Some c ->
               CreatedAt c <= servedAt st d) ->
    deliveries d seg (fst (run secret st seg)) = [].
Proof.
  induction 1 as [|c seg Hc Hseg IH]; intros st Hidle; [reflexivity|].
  rewrite run_cons. cbn [deliveries].
  destruct (polls d c) eqn:Hp.
  - destruct c as [now r|r]; [discriminate Hp|].
    simpl in Hp. apply String.eqb_eq in Hp. simpl exec.
    destruct (getLatest_cases secret st r)
      as [[Hn Hst] | (cmd & Hl & Hlt & _)].
    + rewrite Hn, Hst. now apply IH.
    + rewrite Hp in Hl, Hlt. specialize (Hidle _ Hl). lia.
  - apply IH. intros c0 Hc0.
    destruct (exec_other secret d st c Hc Hp) as [E1 E2].
    rewrite E1 in Hc0. rewrite E2. now apply Hidle.
Qed.

(** While nobody submits to the device, the polls of it carry its stored
    command at most once, and nothing else. *)
Lemma segment_at_most_once secret d c0 seg :
  Forall (fun c => submits_to d c = false) seg ->
  forall st,
    latestByDevice st !! d = Some c0 ->
    deliveries d seg (fst (run secret st seg)) = []
    \/ deliveries d seg (fst (run secret st seg)) = [c0].
Proof.
  induction 1 as [|c seg Hc Hseg IH]; intros st Hl; [left; reflexivity|].
  rewrite run_cons. cbn [deliveries].
  destruct (polls d c) eqn:Hp.
  - destruct c as [now r|r]; [discriminate Hp|].
    simpl in Hp. apply String.eqb_eq in Hp. simpl exec.
    destruct (getLatest_cases secret st r)
      as [[Hn Hst] | (cmd & Hl' & Hlt & E)].
    + rewrite Hn, Hst. now apply IH.
    + rewrite Hp in Hl'. rewrite Hl in Hl'. injection Hl' as <-.
      rewrite E. cbn [fst snd delivered Body writeJSON Command_].
      right. f_equal. apply idle_segment; [assumption|].
      intros c1 Hc1. simpl in Hc1. rewrite Hl in Hc1. injection Hc1 as <-.
      rewrite servedAt_insert.
      destruct (decide (index (Query r) "deviceId" = d)); [lia|contradiction].
  - apply IH.
    destruct (exec_other secret d st c Hc Hp) as [E1 _]. now rewrite E1.
Qed.

(** A pending command is carried by the first accepted poll of the
    device. *)
Lemma segment_delivers secret d c0 seg :
  d <> "" ->
  Forall (fun c => submits_to d c = false) seg ->
  Exists (accepted_poll secret d) seg ->
  forall st,
    latestByDevice st !! d = Some c0 ->
    servedAt st d < CreatedAt c0 ->
    deliveries d seg (fst (run secret st seg)) = [c0].
Proof.
  intros Hd Hseg Hex. induction Hseg as [|c seg Hc Hseg IH];
    intros st Hl Hlt; [inversion Hex|].
  rewrite run_cons. cbn [deliveries].
  destruct (polls d c) eqn:Hp.
  - destruct c as [now r|r]; [discriminate Hp|].
    simpl in Hp. apply String.eqb_eq in Hp. simpl exec.
    destruct (getLatest_cases secret st r)
      as [[Hn Hst] | (cmd & Hl' & _ & E)].
    + rewrite Hn, Hst.
      apply Exists_cons in Hex as [Hacc|Hex'].
      * exfalso. destruct Hacc as (Hm & Hdev & Ha).
        revert Hn.
        rewrite IdleFacts.getLatest_accepted
          by (try rewrite Hdev; assumption).
        cbv zeta. rewrite Hdev, Hl.
        destruct (Z.geb_spec (servedAt st d) (CreatedAt c0)); [lia|].
        discriminate.
      * now apply IH.
    + rewrite Hp in Hl'. rewrite Hl in Hl'. injection Hl' as <-.
      rewrite E. cbn [fst snd delivered Body writeJSON Command_].
      f_equal. apply idle_segment; [assumption|].
      intros c1 Hc1. simpl in Hc1. rewrite Hl in Hc1. injection Hc1 as <-.
      rewrite servedAt_insert.
      destruct (decide (index (Query r) "deviceId" = d)); [lia|contradiction].
  - destruct (exec_other secret d st c Hc Hp) as [E1 E2].
    apply IH.
    + apply Exists_cons in Hex as [Hacc|Hex']; [|assumption].
      exfalso. destruct c as [now r|r]; [destruct Hacc|].
      destruct Hacc as (_ & Hdev & _). simpl in Hp.
      apply String.eqb_neq in Hp. contradiction.
    + now rewrite E1.
    + now rewrite E2.
Qed.

(** What a submit in the same millisecond as the served command does:
    the new command is stored, the watermark stays, and the polls that
    follow carry nothing. *)
Lemma submit_at_the_watermark_is_lost secret d st now r cmd seg :
  Decoded r = Some cmd -> DeviceID cmd = d ->
  StatusCode (fst (startMachine secret now st r)) = 200 ->
  now <= servedAt st d ->
  Forall (fun c => submits_to d c = false) seg ->
  deliveries d seg
    (fst (run secret (snd (startMachine secret now st r)) seg)) = [].
Proof.
  intros Hdec Hd H200 Hnow Hseg.
  destruct (startMachine_cases secret now st r)
    as [[Hne _] | (cmd' & Hdec' & _ & _ & E)]; [contradiction|].
  rewrite Hdec in Hdec'. injection Hdec' as <-.
  rewrite E. cbn [snd]. apply idle_segment; [assumption|].
  intros c Hc. simpl in Hc. rewrite Hd, lookup_insert_eq in Hc.
  injection Hc as <-. simpl. unfold servedAt in *. simpl. lia.
Qed.

End VolatileFacts.

(** ** Serve-once delivery in the Lambda handlers *)

Module DurableFacts.
Import DurableTrace GoFacts AuthFacts.

(** The submit handler either answers an error and changes nothing, or puts
    the item under the trimmed device identifier. *)
Lemma start_cases s now putErr t req :
  (StatusCode (fst (LaundryStart.handler s now putErr t req)) <> 200
   /\ snd (LaundryStart.handler s now putErr t req) = t)
  \/ (exists cmd,
         LaundryStart.Decoded req = Some cmd
         /\ TrimSpace (LaundryStart.DeviceID cmd) <> ""
         /\ 0 < LaundryStart.DurationMinutes cmd
         /\ LaundryStart.handler s now putErr t req
            = (LaundryStart.resp 200
                 (MapStringAny [("ok", VBool true);
                                ("createdAt", VInt64 now)]),
               <[TrimSpace (LaundryStart.DeviceID cmd) :=
                   LaundryStart.item_of
                     (TrimSpace (LaundryStart.DeviceID cmd)) cmd now]> t)).
Proof.
  unfold LaundryStart.handler.
  destruct (LaundryStart.Decoded req) as [cmd|];
    [|left; split; [discriminate|reflexivity]].
  cbv zeta.
  destruct (String.eqb (LaundryStart.Token cmd) ""
            || String.eqb (sharedSecret s) ""
            || negb (timingSafeEq (LaundryStart.Token cmd) (sharedSecret s)));
    [left; split; [discriminate|reflexivity]|].
  destruct (String.eqb_spec (TrimSpace (LaundryStart.DeviceID cmd)) "")
    as [E|E]; [left; split; [discriminate|reflexivity]|].
  destruct (negb (String.eqb (LaundryStart.Type_ cmd) "wash")
            && negb (String.eqb (LaundryStart.Type_ cmd) "dry"));
    [left; split; [discriminate|reflexivity]|].
  destruct (Z.leb_spec (LaundryStart.DurationMinutes cmd) 0) as [L|L];
    [left; split; [discriminate|reflexivity]|].
  unfold PutItem. destruct putErr as [e|];
    [left; split; [discriminate|reflexivity]|].
  unfold key_of. rewrite lookup_insert_eq.
  right. exists cmd. repeat split; auto.
Qed.

(** The poll handler either carries no command and changes nothing, or
    carries the command of the stored item, which had no [servedAt], and
    tries to mark it. *)
Lemma latest_cases s now getFail updFail t req :
  let d :=
    TrimSpace (index (LaundryLatest.QueryStringParameters req) "deviceId") in
  (delivered
     (Polled (fst (LaundryLatest.handler s now getFail updFail t req)))
   = None
   /\ snd (LaundryLatest.handler s now getFail updFail t req) = t)
  \/ (exists item : Item,
         t !! d = Some item /\ item !! "servedAt" = None
         /\ getFail = false /\ d <> ""
         /\ LaundryLatest.handler s now getFail updFail t req
            = (LaundryLatest.resp 200
                 (Struct {| LaundryLatest.Command_ :=
                              Some (DurableThreads.command_of d item) |}),
               UpdateItem_SET updFail t d "servedAt"
                 (AttributeValueMemberN (FormatInt now)))).
Proof.
  intros d. unfold LaundryLatest.handler. fold d.
  destruct (String.eqb_spec d "") as [E|E]; [left; split; reflexivity|].
  destruct (String.eqb
              (index (LaundryLatest.QueryStringParameters req) "token") ""
            || String.eqb (sharedSecret s) ""
            || negb (timingSafeEq
                       (index (LaundryLatest.QueryStringParameters req)
                          "token") (sharedSecret s)));
    [left; split; reflexivity|].
  unfold GetItem. destruct getFail; [left; split; reflexivity|].
  destruct (t !! d) as [item|] eqn:Ht; [|left; split; reflexivity].
  destruct (item !! "servedAt") eqn:Hs; [left; split; reflexivity|].
  right. exists item. repeat split; auto.
Qed.

Lemma lookup_update_other (t : Table) updFail d d' attr v :
  d' <> d -> UpdateItem_SET updFail t d' attr v !! d = t !! d.
Proof.
  intros Hne. unfold UpdateItem_SET. destruct updFail; [reflexivity|].
  now rewrite lookup_insert_ne.
Qed.

(** A call that neither submits to [d] nor polls [d] leaves the item of
    [d] alone. *)
Lemma table_exec_other s d t c :
  submits_to d c = false -> polls d c = false ->
  snd (exec s t c) !! d = t !! d.
Proof.
  destruct c as [now putErr r|now gf uf r]; simpl; intros Hs Hp.
  - destruct (start_cases s now putErr t r)
      as [[_ E] | (cmd & Hd & _ & _ & E)].
    + destruct (LaundryStart.handler s now putErr t r). simpl in *.
      now rewrite E.
    + rewrite E. simpl. rewrite Hd in Hs. apply String.eqb_neq in Hs.
      now rewrite lookup_insert_ne.
  - apply String.eqb_neq in Hp.
    destruct (latest_cases s now gf uf t r)
      as [[_ E] | (item & _ & _ & _ & _ & E)].
    + destruct (LaundryLatest.handler s now gf uf t r). simpl in *.
      now rewrite E.
    + rewrite E. simpl. now apply lookup_update_other.
Qed.

Lemma table_run_cons s t c cs :
  fst (run s t (c :: cs))
  = fst (exec s t c) :: fst (run s (snd (exec s t c)) cs).
Proof.
  cbn [run]. destruct (exec s t c) as [r t']. cbn [fst snd].
  destruct (run s t' cs) as [rs t'']. reflexivity.
Qed.

Lemma exec_poll s t now gf uf r :
  exec s t (TakeNext now gf uf r)
  = (Polled (fst (LaundryLatest.handler s now gf uf t r)),
     snd (LaundryLatest.handler s now gf uf t r)).
Proof.
  simpl. now destruct (LaundryLatest.handler s now gf uf t r).
Qed.

Lemma table_run_app s t cs1 cs2 :
  fst (run s t (cs1 ++ cs2))
  = (fst (run s t cs1) ++ fst (run s (snd (run s t cs1)) cs2))%list.
Proof.
  revert t. induction cs1 as [|c cs1 IH]; intros t; [reflexivity|].
  cbn [run app]. destruct (exec s t c) as [r t'].
  specialize (IH t').
  destruct (run s t' cs1) as [rs1 t1].
  destruct (run s t' (cs1 ++ cs2)) as [rs t2].
  cbn [fst snd] in *. now rewrite IH.
Qed.

Lemma table_run_length s t cs :
  List.length (fst (run s t cs)) = List.length cs.
Proof.
  revert t. induction cs as [|c cs IH]; intros t; [reflexivity|].
  rewrite table_run_cons. simpl. now rewrite IH.
Qed.

(** The answers to a segment of a trace are those of the segment run from
    the table the calls before it lead to. *)
Lemma table_run_segment s t pre c seg post :
  take (List.length seg)
    (drop (S (List.length pre)) (fst (run s t (pre ++ c :: seg ++ post))))
  = fst (run s (snd (exec s (snd (run s t pre)) c)) seg).
Proof.
  rewrite table_run_app.
  rewrite drop_app_ge by (rewrite table_run_length; lia).
  rewrite table_run_length.
  replace (S (List.length pre) - List.length pre)%nat with 1%nat by lia.
  rewrite table_run_cons. cbn [drop]. rewrite drop_0.
  rewrite table_run_app, take_app_length'; [reflexivity|].
  symmetry. apply table_run_length.
Qed.

(** While the item of the device is absent or marked, and nobody submits
    to the device, no poll of it carries a command. *)
Lemma table_idle_segment s d seg :
  Forall (fun c => submits_to d c = false) seg ->
  forall t : Table,
    (forall item : Item, t !! d = Some item -> is_Some (item !! "servedAt")) ->
    deliveries d seg (fst (run s t seg)) = [].
Proof.
  induction 1 as [|c seg Hc Hseg IH]; intros t Hidle; [reflexivity|].
  rewrite table_run_cons. cbn [deliveries].
  destruct (polls d c) eqn:Hp.
  - destruct c as [now pe r|now gf uf r]; [discriminate Hp|].
    simpl in Hp. apply String.eqb_eq in Hp. rewrite exec_poll. cbn [fst snd].
    destruct (latest_cases s now gf uf t r)
      as [[Hn Ht] | (item & Hi & Hs & _)].
    + rewrite Hn, Ht. now apply IH.
    + rewrite Hp in Hi. destruct (Hidle _ Hi) as [v Hv]. congruence.
  - apply IH. intros item Hi.
    rewrite (table_exec_other s d t c Hc Hp) in Hi. now apply Hidle.
Qed.

(** While nobody submits to the device and every mark-served write of a
    poll of it succeeds, the polls of it carry the command of its item at
    most once, and nothing else. *)
Lemma table_segment_at_most_once s d (item : Item) seg :
  Forall (fun c => submits_to d c = false /\ mark_fails d c = false) seg ->
  forall t : Table,
    t !! d = Some item ->
    deliveries d seg (fst (run s t seg)) = []
    \/ deliveries d seg (fst (run s t seg))
       = [DurableThreads.command_of d item].
Proof.
  induction 1 as [|c seg [Hc Hm] Hseg IH]; intros t Hl; [left; reflexivity|].
  rewrite table_run_cons. cbn [deliveries].
  destruct (polls d c) eqn:Hp.
  - destruct c as [now pe r|now gf uf r]; [discriminate Hp|].
    simpl in Hm, Hp. rewrite Hp in Hm. simpl in Hm. subst uf.
    apply String.eqb_eq in Hp. rewrite exec_poll. cbn [fst snd].
    destruct (latest_cases s now gf false t r)
      as [[Hn Ht] | (item' & Hi & Hs & _ & _ & E)].
    + rewrite Hn, Ht. now apply IH.
    + rewrite Hp in Hi, E. rewrite Hl in Hi. injection Hi as <-.
      rewrite E. cbn [fst snd delivered Body LaundryLatest.resp
                        LaundryLatest.Command_].
      right. f_equal. apply table_idle_segment.
      * eapply Forall_impl; [eassumption|]. now intros ? [? _].
      * intros item' Hi'. unfold UpdateItem_SET in Hi'.
        rewrite lookup_insert_eq in Hi'. injection Hi' as <-.
        rewrite lookup_insert_eq. eauto.
  - apply IH. now rewrite (table_exec_other s d t c Hc Hp).
Qed.

(** An item without [servedAt] is carried by the first accepted poll of
    the device whose read succeeds. *)
Lemma table_segment_delivers s d (item : Item) seg :
  Forall (fun c => submits_to d c = false /\ mark_fails d c = false) seg ->
  Exists (accepted_poll s d) seg ->
  forall t : Table,
    d <> "" ->
    t !! d = Some item ->
    item !! "servedAt" = None ->
    deliveries d seg (fst (run s t seg)) = [DurableThreads.command_of d item].
Proof.
  intros Hseg Hex. induction Hseg as [|c seg [Hc Hm] Hseg IH];
    intros t Hd Hl Hs; [inversion Hex|].
  rewrite table_run_cons. cbn [deliveries].
  destruct (polls d c) eqn:Hp.
  - destruct c as [now pe r|now gf uf r]; [discriminate Hp|].
    simpl in Hm, Hp. rewrite Hp in Hm. simpl in Hm. subst uf.
    apply String.eqb_eq in Hp. rewrite exec_poll. cbn [fst snd].
    destruct (latest_cases s now gf false t r)
      as [[Hn Ht] | (item' & Hi & _ & _ & _ & E)].
    + rewrite Hn, Ht.
      apply Exists_cons in Hex as [Hacc|Hex'].
      * exfalso. destruct Hacc as (-> & Hdev & Ha).
        revert Hn.
        rewrite IdleFacts.latest_accepted
          by (try rewrite Hdev; assumption).
        cbv zeta. rewrite Hdev. unfold GetItem. rewrite Hl, Hs.
        discriminate.
      * now apply IH.
    + rewrite Hp in Hi, E. rewrite Hl in Hi. injection Hi as <-.
      rewrite E. cbn [fst snd delivered Body LaundryLatest.resp
                        LaundryLatest.Command_].
      f_equal. apply table_idle_segment.
      * eapply Forall_impl; [eassumption|]. now intros ? [? _].
      * intros item' Hi'. unfold UpdateItem_SET in Hi'.
        rewrite lookup_insert_eq in Hi'. injection Hi' as <-.
        rewrite lookup_insert_eq. eauto.
  - apply IH; auto.
    + apply Exists_cons in Hex as [Hacc|Hex']; [|assumption].
      exfalso. destruct c as [now pe r|now gf uf r]; [destruct Hacc|].
      destruct Hacc as (_ & Hdev & _). simpl in Hp.
      apply String.eqb_neq in Hp. contradiction.
    + now rewrite (table_exec_other s d t c Hc Hp).
Qed.

(** The command a poll builds from the item the submit handler wrote. *)
Lemma command_of_item_of cmd now :
  0 < LaundryStart.DurationMinutes cmd < 2 ^ 63 ->
  0 <= now < 2 ^ 63 ->
  DurableThreads.command_of (TrimSpace (LaundryStart.DeviceID cmd))
    (LaundryStart.item_of (TrimSpace (LaundryStart.DeviceID cmd)) cmd now)
  = stored cmd now.
Proof.
  intros Hdur Hnow.
  unfold DurableThreads.command_of, LaundryStart.item_of, stored.
  unfold Itoa.
  f_equal; repeat (rewrite lookup_insert_ne by discriminate);
    rewrite lookup_insert_eq; try reflexivity;
    apply DecimalFacts.mustInt64_FormatInt; lia.
Qed.

Lemma item_of_unserved d cmd now :
  LaundryStart.item_of d cmd now !! "servedAt" = None.
Proof.
  unfold LaundryStart.item_of.
  repeat (rewrite lookup_insert_ne by discriminate).
  apply lookup_empty.
Qed.

End DurableFacts.

(** ** Serve-once delivery *)

(** Two submits for D1 and then two polls: the first command is replaced
    before any poll and is never carried by a poll; the polls carry the
    second command once. *)
Lemma overwritten_command_is_never_delivered :
  let wash := {| Volatile.DeviceID := "D1"; Volatile.Type_ := "wash";
                 Volatile.DurationMinutes := 30; Volatile.CreatedAt := 0;
                 Volatile.Token := "s3cret" |} in
  let dry := {| Volatile.DeviceID := "D1"; Volatile.Type_ := "dry";
                Volatile.DurationMinutes := 45; Volatile.CreatedAt := 0;
                Volatile.Token := "s3cret" |} in
  let trace :=
    [VolatileTrace.Submit 1700000000000 (VolatileTrace.submit_request wash);
     VolatileTrace.Submit 1700000005000 (VolatileTrace.submit_request dry);
     VolatileTrace.TakeNext (VolatileTrace.poll_request "D1" "s3cret");
     VolatileTrace.TakeNext (VolatileTrace.poll_request "D1" "s3cret")] in
  let rs :=
    fst (VolatileTrace.run "s3cret"
           {| Volatile.latestByDevice := ∅; Volatile.lastServedAt := ∅ |}
           trace) in
  List.map StatusCode rs = [200; 200; 200; 200]
  /\ VolatileTrace.deliveries "D1" trace rs
     = [VolatileTrace.stored dry 1700000005000]
  /\ ~ In (VolatileTrace.stored wash 1700000000000)
         (VolatileTrace.deliveries "D1" trace rs).
Proof.
  intros wash dry trace rs.
  assert (E : VolatileTrace.deliveries "D1" trace rs
              = [VolatileTrace.stored dry 1700000005000])
    by (vm_compute; reflexivity).
  split; [vm_compute; reflexivity|]. split; [exact E|].
  rewrite E. intros [H|[]]. discriminate H.
Qed.

(** C1 (amended): after a successful submit for a device, and until the next
    submit for it, the polls of the device return the submitted command at
    most once and return no other command: once it has been returned, every
    later poll returns empty.  A command replaced by a later submit before
    any poll is not returned at all.  The first accepted poll does return
    it: always in the Lambda handlers (every mark-served write succeeding),
    and in the in-process server whenever its [createdAt] is above the
    watermark of the device. *)
Theorem serve_once_delivery
    (secret : string) (st : Volatile.State) (now : Z) (r : Volatile.Request)
    (cmd : Volatile.Command) (seg : list VolatileTrace.call)
    (s : Server) (t : Table) (now' : Z) (putErr : option string)
    (req : LaundryStart.Request) (cmd' : LaundryStart.Command)
    (seg' : list DurableTrace.call) :
  let d := Volatile.DeviceID cmd in
  let d' := TrimSpace (LaundryStart.DeviceID cmd') in
  let ds :=
    VolatileTrace.deliveries d seg
      (fst (VolatileTrace.run secret
              (snd (Volatile.startMachine secret now st r)) seg)) in
  let ds' :=
    DurableTrace.deliveries d' seg'
      (fst (DurableTrace.run s
              (snd (LaundryStart.handler s now' putErr t req)) seg')) in
  Volatile.Decoded r = Some cmd ->
  StatusCode (fst (Volatile.startMachine secret now st r)) = 200 ->
  Forall (fun c => VolatileTrace.submits_to d c = false) seg ->
  LaundryStart.Decoded req = Some cmd' ->
  StatusCode (fst (LaundryStart.handler s now' putErr t req)) = 200 ->
  LaundryStart.DurationMinutes cmd' < 2 ^ 63 ->
  0 <= now' < 2 ^ 63 ->
  Forall (fun c => DurableTrace.submits_to d' c = false
                   /\ DurableTrace.mark_fails d' c = false) seg' ->
  (ds = [] \/ ds = [VolatileTrace.stored cmd now])
  /\ (Volatile.servedAt st d < now ->
      Exists (VolatileTrace.accepted_poll secret d) seg ->
      ds = [VolatileTrace.stored cmd now])
  /\ (ds' = [] \/ ds' = [DurableTrace.stored cmd' now'])
  /\ (Exists (DurableTrace.accepted_poll s d') seg' ->
      ds' = [DurableTrace.stored cmd' now']).
Proof.
  intros d d' ds ds' Hdec H200 Hseg Hdec' H200' Hdur Hnow Hseg'.
  destruct (VolatileFacts.startMachine_cases secret now st r)
    as [[Hne _] | (c & Hc & Hd & _ & E)]; [contradiction|].
  rewrite Hdec in Hc. injection Hc as <-.
  destruct (DurableFacts.start_cases s now' putErr t req)
    as [[Hne _] | (c' & Hc' & Hd' & Hpos & E')]; [contradiction|].
  rewrite Hdec' in Hc'. injection Hc' as <-.
  subst ds ds'. rewrite E, E'. cbn [snd].
  rewrite <- (DurableFacts.command_of_item_of cmd' now') by lia.
  repeat split.
  - apply VolatileFacts.segment_at_most_once; [assumption|].
    simpl. apply lookup_insert_eq.
  - intros Hlt Hex.
    apply VolatileFacts.segment_delivers; auto; simpl;
      first [apply lookup_insert_eq | exact Hlt].
  - apply DurableFacts.table_segment_at_most_once; [assumption|].
    apply lookup_insert_eq.
  - intros Hex.
    apply DurableFacts.table_segment_delivers; auto;
      first [apply lookup_insert_eq | apply DurableFacts.item_of_unserved].
Qed.

(** One submit for D1 and two polls, in either store: the first poll
    returns the command, the second returns empty. *)
Lemma serve_once_delivery_witness :
  let wash := {| Volatile.DeviceID := "D1"; Volatile.Type_ := "wash";
                 Volatile.DurationMinutes := 30; Volatile.CreatedAt := 0;
                 Volatile.Token := "s3cret" |} in
  let wash' := {| LaundryStart.DeviceID := " D1"; LaundryStart.Type_ := "wash";
                  LaundryStart.DurationMinutes := 30;
                  LaundryStart.Token := "s3cret" |} in
  let s := {| table := "commands"; sharedSecret := "s3cret" |} in
  let seg := [VolatileTrace.TakeNext (VolatileTrace.poll_request "D1" "s3cret");
              VolatileTrace.TakeNext (VolatileTrace.poll_request "D1" "s3cret")]
  in
  let seg' :=
    [DurableTrace.TakeNext 1700000001000 false false
       (DurableTrace.poll_request "D1" "s3cret");
     DurableTrace.TakeNext 1700000002000 false false
       (DurableTrace.poll_request "D1" "s3cret")] in
  VolatileTrace.deliveries "D1" seg
    (fst (VolatileTrace.run "s3cret"
            (snd (Volatile.startMachine "s3cret" 1700000000000
                    {| Volatile.latestByDevice := ∅;
                       Volatile.lastServedAt := ∅ |}
                    (VolatileTrace.submit_request wash))) seg))
  = [VolatileTrace.stored wash 1700000000000]
  /\ DurableTrace.deliveries (TrimSpace " D1") seg'
       (fst (DurableTrace.run s
               (snd (LaundryStart.handler s 1700000000000 None ∅
                       {| LaundryStart.Decoded := Some wash' |})) seg'))
     = [DurableTrace.stored wash' 1700000000000].
Proof.
  intros wash wash' s seg seg'.
  assert (Ha : authorized "s3cret" "s3cret")
    by (repeat split; discriminate).
  assert (H200 : StatusCode
                   (fst (Volatile.startMachine "s3cret" 1700000000000
                           {| Volatile.latestByDevice := ∅;
                              Volatile.lastServedAt := ∅ |}
                           (VolatileTrace.submit_request wash))) = 200)
    by (vm_compute; reflexivity).
  assert (H200' : StatusCode
                    (fst (LaundryStart.handler s 1700000000000 None ∅
                            {| LaundryStart.Decoded := Some wash' |})) = 200)
    by (vm_compute; reflexivity).
  assert (Hseg : Forall (fun c => VolatileTrace.submits_to "D1" c = false) seg)
    by (repeat constructor).
  assert (Hseg' : Forall (fun c =>
                            DurableTrace.submits_to (TrimSpace " D1") c = false
                            /\ DurableTrace.mark_fails (TrimSpace " D1") c
                               = false) seg')
    by (repeat constructor; vm_compute; reflexivity).
  assert (Hex : Exists (VolatileTrace.accepted_poll "s3cret" "D1") seg)
    by (constructor; repeat split; discriminate).
  assert (Hex' : Exists (DurableTrace.accepted_poll s (TrimSpace " D1")) seg')
    by (constructor; repeat split; discriminate).
  destruct (serve_once_delivery "s3cret"
              {| Volatile.latestByDevice := ∅; Volatile.lastServedAt := ∅ |}
              1700000000000 (VolatileTrace.submit_request wash) wash seg
              s ∅ 1700000000000 None
              {| LaundryStart.Decoded := Some wash' |} wash' seg'
              eq_refl H200 Hseg eq_refl H200' ltac:(simpl; lia) ltac:(lia)
              Hseg')
    as (_ & Hv & _ & Hd).
  split.
  - apply Hv; [vm_compute; reflexivity|exact Hex].
  - apply Hd. exact Hex'.
Defined.

(** ** Serve-once delivery inside a trace

    The same, read on a whole trace: [pre] is what came before the submit,
    [seg] the calls up to the next submit for the device, [post] the rest. *)

Module TraceFacts.

Lemma volatile_answer_at secret st pre c rest :
  fst (VolatileTrace.run secret st (pre ++ c :: rest)) !! List.length pre
  = Some (fst (VolatileTrace.exec secret
                 (snd (VolatileTrace.run secret st pre)) c)).
Proof.
  rewrite VolatileFacts.run_app.
  rewrite lookup_app_r by (rewrite VolatileFacts.run_length; lia).
  rewrite VolatileFacts.run_length, Nat.sub_diag.
  now rewrite VolatileFacts.run_cons.
Qed.

Lemma volatile_at_most_once_in_a_trace secret st pre now r cmd seg post resp :
  let d := Volatile.DeviceID cmd in
  let answers :=
    fst (VolatileTrace.run secret st
           (pre ++ VolatileTrace.Submit now r :: seg ++ post)) in
  let ds :=
    VolatileTrace.deliveries d seg
      (take (List.length seg) (drop (S (List.length pre)) answers)) in
  Volatile.Decoded r = Some cmd ->
  answers !! List.length pre = Some resp ->
  StatusCode resp = 200 ->
  Forall (fun c => VolatileTrace.submits_to d c = false) seg ->
  ds = [] \/ ds = [VolatileTrace.stored cmd now].
Proof.
  intros d answers ds Hdec Hresp H200 Hseg. subst ds answers.
  rewrite volatile_answer_at in Hresp. injection Hresp as <-.
  rewrite VolatileFacts.run_segment. simpl VolatileTrace.exec in *.
  destruct (VolatileFacts.startMachine_cases secret now
              (snd (VolatileTrace.run secret st pre)) r)
    as [[Hne _] | (c & Hc & _ & _ & E)]; [contradiction|].
  rewrite Hdec in Hc. injection Hc as <-. rewrite E. cbn [snd].
  apply VolatileFacts.segment_at_most_once; [assumption|].
  simpl. apply lookup_insert_eq.
Qed.

Lemma table_answer_at s t pre c rest :
  fst (DurableTrace.run s t (pre ++ c :: rest)) !! List.length pre
  = Some (fst (DurableTrace.exec s (snd (DurableTrace.run s t pre)) c)).
Proof.
  rewrite DurableFacts.table_run_app.
  rewrite lookup_app_r by (rewrite DurableFacts.table_run_length; lia).
  rewrite DurableFacts.table_run_length, Nat.sub_diag.
  now rewrite DurableFacts.table_run_cons.
Qed.

Lemma table_at_most_once_in_a_trace
    s t pre now putErr r cmd seg post resp :
  let d := TrimSpace (LaundryStart.DeviceID cmd) in
  let answers :=
    fst (DurableTrace.run s t
           (pre ++ DurableTrace.Submit now putErr r :: seg ++ post)) in
  let ds :=
    DurableTrace.deliveries d seg
      (take (List.length seg) (drop (S (List.length pre)) answers)) in
  LaundryStart.Decoded r = Some cmd ->
  answers !! List.length pre = Some (DurableTrace.Started resp) ->
  StatusCode resp = 200 ->
  LaundryStart.DurationMinutes cmd < 2 ^ 63 ->
  0 <= now < 2 ^ 63 ->
  Forall (fun c => DurableTrace.submits_to d c = false
                   /\ DurableTrace.mark_fails d c = false) seg ->
  ds = [] \/ ds = [DurableTrace.stored cmd now].
Proof.
  intros d answers ds Hdec Hresp H200 Hdur Hnow Hseg. subst ds answers.
  rewrite table_answer_at in Hresp.
  rewrite DurableFacts.table_run_segment.
  cbn [DurableTrace.exec] in *.
  destruct (DurableFacts.start_cases s now putErr
              (snd (DurableTrace.run s t pre)) r)
    as [[Hne _] | (c & Hc & _ & Hpos & E)].
  - exfalso. apply Hne.
    destruct (LaundryStart.handler s now putErr
                (snd (DurableTrace.run s t pre)) r) as [o t'].
    cbn [fst] in *. injection Hresp as ->. assumption.
  - rewrite Hdec in Hc. injection Hc as <-. rewrite E. cbn [snd].
    rewrite <- (DurableFacts.command_of_item_of cmd now) by lia.
    apply DurableFacts.table_segment_at_most_once; [assumption|].
    apply lookup_insert_eq.
Qed.

End TraceFacts.

(** ** A submit in the millisecond of the command served before *)

(** C3: a submit replaces the stored command, but in the in-process server
    it does not reset the watermark.  Here D1 is given a wash command at
    clock 1700000000000, polls it, and is given a dry command within the
    same millisecond: the poll that follows returns empty, and so would
    every later one. *)
Theorem resubmit_in_the_same_millisecond_is_not_delivered :
  let wash := {| Volatile.DeviceID := "D1"; Volatile.Type_ := "wash";
                 Volatile.DurationMinutes := 30; Volatile.CreatedAt := 0;
                 Volatile.Token := "s3cret" |} in
  let dry := {| Volatile.DeviceID := "D1"; Volatile.Type_ := "dry";
                Volatile.DurationMinutes := 45; Volatile.CreatedAt := 0;
                Volatile.Token := "s3cret" |} in
  let poll := VolatileTrace.TakeNext (VolatileTrace.poll_request "D1" "s3cret")
  in
  let ok := Volatile.writeJSON 200
              (MapStringAny [("ok", VBool true);
                             ("createdAt", VInt64 1700000000000)]) in
  let run := VolatileTrace.run "s3cret"
               {| Volatile.latestByDevice := ∅; Volatile.lastServedAt := ∅ |}
  in
  fst (run [VolatileTrace.Submit 1700000000000
              (VolatileTrace.submit_request wash);
            poll;
            VolatileTrace.Submit 1700000000000
              (VolatileTrace.submit_request dry);
            poll; poll])
  = [ok;
     Volatile.writeJSON 200
       (Struct {| Volatile.Command_ :=
                    Some (VolatileTrace.stored wash 1700000000000) |});
     ok;
     Volatile.writeJSON 200 (Struct {| Volatile.Command_ := None |});
     Volatile.writeJSON 200 (Struct {| Volatile.Command_ := None |})]
  /\ Volatile.latestByDevice
       (snd (run [VolatileTrace.Submit 1700000000000
                    (VolatileTrace.submit_request wash);
                  poll;
                  VolatileTrace.Submit 1700000000000
                    (VolatileTrace.submit_request dry)])) !! "D1"
     = Some (VolatileTrace.stored dry 1700000000000).
Proof. split; vm_compute; reflexivity. Qed.

(** ** Concurrent polls of one device *)

Module ThreadFacts.
Import Volatile VolatileThreads.

Lemma count_app f l1 l2 :
  count f (l1 ++ l2) = (count f l1 + count f l2)%nat.
Proof. induction l1 as [|th l1 IH]; simpl; [reflexivity|]. rewrite IH. lia. Qed.

Lemma count_mid f l1 th l2 :
  count f (l1 ++ th :: l2)
  = (count f l1 + count f l2 + if f th then 1 else 0)%nat.
Proof. rewrite count_app. simpl. lia. Qed.

Lemma count_le f g l :
  (forall th, f th = true -> g th = true) -> (count f l <= count g l)%nat.
Proof.
  intros Hfg. induction l as [|th l IH]; simpl; [lia|].
  destruct (f th) eqn:E; [rewrite (Hfg _ E)|destruct (g th)]; lia.
Qed.

Lemma count_zero f l :
  count f l = O -> Forall (fun th => f th = false) l.
Proof.
  induction l as [|th l IH]; simpl; intros H; constructor.
  - destruct (f th); [discriminate|reflexivity].
  - apply IH. destruct (f th); [discriminate|assumption].
Qed.

Lemma marking_holds d th : marking d th = true -> holds_lock th = true.
Proof.
  unfold marking, holds_lock. intros H. apply andb_true_iff in H as [_ H].
  destruct (at_ th); auto; discriminate.
Qed.

(** A thread outside the critical section has nothing to maintain. *)
Lemma outside_ok st l :
  count holds_lock l = O -> Forall (local_ok st) l.
Proof.
  intros H. apply count_zero in H. eapply Forall_impl; [exact H|].
  intros th Hth. unfold local_ok, holds_lock in *.
  destruct (at_ th); auto; discriminate.
Qed.

Lemma Forall_mid {A} (P : A -> Prop) l1 x l2 :
  Forall P (l1 ++ x :: l2) <-> Forall P l1 /\ P x /\ Forall P l2.
Proof. rewrite Forall_app, Forall_cons. tauto. Qed.

Lemma servedAt_mark st dev d v :
  servedAt {| latestByDevice := latestByDevice st;
              lastServedAt := <[dev := v]> (lastServedAt st) |} d
  = if decide (dev = d) then v else servedAt st d.
Proof. apply VolatileFacts.servedAt_insert. Qed.

Lemma eqb_decide (a b : string) :
  String.eqb a b = if decide (a = b) then true else false.
Proof.
  destruct (String.eqb_spec a b), (decide (a = b)); auto; contradiction.
Qed.

Lemma delivers_at d dev p :
  delivers d {| deviceID := dev; at_ := p |}
  = String.eqb dev d
    && match p with
       | AtUnlock r | Done r =>
           match VolatileTrace.delivered r with
           | Some _ => true
           | None => false
           end
       | _ => false
       end.
Proof. reflexivity. Qed.

Lemma marking_at d dev p :
  marking d {| deviceID := dev; at_ := p |}
  = String.eqb dev d && match p with AtMark _ => true | _ => false end.
Proof. reflexivity. Qed.

(** Evaluates what the counted predicates say of the thread that moves. *)
Ltac flags :=
  unfold goto in *; cbn [deviceID at_] in *;
  rewrite ?delivers_at, ?marking_at in *;
  cbn [holds_lock local_ok at_ deviceID mu store latestByDevice
         VolatileTrace.delivered Body writeJSON Command_] in *;
  rewrite ?andb_false_r, ?andb_true_r in *.

(** Every step keeps the invariant. *)
Lemma step_invariant d cfg cfg' :
  step cfg cfg' -> invariant d cfg -> invariant d cfg'.
Proof.
  intros Hstep. destruct Hstep as [l1 l2 th th' sh sh' Hth].
  unfold invariant. cbn [fst snd].
  rewrite !count_mid, !Forall_mid.
  intros (Hmu & (Hl1 & Hloc & Hl2) & Hone & Hserved).
  unfold step_thread in Hth.
  destruct th as [dev p]. cbn [at_ deviceID] in *.
  pose proof (count_le (marking d) holds_lock l1 (marking_holds d)) as Hm1.
  pose proof (count_le (marking d) holds_lock l2 (marking_holds d)) as Hm2.
  destruct p as [| |cmd|cmd|r|r].
  - (* mu.Lock() *)
    destruct (mu sh) eqn:Emu; [discriminate|].
    injection Hth as <- <-. flags.
    repeat split; auto; lia.
  - (* the lookup *)
    destruct (latestByDevice (store sh) !! dev) as [cmd|] eqn:El;
      injection Hth as <- <-; flags; repeat split; auto.
  - (* the test of the watermark *)
    destruct (Z.geb_spec (servedAt (store sh) dev) (CreatedAt cmd)) as [G|G];
      injection Hth as <- <-; flags.
    + repeat split; auto.
    + destruct (mu sh); [|lia].
      rewrite eqb_decide in *. destruct (decide (dev = d)) as [->|Hne].
      * assert (Hnone : (count (delivers d) l1 + count (delivers d) l2
                         = O)%nat).
        { destruct (count (delivers d) l1 + count (delivers d) l2)%nat
            as [|k] eqn:Ek; [reflexivity|].
          specialize (Hserved ltac:(lia) _ Hloc). lia. }
        repeat split; auto; lia.
      * repeat split; auto.
  - (* the mark *)
    injection Hth as <- <-. flags.
    destruct Hloc as [Hlatest Hlt].
    destruct (mu sh); [|lia].
    assert (H1 : count holds_lock l1 = O) by lia.
    assert (H2 : count holds_lock l2 = O) by lia.
    rewrite servedAt_mark. rewrite eqb_decide in *.
    split; [assumption|].
    split; [repeat split; auto using outside_ok|].
    destruct (decide (dev = d)) as [->|Hne].
    + split; [lia|]. intros _ c Hc. rewrite Hlatest in Hc.
      injection Hc as <-. lia.
    + split; [lia|]. intros Hd c Hc. apply Hserved; [lia|assumption].
  - (* mu.Unlock() *)
    injection Hth as <- <-. flags.
    destruct (mu sh); [|lia].
    repeat split; auto; lia.
  - discriminate.
Qed.

Lemma start_outside secret r :
  holds_lock (start secret r) = false
  /\ (forall d, delivers d (start secret r) = false)
  /\ (forall d, marking d (start secret r) = false).
Proof.
  unfold start, holds_lock, delivers, marking. cbn [at_ deviceID].
  destruct (negb (String.eqb (Method r) "GET")),
    (String.eqb (index (Query r) "deviceId") ""),
    (String.eqb (index (Query r) "token") ""
     || negb (timingSafeEq (index (Query r) "token") secret));
    repeat split; intros; rewrite ?andb_false_r; reflexivity.
Qed.

Lemma initial_counts secret rs f :
  (forall r, f (start secret r) = false) ->
  count f (List.map (start secret) rs) = O.
Proof.
  intros Hf. induction rs as [|r rs IH]; simpl; [reflexivity|].
  now rewrite Hf, IH.
Qed.

Lemma initial_invariant d secret st rs : invariant d (initial secret st rs).
Proof.
  unfold invariant, initial. cbn [fst snd mu store].
  rewrite !initial_counts by (intros r; apply start_outside).
  repeat split; try lia.
  apply outside_ok. apply initial_counts. intros r. apply start_outside.
Qed.

Lemma reachable_invariant d secret st rs cfg :
  rtc step (initial secret st rs) cfg -> invariant d cfg.
Proof.
  revert cfg. apply rtc_ind_r.
  - apply initial_invariant.
  - intros y z _ Hstep IH. eapply step_invariant; eauto.
Qed.

(** However the steps of the calls interleave, at most one of them gets
    a command for the device. *)
Lemma at_most_one_delivery d secret st rs ths sh :
  rtc step (initial secret st rs) (ths, sh) ->
  (count (delivers d) ths <= 1)%nat.
Proof.
  intros H. apply (reachable_invariant d) in H.
  destruct H as (_ & _ & H & _). cbn [fst] in H. lia.
Qed.

End ThreadFacts.

(** ** The threads and the handlers *)

Module RefineFacts.
Import GoFacts AuthFacts.

Lemma volatile_step_single th th' sh sh' :
  VolatileThreads.step_thread th sh = Some (th', sh') ->
  VolatileThreads.step ([th], sh) ([th'], sh').
Proof. intros H. exact (VolatileThreads.step_at [] [] th th' sh sh' H). Qed.

(** A call of [getLatest] that runs alone, from the lock free to the lock
    free again, does what the function does. *)
Lemma getLatest_as_thread secret st r :
  exists resp st',
    Volatile.getLatest secret st r = (resp, st')
    /\ rtc VolatileThreads.step
         ([VolatileThreads.start secret r],
          {| VolatileThreads.mu := false; VolatileThreads.store := st |})
         ([VolatileThreads.goto (VolatileThreads.start secret r)
             (VolatileThreads.Done resp)],
          {| VolatileThreads.mu := false; VolatileThreads.store := st' |}).
Proof.
  unfold Volatile.getLatest, VolatileThreads.start, VolatileThreads.goto.
  cbn [VolatileThreads.deviceID].
  destruct (negb (String.eqb (Volatile.Method r) "GET"));
    [eexists _, _; split; [reflexivity|apply rtc_refl]|].
  cbv zeta.
  destruct (String.eqb (index (Volatile.Query r) "deviceId") "");
    [eexists _, _; split; [reflexivity|apply rtc_refl]|].
  destruct (String.eqb (index (Volatile.Query r) "token") ""
            || negb (timingSafeEq (index (Volatile.Query r) "token") secret));
    [eexists _, _; split; [reflexivity|apply rtc_refl]|].
  destruct (Volatile.latestByDevice st !! index (Volatile.Query r) "deviceId")
    as [cmd|] eqn:El.
  - destruct (Volatile.servedAt st (index (Volatile.Query r) "deviceId")
              >=? Volatile.CreatedAt cmd) eqn:Eg.
    + eexists _, _. split; [reflexivity|].
      eapply rtc_l; [apply volatile_step_single; reflexivity|].
      eapply rtc_l.
      { apply volatile_step_single. unfold VolatileThreads.step_thread.
        cbn. rewrite El. reflexivity. }
      eapply rtc_l.
      { apply volatile_step_single. unfold VolatileThreads.step_thread.
        cbn. rewrite Eg. reflexivity. }
      eapply rtc_l; [apply volatile_step_single; reflexivity|].
      apply rtc_refl.
    + eexists _, _. split; [reflexivity|].
      eapply rtc_l; [apply volatile_step_single; reflexivity|].
      eapply rtc_l.
      { apply volatile_step_single. unfold VolatileThreads.step_thread.
        cbn. rewrite El. reflexivity. }
      eapply rtc_l.
      { apply volatile_step_single. unfold VolatileThreads.step_thread.
        cbn. rewrite Eg. reflexivity. }
      eapply rtc_l; [apply volatile_step_single; reflexivity|].
      eapply rtc_l; [apply volatile_step_single; reflexivity|].
      apply rtc_refl.
  - eexists _, _. split; [reflexivity|].
    eapply rtc_l; [apply volatile_step_single; reflexivity|].
    eapply rtc_l.
    { apply volatile_step_single. unfold VolatileThreads.step_thread.
      cbn. rewrite El. reflexivity. }
    eapply rtc_l; [apply volatile_step_single; reflexivity|].
    apply rtc_refl.
Qed.

Lemma durable_step_single th th' t t' :
  DurableThreads.step_thread th t = Some (th', t') ->
  DurableThreads.step ([th], t) ([th'], t').
Proof. intros H. exact (DurableThreads.step_at [] [] th th' t t' H). Qed.

(** A call of the poll handler that runs alone, both store calls
    succeeding, does what the function does. *)
Lemma handler_as_thread s now t req :
  exists resp t',
    LaundryLatest.handler s now false false t req = (resp, t')
    /\ rtc DurableThreads.step
         ([DurableThreads.start s now req], t)
         ([DurableThreads.goto (DurableThreads.start s now req)
             (DurableThreads.Done resp)], t').
Proof.
  unfold LaundryLatest.handler, DurableThreads.start, DurableThreads.goto.
  cbn [DurableThreads.deviceID DurableThreads.now].
  set (d := TrimSpace
              (index (LaundryLatest.QueryStringParameters req) "deviceId")).
  destruct (String.eqb d "");
    [eexists _, _; split; [reflexivity|apply rtc_refl]|].
  destruct (String.eqb
              (index (LaundryLatest.QueryStringParameters req) "token") ""
            || String.eqb (sharedSecret s) ""
            || negb (timingSafeEq
                       (index (LaundryLatest.QueryStringParameters req)
                          "token") (sharedSecret s)));
    [eexists _, _; split; [reflexivity|apply rtc_refl]|].
  unfold GetItem.
  destruct (t !! d) as [item|] eqn:Et.
  - destruct (item !! "servedAt") as [v|] eqn:Es.
    + eexists _, _. split; [reflexivity|].
      eapply rtc_l; [|apply rtc_refl].
      apply durable_step_single. unfold DurableThreads.step_thread, GetItem.
      cbn. rewrite Et, Es. reflexivity.
    + eexists _, _. split; [reflexivity|].
      eapply rtc_l.
      { apply durable_step_single.
        unfold DurableThreads.step_thread, GetItem.
        cbn. rewrite Et, Es. reflexivity. }
      eapply rtc_l; [apply durable_step_single; reflexivity|].
      apply rtc_refl.
  - eexists _, _. split; [reflexivity|].
    eapply rtc_l; [|apply rtc_refl].
    apply durable_step_single. unfold DurableThreads.step_thread, GetItem.
    cbn. rewrite Et. reflexivity.
Qed.

(** Two accepted polls of a device whose item has no [servedAt]: when both
    read before either writes, both get the command. *)
Lemma both_polls_deliver s t (item : Item) now1 now2 req1 req2 :
  let d :=
    TrimSpace (index (LaundryLatest.QueryStringParameters req1) "deviceId")
  in
  d <> "" ->
  TrimSpace (index (LaundryLatest.QueryStringParameters req2) "deviceId")
  = d ->
  authorized (index (LaundryLatest.QueryStringParameters req1) "token")
    (sharedSecret s) ->
  authorized (index (LaundryLatest.QueryStringParameters req2) "token")
    (sharedSecret s) ->
  t !! d = Some item ->
  item !! "servedAt" = None ->
  exists th1 th2 t',
    rtc DurableThreads.step
      ([DurableThreads.start s now1 req1; DurableThreads.start s now2 req2],
       t)
      ([th1; th2], t')
    /\ DurableThreads.answered (DurableThreads.command_of d item) th1
    /\ DurableThreads.answered (DurableThreads.command_of d item) th2.
Proof.
  intros d Hd Hd2 Ha1 Ha2 Ht Hs.
  unfold DurableThreads.start. fold d. rewrite Hd2.
  rewrite (eqb_empty_false _ Hd).
  rewrite !guard_accepts by assumption.
  do 3 eexists. split.
  - (* read, read, write, write *)
    eapply rtc_l.
    { apply (DurableThreads.step_at [] [_]).
      unfold DurableThreads.step_thread, GetItem. cbn.
      rewrite Ht, Hs. reflexivity. }
    eapply rtc_l.
    { apply (DurableThreads.step_at [_] []).
      unfold DurableThreads.step_thread, GetItem. cbn.
      rewrite Ht, Hs. reflexivity. }
    eapply rtc_l.
    { apply (DurableThreads.step_at [] [_]). reflexivity. }
    eapply rtc_l.
    { apply (DurableThreads.step_at [_] []). reflexivity. }
    apply rtc_refl.
  - split; reflexivity.
Qed.

End RefineFacts.

(** C2: concurrent polls of one device.  In the in-process server, where
    every statement of [getLatest] after [mu.Lock()] is a step and the steps
    of the calls interleave in any order, at most one call ever gets a
    command for the device.  In the Lambda handler, whose read and
    unconditional mark-served write are two steps, two polls of a device
    with a pending command can both get it: both read before either
    writes. *)
Theorem concurrent_polls
    (d secret : string) (st : Volatile.State) (rs : list Volatile.Request)
    (ths : list VolatileThreads.thread) (sh : VolatileThreads.Shared)
    (s : Server) (t : Table) (item : Item) (now1 now2 : Z)
    (req1 req2 : LaundryLatest.Request) :
  let d' :=
    TrimSpace (index (LaundryLatest.QueryStringParameters req1) "deviceId")
  in
  rtc VolatileThreads.step (VolatileThreads.initial secret st rs) (ths, sh) ->
  d' <> "" ->
  TrimSpace (index (LaundryLatest.QueryStringParameters req2) "deviceId")
  = d' ->
  authorized (index (LaundryLatest.QueryStringParameters req1) "token")
    (sharedSecret s) ->
  authorized (index (LaundryLatest.QueryStringParameters req2) "token")
    (sharedSecret s) ->
  t !! d' = Some item ->
  item !! "servedAt" = None ->
  (VolatileThreads.count (VolatileThreads.delivers d) ths <= 1)%nat
  /\ exists th1 th2 t',
      rtc DurableThreads.step
        ([DurableThreads.start s now1 req1; DurableThreads.start s now2 req2],
         t)
        ([th1; th2], t')
      /\ DurableThreads.answered (DurableThreads.command_of d' item) th1
      /\ DurableThreads.answered (DurableThreads.command_of d' item) th2.
Proof.
  intros d' Hreach Hd Hd2 Ha1 Ha2 Ht Hs. split.
  - eapply ThreadFacts.at_most_one_delivery; eauto.
  - now apply RefineFacts.both_polls_deliver.
Qed.

(** Two polls of D1 while a wash command is pending.  In the in-process
    server the second call takes the lock first and gets the command, the
    first call gets none.  On the table both calls can get it. *)
Lemma concurrent_polls_witness :
  let cmd := {| Volatile.DeviceID := "D1"; Volatile.Type_ := "wash";
                Volatile.DurationMinutes := 30;
                Volatile.CreatedAt := 1700000000000; Volatile.Token := "" |}
  in
  let th1 := {| VolatileThreads.deviceID := "D1";
                VolatileThreads.at_ :=
                  VolatileThreads.Done
                    (Volatile.writeJSON 200
                       (Struct {| Volatile.Command_ := None |})) |} in
  let th2 := {| VolatileThreads.deviceID := "D1";
                VolatileThreads.at_ :=
                  VolatileThreads.Done
                    (Volatile.writeJSON 200
                       (Struct {| Volatile.Command_ := Some cmd |})) |} in
  let item : Item :=
    LaundryStart.item_of "D1"
      {| LaundryStart.DeviceID := "D1"; LaundryStart.Type_ := "wash";
         LaundryStart.DurationMinutes := 30;
         LaundryStart.Token := "s3cret" |} 1700000000000 in
  let s := {| table := "commands"; sharedSecret := "s3cret" |} in
  let poll := DurableTrace.poll_request "D1" "s3cret" in
  (VolatileThreads.count (VolatileThreads.delivers "D1") [th1; th2] <= 1)%nat
  /\ exists u1 u2 t',
      rtc DurableThreads.step
        ([DurableThreads.start s 1700000001000 poll;
          DurableThreads.start s 1700000001001 poll],
         <["D1" := item]> ∅)
        ([u1; u2], t')
      /\ DurableThreads.answered (DurableThreads.command_of "D1" item) u1
      /\ DurableThreads.answered (DurableThreads.command_of "D1" item) u2.
Proof.
  intros cmd th1 th2 item s poll.
  pose (st := {| Volatile.latestByDevice := <["D1" := cmd]> ∅;
                 Volatile.lastServedAt := ∅ |}).
  pose (st' := {| Volatile.latestByDevice := <["D1" := cmd]> ∅;
                  Volatile.lastServedAt := <["D1" := 1700000000000]> ∅ |}).
  pose (vpoll := VolatileTrace.poll_request "D1" "s3cret").
  assert (Hreach :
            rtc VolatileThreads.step
              (VolatileThreads.initial "s3cret" st [vpoll; vpoll])
              ([th1; th2],
               {| VolatileThreads.mu := false;
                  VolatileThreads.store := st' |})).
  { unfold VolatileThreads.initial. cbn [List.map].
    eapply rtc_l.
    { apply (VolatileThreads.step_at [_] []). vm_compute. reflexivity. }
    eapply rtc_l.
    { apply (VolatileThreads.step_at [_] []). vm_compute. reflexivity. }
    eapply rtc_l.
    { apply (VolatileThreads.step_at [_] []). vm_compute. reflexivity. }
    eapply rtc_l.
    { apply (VolatileThreads.step_at [_] []). vm_compute. reflexivity. }
    eapply rtc_l.
    { apply (VolatileThreads.step_at [_] []). vm_compute. reflexivity. }
    eapply rtc_l.
    { apply (VolatileThreads.step_at [] [_]). vm_compute. reflexivity. }
    eapply rtc_l.
    { apply (VolatileThreads.step_at [] [_]). vm_compute. reflexivity. }
    eapply rtc_l.
    { apply (VolatileThreads.step_at [] [_]). vm_compute. reflexivity. }
    eapply rtc_l.
    { apply (VolatileThreads.step_at [] [_]). vm_compute. reflexivity. }
    vm_compute. apply rtc_refl. }
  assert (Ha : authorized "s3cret" "s3cret")
    by (repeat split; discriminate).
  assert (Hne : TrimSpace "D1" <> "") by (vm_compute; discriminate).
  assert (Ht : (<["D1" := item]> ∅ : Table) !! TrimSpace "D1" = Some item)
    by (vm_compute; reflexivity).
  assert (Hs : item !! "servedAt" = None) by (vm_compute; reflexivity).
  exact (concurrent_polls "D1" "s3cret" st [vpoll; vpoll] [th1; th2]
           {| VolatileThreads.mu := false; VolatileThreads.store := st' |}
           s (<["D1" := item]> ∅) item 1700000001000 1700000001001
           poll poll Hreach Hne eq_refl Ha Ha Ht Hs).
Defined.

(** ** Worked examples *)

Example TrimSpace_blanks_and_tab : TrimSpace (bytes [32; 68; 49; 9; 10]%nat) = "D1".
Proof. vm_compute. reflexivity. Qed.

Example TrimSpace_keeps_inner_blank : TrimSpace " D 1 " = "D 1".
Proof. vm_compute. reflexivity. Qed.

(** A no-break space (U+00A0) in front and an ideographic space (U+3000)
    behind are white space; a lone byte 0xA0 is not. *)
Example TrimSpace_unicode :
  TrimSpace (bytes [194; 160; 68; 49; 227; 128; 128]%nat) = "D1"
  /\ TrimSpace (bytes [68; 49; 160]%nat) = bytes [68; 49; 160]%nat.
Proof. split; vm_compute; reflexivity. Qed.

Example FormatInt_negative : FormatInt (-1203) = "-1203".
Proof. vm_compute. reflexivity. Qed.

Example FormatInt_min : FormatInt (- 2 ^ 63) = "-9223372036854775808".
Proof. vm_compute. reflexivity. Qed.

Example ParseInt_rejects :
  ParseInt "" = None /\ ParseInt "-" = None /\ ParseInt "12a" = None
  /\ ParseInt "9223372036854775808" = None
  /\ ParseInt "-9223372036854775808" = Some (- 2 ^ 63)
  /\ ParseInt "+7" = Some 7.
Proof. repeat split; vm_compute; reflexivity. Qed.

Example mustInt64_stops_at_the_first_other_character :
  LaundryLatest.mustInt64 "30" = 30
  /\ LaundryLatest.mustInt64 "12.5" = 12
  /\ LaundryLatest.mustInt64 "-5" = 0
  /\ LaundryLatest.mustInt64 "" = 0.
Proof. repeat split; vm_compute; reflexivity. Qed.

Example timingSafeEq_examples :
  timingSafeEq "s3cret" "s3cret" = true
  /\ timingSafeEq "s3cret" "s3creT" = false
  /\ timingSafeEq "s3cret" "s3cret " = false
  /\ timingSafeEq "" "" = true.
Proof. repeat split; vm_compute; reflexivity. Qed.

(** The in-process server does not trim the device identifier: a submit for
    the device " " (one blank) with a valid token is accepted and stored
    under that key, where the Lambda handler answers 400. *)
Example startMachine_stores_a_blank_device :
  let cmd := {| Volatile.DeviceID := " "; Volatile.Type_ := "wash";
                Volatile.DurationMinutes := 30; Volatile.CreatedAt := 0;
                Volatile.Token := "s3cret" |} in
  let out :=
    Volatile.startMachine "s3cret" 1700000000000
      {| Volatile.latestByDevice := ∅; Volatile.lastServedAt := ∅ |}
      (VolatileTrace.submit_request cmd) in
  StatusCode (fst out) = 200
  /\ Volatile.latestByDevice (snd out) !! " "
     = Some (VolatileTrace.stored cmd 1700000000000).
Proof. split; vm_compute; reflexivity. Qed.

(** The scenario of the specification on the table: submit for D1, poll,
    poll again. *)
Example submit_poll_poll_on_the_table :
  let s := {| table := "commands"; sharedSecret := "s3cret" |} in
  fst (DurableTrace.run s ∅
         [DurableTrace.Submit 1700000000000 None
            {| LaundryStart.Decoded :=
                 Some {| LaundryStart.DeviceID := "D1";
                         LaundryStart.Type_ := "wash";
                         LaundryStart.DurationMinutes := 30;
                         LaundryStart.Token := "s3cret" |} |};
          DurableTrace.TakeNext 1700000001000 false false
            (DurableTrace.poll_request "D1" "s3cret");
          DurableTrace.TakeNext 1700000002000 false false
            (DurableTrace.poll_request "D1" "s3cret")])
  = [DurableTrace.Started
       (LaundryStart.resp 200
          (MapStringAny [("ok", VBool true);
                         ("createdAt", VInt64 1700000000000)]));
     DurableTrace.Polled
       (LaundryLatest.resp 200
          (Struct {| LaundryLatest.Command_ :=
                       Some {| LaundryLatest.DeviceID := "D1";
                               LaundryLatest.Type_ := "wash";
                               LaundryLatest.DurationMinutes := 30;
                               LaundryLatest.CreatedAt := 1700000000000 |}
                  |}));
     DurableTrace.Polled
       (LaundryLatest.resp 200 (Struct {| LaundryLatest.Command_ := None |}))].
Proof. vm_compute. reflexivity. Qed.

(** A failed mark-served write: the next poll carries the command again. *)
Example failed_mark_delivers_twice :
  let s := {| table := "commands"; sharedSecret := "s3cret" |} in
  let item :=
    LaundryStart.item_of "D1"
      {| LaundryStart.DeviceID := "D1"; LaundryStart.Type_ := "wash";
         LaundryStart.DurationMinutes := 30;
         LaundryStart.Token := "s3cret" |} 1700000000000 in
  let seg :=
    [DurableTrace.TakeNext 1700000001000 false true
       (DurableTrace.poll_request "D1" "s3cret");
     DurableTrace.TakeNext 1700000002000 false false
       (DurableTrace.poll_request "D1" "s3cret")] in
  List.length
    (DurableTrace.deliveries "D1" seg
       (fst (DurableTrace.run s (<["D1" := item]> ∅) seg))) = 2%nat.
Proof. vm_compute. reflexivity. Qed.

(** The float codec instance on a few amounts: 12.345 and 2.675 are the
    doubles nearest to them (the first just above, the second just below
    the decimal), 0.125 is exact and rounds half-to-even. *)
Example FormatFloat_two_decimals :
  option_map (fun x => Float64.FormatFloat x "f" 2 64)
    (Float64.ParseFloat "12.345" 64) = Some "12.35"
  /\ option_map (fun x => Float64.FormatFloat x "f" 2 64)
       (Float64.ParseFloat "2.675" 64) = Some "2.67"
  /\ option_map (fun x => Float64.FormatFloat x "f" 2 64)
       (Float64.ParseFloat "0.125" 64) = Some "0.12"
  /\ option_map (fun x => Float64.FormatFloat x "f" 2 64)
       (Float64.ParseFloat "-0.001" 64) = Some "-0.00"
  /\ Float64.ParseFloat "0.1" 64
     = Some (S754_finite false 7205759403792794 (-56))
  /\ Float64.ParseFloat "12,5" 64 = None.
Proof. repeat split; vm_compute; reflexivity. Qed.

(** * Further properties of the handlers *)

Module GuardFacts.
Import GoFacts AuthFacts Mailbox.

Lemma guard_volatile_false_iff token secret :
  String.eqb token "" || negb (timingSafeEq token secret) = false
  <-> authorized token secret.
Proof.
  split.
  - intros H. destruct (unauthorized_or_authorized token secret) as [U|A];
      [|assumption].
    rewrite guard_volatile_rejects in H by assumption. discriminate.
  - apply guard_volatile_accepts.
Qed.

Lemma guard_false_iff token secret :
  String.eqb token "" || String.eqb secret ""
  || negb (timingSafeEq token secret) = false
  <-> authorized token secret.
Proof.
  split.
  - intros H. destruct (unauthorized_or_authorized token secret) as [U|A];
      [|assumption].
    rewrite guard_rejects in H by assumption. discriminate.
  - apply guard_accepts.
Qed.

Lemma type_guard_false_iff ty :
  negb (String.eqb ty "wash") && negb (String.eqb ty "dry") = false
  <-> valid_type ty.
Proof.
  unfold valid_type.
  destruct (String.eqb_spec ty "wash"), (String.eqb_spec ty "dry"); simpl;
    (split; [intros H; try discriminate H; auto
            |intros [?|?]; congruence]).
Qed.

(** [startMachine], case by case. *)
Lemma startMachine_full secret now st r :
  (StatusCode (fst (Volatile.startMachine secret now st r)) <> 200
   /\ snd (Volatile.startMachine secret now st r) = st
   /\ ~ (Volatile.Method r = "POST"
         /\ exists cmd, Volatile.Decoded r = Some cmd
                        /\ accepted_body secret cmd))
  \/ (exists cmd,
         Volatile.Method r = "POST" /\ Volatile.Decoded r = Some cmd
         /\ accepted_body secret cmd
         /\ Volatile.startMachine secret now st r
            = (Volatile.writeJSON 200
                 (MapStringAny [("ok", VBool true);
                                ("createdAt", VInt64 now)]),
               {| Volatile.latestByDevice :=
                    <[Volatile.DeviceID cmd := VolatileTrace.stored cmd now]>
                      (Volatile.latestByDevice st);
                  Volatile.lastServedAt := Volatile.lastServedAt st |})).
Proof.
  unfold Volatile.startMachine, accepted_body.
  destruct (String.eqb_spec (Volatile.Method r) "POST") as [Hm|Hm]; simpl;
    [|left; repeat split; try discriminate; tauto].
  destruct (Volatile.Decoded r) as [cmd|];
    [|left; repeat split; try discriminate;
      intros (_ & c & Hc & _); discriminate].
  destruct (String.eqb (Volatile.Token cmd) ""
            || negb (timingSafeEq (Volatile.Token cmd) secret)) eqn:Eg.
  { left. repeat split; try discriminate.
    intros (_ & c & Hc & Ha & _). injection Hc as <-.
    apply guard_volatile_false_iff in Ha. congruence. }
  apply guard_volatile_false_iff in Eg.
  destruct (String.eqb_spec (Volatile.DeviceID cmd) "") as [E|E].
  { left. repeat split; try discriminate.
    intros (_ & c & Hc & _ & Hd & _). injection Hc as <-. contradiction. }
  destruct (negb (String.eqb (Volatile.Type_ cmd) "wash")
            && negb (String.eqb (Volatile.Type_ cmd) "dry")) eqn:Et.
  { left. repeat split; try discriminate.
    intros (_ & c & Hc & _ & _ & Hty & _). injection Hc as <-.
    apply type_guard_false_iff in Hty. congruence. }
  apply type_guard_false_iff in Et.
  destruct (Z.leb_spec (Volatile.DurationMinutes cmd) 0) as [L|L].
  { left. repeat split; try discriminate.
    intros (_ & c & Hc & _ & _ & _ & Hdur). injection Hc as <-. lia. }
  pose proof Eg as (? & ? & ?).
  right. exists cmd. repeat split; auto.
Qed.

(** The submit handler of the Lambda deployment, case by case. *)
Lemma start_full s now putErr t req :
  (StatusCode (fst (LaundryStart.handler s now putErr t req)) <> 200
   /\ StatusCode (fst (LaundryStart.handler s now putErr t req)) <> 500
   /\ snd (LaundryStart.handler s now putErr t req) = t
   /\ ~ (exists cmd, LaundryStart.Decoded req = Some cmd
                     /\ accepted_start s cmd))
  \/ (exists cmd,
         LaundryStart.Decoded req = Some cmd /\ accepted_start s cmd
         /\ LaundryStart.handler s now putErr t req
            = match putErr with
              | Some err =>
                  (LaundryStart.resp 500
                     (MapStringString [("error", err); ("table", table s)]),
                   t)
              | None =>
                  (LaundryStart.resp 200
                     (MapStringAny [("ok", VBool true);
                                    ("createdAt", VInt64 now)]),
                   <[TrimSpace (LaundryStart.DeviceID cmd) :=
                       LaundryStart.item_of
                         (TrimSpace (LaundryStart.DeviceID cmd)) cmd now]> t)
              end).
Proof.
  unfold LaundryStart.handler, accepted_start.
  destruct (LaundryStart.Decoded req) as [cmd|];
    [|left; repeat split; try discriminate;
      intros (c & Hc & _); discriminate].
  cbv zeta.
  destruct (String.eqb (LaundryStart.Token cmd) ""
            || String.eqb (sharedSecret s) ""
            || negb (timingSafeEq (LaundryStart.Token cmd) (sharedSecret s)))
    eqn:Eg.
  { left. repeat split; try discriminate.
    intros (c & Hc & Ha & _). injection Hc as <-.
    apply guard_false_iff in Ha. congruence. }
  apply guard_false_iff in Eg.
  destruct (String.eqb_spec (TrimSpace (LaundryStart.DeviceID cmd)) "")
    as [E|E].
  { left. repeat split; try discriminate.
    intros (c & Hc & _ & Hd & _). injection Hc as <-. contradiction. }
  destruct (negb (String.eqb (LaundryStart.Type_ cmd) "wash")
            && negb (String.eqb (LaundryStart.Type_ cmd) "dry")) eqn:Et.
  { left. repeat split; try discriminate.
    intros (c & Hc & _ & _ & Hty & _). injection Hc as <-.
    apply type_guard_false_iff in Hty. congruence. }
  apply type_guard_false_iff in Et.
  destruct (Z.leb_spec (LaundryStart.DurationMinutes cmd) 0) as [L|L].
  { left. repeat split; try discriminate.
    intros (c & Hc & _ & _ & _ & Hdur). injection Hc as <-. lia. }
  pose proof Eg as (? & ? & ?).
  right. exists cmd. repeat split; auto.
  unfold PutItem, key_of. destruct putErr; [reflexivity|].
  now rewrite lookup_insert_eq.
Qed.

End GuardFacts.

Import Mailbox.

(** X1: [timingSafeEq] holds exactly of equal byte strings: equal length
    and no differing byte. *)
Theorem timingSafeEq_decides_equality (a b : string) :
  timingSafeEq a b = true <-> a = b.
Proof. apply GoFacts.timingSafeEq_spec. Qed.

(** X2: [startMachine] answers 200 exactly to a POST whose body decodes,
    carries the secret, names a device, has type wash or dry and a positive
    duration.  It then stores the command under the device with the clock
    reading as [createdAt] and without the token, and leaves the watermarks
    alone; every other request leaves the state as it was. *)
Theorem startMachine_accepts_iff
    (secret : string) (now : Z) (st : Volatile.State) (r : Volatile.Request) :
  let out := Volatile.startMachine secret now st r in
  (StatusCode (fst out) = 200
   <-> Volatile.Method r = "POST"
       /\ exists cmd, Volatile.Decoded r = Some cmd
                      /\ accepted_body secret cmd)
  /\ (forall cmd,
         StatusCode (fst out) = 200 -> Volatile.Decoded r = Some cmd ->
         out
         = (Volatile.writeJSON 200
              (MapStringAny [("ok", VBool true); ("createdAt", VInt64 now)]),
            {| Volatile.latestByDevice :=
                 <[Volatile.DeviceID cmd := VolatileTrace.stored cmd now]>
                   (Volatile.latestByDevice st);
               Volatile.lastServedAt := Volatile.lastServedAt st |}))
  /\ (StatusCode (fst out) <> 200 -> snd out = st).
Proof.
  intros out. subst out.
  destruct (GuardFacts.startMachine_full secret now st r)
    as [(Hne & Hst & Hno) | (cmd & Hm & Hd & Ha & E)].
  - split; [|split].
    + split; [intros H; contradiction|intros H; exfalso; auto].
    + intros cmd H. contradiction.
    + intros _. exact Hst.
  - rewrite E. cbn [fst snd StatusCode Volatile.writeJSON].
    split; [|split].
    + split; [intros _; eauto|reflexivity].
    + intros cmd' _ Hd'. rewrite Hd in Hd'. now injection Hd' as <-.
    + intros H. now contradiction H.
Qed.

(** X3: the Lambda submit handler answers 200 exactly when the body
    decodes, carries the configured secret, names a device (after trimming),
    has type wash or dry and a positive duration, and [PutItem] succeeds; it
    then holds the item under the trimmed identifier.  It answers 500
    exactly when all of that holds but [PutItem] fails, and the body of the
    500 then carries the error text and the table name.  Any answer but 200
    leaves the table as it was. *)
Theorem start_handler_accepts_iff
    (s : Server) (now : Z) (putErr : option string) (t : Table)
    (req : LaundryStart.Request) :
  let out := LaundryStart.handler s now putErr t req in
  (StatusCode (fst out) = 200
   <-> putErr = None
       /\ exists cmd, LaundryStart.Decoded req = Some cmd
                      /\ accepted_start s cmd)
  /\ (StatusCode (fst out) = 500
      <-> putErr <> None
          /\ exists cmd, LaundryStart.Decoded req = Some cmd
                         /\ accepted_start s cmd)
  /\ (forall err,
         StatusCode (fst out) = 500 -> putErr = Some err ->
         fst out
         = LaundryStart.resp 500
             (MapStringString [("error", err); ("table", table s)]))
  /\ (forall cmd,
         StatusCode (fst out) = 200 -> LaundryStart.Decoded req = Some cmd ->
         snd out
         = <[TrimSpace (LaundryStart.DeviceID cmd) :=
               LaundryStart.item_of (TrimSpace (LaundryStart.DeviceID cmd))
                 cmd now]> t)
  /\ (StatusCode (fst out) <> 200 -> snd out = t).
Proof.
  intros out. subst out.
  destruct (GuardFacts.start_full s now putErr t req)
    as [(Hne & Hne' & Ht & Hno) | (cmd & Hd & Ha & E)].
  - split; [|split; [|split; [|split]]].
    + split; [intros H; contradiction|].
      intros (_ & cmd & H). exfalso. eauto.
    + split; [intros H; contradiction|].
      intros (_ & cmd & H). exfalso. eauto.
    + intros err H. contradiction.
    + intros cmd H. contradiction.
    + intros _. exact Ht.
  - rewrite E. destruct putErr as [err|];
      cbn [fst snd StatusCode LaundryStart.resp].
    + split; [|split; [|split; [|split]]].
      * split; [discriminate|]. intros (H & _). discriminate.
      * split; [|reflexivity]. intros _. split; [discriminate|eauto].
      * intros err' _ H. now injection H as <-.
      * intros cmd' H. discriminate.
      * reflexivity.
    + split; [|split; [|split; [|split]]].
      * split; [eauto|reflexivity].
      * split; [discriminate|]. intros (H & _). now contradiction H.
      * intros err _ H. discriminate.
      * intros cmd' _ Hd'. rewrite Hd in Hd'. now injection Hd' as <-.
      * intros H. now contradiction H.
Qed.

Module PollFacts.
Import GoFacts AuthFacts GuardFacts.

(** [getLatest], case by case. *)
Lemma getLatest_full secret st r :
  let d := index (Volatile.Query r) "deviceId" in
  (VolatileTrace.delivered (fst (Volatile.getLatest secret st r)) = None
   /\ snd (Volatile.getLatest secret st r) = st
   /\ ~ (Volatile.Method r = "GET" /\ d <> ""
         /\ authorized (index (Volatile.Query r) "token") secret
         /\ exists cmd, VolatileTrace.Pending st d cmd))
  \/ (exists cmd,
         Volatile.Method r = "GET" /\ d <> ""
         /\ authorized (index (Volatile.Query r) "token") secret
         /\ VolatileTrace.Pending st d cmd
         /\ Volatile.getLatest secret st r
            = (Volatile.writeJSON 200
                 (Struct {| Volatile.Command_ := Some cmd |}),
               {| Volatile.latestByDevice := Volatile.latestByDevice st;
                  Volatile.lastServedAt :=
                    <[d := Volatile.CreatedAt cmd]>
                      (Volatile.lastServedAt st) |})).
Proof.
  intros d. unfold Volatile.getLatest, VolatileTrace.Pending. fold d.
  destruct (String.eqb_spec (Volatile.Method r) "GET") as [Hm|Hm]; simpl;
    [|left; repeat split; tauto].
  destruct (String.eqb_spec d "") as [Hd|Hd];
    [left; repeat split; tauto|].
  destruct (String.eqb (index (Volatile.Query r) "token") ""
            || negb (timingSafeEq (index (Volatile.Query r) "token") secret))
    eqn:Eg.
  { left. repeat split. intros (_ & _ & Ha & _).
    apply guard_volatile_false_iff in Ha. congruence. }
  apply guard_volatile_false_iff in Eg.
  destruct (Volatile.latestByDevice st !! d) as [cmd|] eqn:El.
  - destruct (Z.geb_spec (Volatile.servedAt st d) (Volatile.CreatedAt cmd))
      as [G|G].
    + left. repeat split. intros (_ & _ & _ & c & Hc & Hlt).
      injection Hc as <-. lia.
    + right. exists cmd. split; [assumption|]. split; [assumption|].
      split; [assumption|]. split; [split; [reflexivity|assumption]|].
      reflexivity.
  - left. repeat split. intros (_ & _ & _ & c & Hc & _). discriminate.
Qed.

(** The poll handler of the Lambda deployment, case by case. *)
Lemma latest_full s now getFail updFail t req :
  let d :=
    TrimSpace (index (LaundryLatest.QueryStringParameters req) "deviceId") in
  (DurableTrace.delivered
     (DurableTrace.Polled
        (fst (LaundryLatest.handler s now getFail updFail t req))) = None
   /\ snd (LaundryLatest.handler s now getFail updFail t req) = t
   /\ ~ (d <> ""
         /\ authorized
              (index (LaundryLatest.QueryStringParameters req) "token")
              (sharedSecret s)
         /\ getFail = false /\ DurableTrace.Pending t d))
  \/ (exists item : Item,
         d <> ""
         /\ authorized
              (index (LaundryLatest.QueryStringParameters req) "token")
              (sharedSecret s)
         /\ getFail = false
         /\ t !! d = Some item /\ item !! "servedAt" = None
         /\ LaundryLatest.handler s now getFail updFail t req
            = (LaundryLatest.resp 200
                 (Struct {| LaundryLatest.Command_ :=
                              Some (DurableThreads.command_of d item) |}),
               UpdateItem_SET updFail t d "servedAt"
                 (AttributeValueMemberN (FormatInt now)))).
Proof.
  intros d. unfold LaundryLatest.handler, DurableTrace.Pending. fold d.
  destruct (String.eqb_spec d "") as [Hd|Hd];
    [left; repeat split; tauto|].
  destruct (String.eqb
              (index (LaundryLatest.QueryStringParameters req) "token") ""
            || String.eqb (sharedSecret s) ""
            || negb (timingSafeEq
                       (index (LaundryLatest.QueryStringParameters req)
                          "token") (sharedSecret s))) eqn:Eg.
  { left. repeat split. intros (_ & Ha & _).
    apply guard_false_iff in Ha. congruence. }
  apply guard_false_iff in Eg.
  unfold GetItem. destruct getFail.
  { left. repeat split. intros (_ & _ & H & _). discriminate. }
  destruct (t !! d) as [item|] eqn:Et.
  - destruct (item !! "servedAt") as [v|] eqn:Es.
    + left. repeat split. intros (_ & _ & _ & i & Hi & Hs).
      injection Hi as <-. congruence.
    + right. exists item. repeat split; auto; apply Eg.
  - left. repeat split. intros (_ & _ & _ & i & Hi & _). discriminate.
Qed.

End PollFacts.

(** X4: [getLatest] returns a command exactly to a GET that names a device,
    carries the secret, and finds the device's stored command above its
    watermark; it then raises the watermark to that command's [createdAt].
    It never changes the stored commands, and an answer without a command
    changes nothing at all. *)
Theorem getLatest_delivers_iff
    (secret : string) (st : Volatile.State) (r : Volatile.Request)
    (cmd : Volatile.Command) :
  let d := index (Volatile.Query r) "deviceId" in
  let out := Volatile.getLatest secret st r in
  (VolatileTrace.delivered (fst out) = Some cmd
   <-> Volatile.Method r = "GET" /\ d <> ""
       /\ authorized (index (Volatile.Query r) "token") secret
       /\ VolatileTrace.Pending st d cmd)
  /\ Volatile.latestByDevice (snd out) = Volatile.latestByDevice st
  /\ (VolatileTrace.delivered (fst out) = Some cmd ->
      Volatile.lastServedAt (snd out)
      = <[d := Volatile.CreatedAt cmd]> (Volatile.lastServedAt st))
  /\ (VolatileTrace.delivered (fst out) = None -> snd out = st).
Proof.
  intros d out. subst out d.
  destruct (PollFacts.getLatest_full secret st r)
    as [(Hn & Hst & Hno) | (c & Hm & Hd & Ha & Hp & E)].
  - rewrite Hn, Hst. split; [|split; [|split]]; auto; try discriminate.
    split; [discriminate|]. intros (H1 & H2 & H3 & H4). exfalso. eauto 6.
  - rewrite E.
    cbn [fst snd VolatileTrace.delivered Body Volatile.writeJSON
           Volatile.Command_ Volatile.latestByDevice Volatile.lastServedAt].
    split; [|split; [|split]]; auto; try discriminate.
    + split.
      * intros H. injection H as <-. auto.
      * intros (_ & _ & _ & Hl & _). destruct Hp as [Hl' _].
        rewrite Hl in Hl'. now injection Hl' as <-.
    + intros H. now injection H as <-.
Qed.

(** X5: the Lambda poll handler returns a command exactly when the request
    names a device (after trimming) and carries the configured secret, the
    read succeeds, and the item of the device has no [servedAt]; the command
    is the one decoded from that item.  The handler changes the table at most
    by setting [servedAt] on that item: it creates and deletes no item and
    leaves the items of other devices alone. *)
Theorem latest_handler_delivers_iff
    (s : Server) (now : Z) (getFail updFail : bool) (t : Table)
    (req : LaundryLatest.Request) (cmd : LaundryLatest.Command) :
  let d :=
    TrimSpace (index (LaundryLatest.QueryStringParameters req) "deviceId") in
  let out := LaundryLatest.handler s now getFail updFail t req in
  (DurableTrace.delivered (DurableTrace.Polled (fst out)) = Some cmd
   <-> d <> ""
       /\ authorized
            (index (LaundryLatest.QueryStringParameters req) "token")
            (sharedSecret s)
       /\ getFail = false
       /\ exists item : Item,
           t !! d = Some item /\ item !! "servedAt" = None
           /\ cmd = DurableThreads.command_of d item)
  /\ (snd out = t
      \/ exists item : Item,
          t !! d = Some item
          /\ snd out
             = <[d := <["servedAt" := AttributeValueMemberN (FormatInt now)]>
                        item]> t)
  /\ dom (snd out) = dom t
  /\ (forall d', d' <> d -> snd out !! d' = t !! d').
Proof.
  intros d out. subst out d.
  destruct (PollFacts.latest_full s now getFail updFail t req)
    as [(Hn & Ht & Hno) | (item & Hd & Ha & Hg & Hi & Hs & E)].
  - rewrite Hn, Ht. split; [|split; [|split]]; auto.
    split; [discriminate|].
    intros (H1 & H2 & H3 & item & H4 & H5 & _). exfalso. apply Hno.
    split; [assumption|]. split; [assumption|]. split; [assumption|].
    exists item. auto.
  - rewrite E.
    cbn [fst snd DurableTrace.delivered Body LaundryLatest.resp
           LaundryLatest.Command_].
    split; [|split; [|split]].
    + split.
      * intros H. injection H as <-.
        split; [assumption|]. split; [assumption|]. split; [assumption|].
        eauto.
      * intros (_ & _ & _ & item' & Hi' & _ & ->).
        rewrite Hi in Hi'. now injection Hi' as <-.
    + unfold UpdateItem_SET. destruct updFail; [left; reflexivity|].
      right. exists item. rewrite Hi. auto.
    + unfold UpdateItem_SET. destruct updFail; [reflexivity|].
      apply dom_insert_lookup_L. eauto.
    + intros d' Hne. apply DurableFacts.lookup_update_other. auto.
Qed.

Module InvariantFacts.
Import Volatile VolatileTrace.

Lemma run_snd_cons secret st c cs :
  snd (run secret st (c :: cs)) = snd (run secret (snd (exec secret st c)) cs).
Proof.
  cbn [run]. destruct (exec secret st c) as [r st']. cbn [snd].
  now destruct (run secret st' cs).
Qed.

Lemma exec_well_formed secret st c :
  well_formed st -> well_formed (snd (exec secret st c)).
Proof.
  intros Hwf. destruct c as [now r|r]; simpl.
  - destruct (GuardFacts.startMachine_full secret now st r)
      as [(_ & -> & _) | (cmd & _ & _ & Ha & ->)]; [assumption|].
    intros d c Hc. simpl in Hc. rewrite lookup_insert in Hc.
    destruct (decide (DeviceID cmd = d)) as [<-|Hne]; [|now apply Hwf].
    injection Hc as <-. destruct Ha as (_ & Hd & Hty & Hdur).
    repeat split; auto.
  - destruct (PollFacts.getLatest_full secret st r)
      as [(_ & -> & _) | (cmd & _ & _ & _ & _ & ->)]; [assumption|].
    exact Hwf.
Qed.

Lemma exec_delivered_is_stored secret d st c cmd :
  polls d c = true ->
  delivered (fst (exec secret st c)) = Some cmd ->
  latestByDevice st !! d = Some cmd
  /\ servedAt st d < CreatedAt cmd
  /\ servedAt (snd (exec secret st c)) d = CreatedAt cmd.
Proof.
  destruct c as [now r|r]; [discriminate|]. simpl. intros Hp Hd.
  apply String.eqb_eq in Hp.
  destruct (PollFacts.getLatest_full secret st r)
    as [(Hn & _) | (c & _ & _ & _ & [Hl Hlt] & E)]; [congruence|].
  rewrite E in *. simpl in Hd. injection Hd as <-.
  rewrite Hp in *. repeat split; auto.
  cbn [snd]. rewrite VolatileFacts.servedAt_insert.
  destruct (decide (d = d)); [reflexivity|contradiction].
Qed.

(** No call lowers a watermark. *)
Lemma exec_servedAt_le secret d st c :
  servedAt st d <= servedAt (snd (exec secret st c)) d.
Proof.
  destruct c as [now r|r]; simpl.
  - destruct (GuardFacts.startMachine_full secret now st r)
      as [(_ & -> & _) | (cmd & _ & _ & _ & ->)]; [lia|].
    unfold servedAt. simpl. lia.
  - destruct (PollFacts.getLatest_full secret st r)
      as [(_ & -> & _) | (cmd & _ & _ & _ & [Hl Hlt] & ->)]; [lia|].
    cbn [snd]. rewrite VolatileFacts.servedAt_insert.
    destruct (decide (index (Query r) "deviceId" = d)) as [<-|]; lia.
Qed.

Lemma increasing_from_weaken lo lo' l :
  lo' <= lo -> increasing_from lo l -> increasing_from lo' l.
Proof. destruct l as [|x l]; simpl; [auto|]. intros H [H1 H2]. split; [lia|auto]. Qed.

End InvariantFacts.

(** X6: the token is never stored and never returned.  From a state in
    which every stored command sits under its own non-empty device, is of
    type wash or dry, has a positive duration and carries no token, every
    trace of requests leads to such a state, and every command a poll of a
    device returns has these properties and names that device. *)
Theorem stored_commands_stay_well_formed
    (secret : string) (st : Volatile.State) (cs : list VolatileTrace.call) :
  well_formed st ->
  well_formed (snd (VolatileTrace.run secret st cs))
  /\ forall d cmd,
      In cmd (VolatileTrace.deliveries d cs
                (fst (VolatileTrace.run secret st cs))) ->
      Volatile.DeviceID cmd = d /\ d <> "" /\ Volatile.Token cmd = ""
      /\ valid_type (Volatile.Type_ cmd)
      /\ 0 < Volatile.DurationMinutes cmd.
Proof.
  revert st. induction cs as [|c cs IH]; intros st Hwf.
  - split; [exact Hwf|]. intros d cmd [].
  - rewrite InvariantFacts.run_snd_cons, VolatileFacts.run_cons.
    destruct (IH _ (InvariantFacts.exec_well_formed secret st c Hwf))
      as [IH1 IH2].
    split; [exact IH1|]. intros d cmd. cbn [VolatileTrace.deliveries].
    destruct (VolatileTrace.polls d c) eqn:Hp; [|apply IH2].
    destruct (VolatileTrace.delivered (fst (VolatileTrace.exec secret st c)))
      as [cmd'|] eqn:Hd; [|apply IH2].
    intros [<-|Hin]; [|now apply IH2].
    destruct (InvariantFacts.exec_delivered_is_stored _ _ _ _ _ Hp Hd)
      as (Hl & _).
    now apply Hwf.
Qed.

(** From the empty maps of start-up: a submit that sends a token, a
    client-chosen [createdAt] and then a poll. *)
Lemma stored_commands_stay_well_formed_witness :
  let cmd := {| Volatile.DeviceID := "D1"; Volatile.Type_ := "dry";
                Volatile.DurationMinutes := 45; Volatile.CreatedAt := 7;
                Volatile.Token := "s3cret" |} in
  let cs := [VolatileTrace.Submit 1700000000000
               (VolatileTrace.submit_request cmd);
             VolatileTrace.TakeNext
               (VolatileTrace.poll_request "D1" "s3cret")] in
  well_formed (snd (VolatileTrace.run "s3cret" empty_state cs))
  /\ VolatileTrace.deliveries "D1" cs
       (fst (VolatileTrace.run "s3cret" empty_state cs))
     = [{| Volatile.DeviceID := "D1"; Volatile.Type_ := "dry";
           Volatile.DurationMinutes := 45;
           Volatile.CreatedAt := 1700000000000; Volatile.Token := "" |}].
Proof.
  intros cmd cs.
  assert (Hwf : well_formed empty_state).
  { intros d c H. unfold empty_state in H. simpl in H.
    rewrite lookup_empty in H. discriminate H. }
  split.
  - exact (proj1 (stored_commands_stay_well_formed "s3cret" empty_state cs
                    Hwf)).
  - vm_compute. reflexivity.
Defined.

(** X7: in the in-process server a watermark never goes down, and over any
    trace from any state the commands returned to a device have strictly
    increasing [createdAt], the first above the watermark the trace started
    with: no stored command is returned twice, and none at or below a
    watermark is ever returned. *)
Theorem deliveries_increase
    (secret d : string) (st : Volatile.State)
    (cs : list VolatileTrace.call) :
  increasing_from (Volatile.servedAt st d)
    (List.map Volatile.CreatedAt
       (VolatileTrace.deliveries d cs
          (fst (VolatileTrace.run secret st cs))))
  /\ Volatile.servedAt st d
     <= Volatile.servedAt (snd (VolatileTrace.run secret st cs)) d.
Proof.
  revert st. induction cs as [|c cs IH]; intros st.
  - simpl. split; [exact I|lia].
  - rewrite InvariantFacts.run_snd_cons, VolatileFacts.run_cons.
    destruct (IH (snd (VolatileTrace.exec secret st c))) as [IH1 IH2].
    pose proof (InvariantFacts.exec_servedAt_le secret d st c) as Hle.
    split; [|lia].
    cbn [VolatileTrace.deliveries].
    destruct (VolatileTrace.polls d c) eqn:Hp;
      [|eapply InvariantFacts.increasing_from_weaken; eauto].
    destruct (VolatileTrace.delivered (fst (VolatileTrace.exec secret st c)))
      as [cmd|] eqn:Hd;
      [|eapply InvariantFacts.increasing_from_weaken; eauto].
    destruct (InvariantFacts.exec_delivered_is_stored _ _ _ _ _ Hp Hd)
      as (_ & Hlt & Heq).
    cbn [List.map increasing_from]. split; [exact Hlt|].
    now rewrite <- Heq.
Qed.

Module IsolationFacts.

Lemma same_view_refl d st : same_view d st st.
Proof. split; reflexivity. Qed.

Lemma same_view_trans d st1 st2 st3 :
  same_view d st1 st2 -> same_view d st2 st3 -> same_view d st1 st3.
Proof. intros [A B] [C D]. split; congruence. Qed.

Lemma exec_unnamed secret d st c :
  names d c = false ->
  same_view d (snd (VolatileTrace.exec secret st c)) st.
Proof.
  unfold names. intros H. apply orb_false_iff in H as [Hs Hp].
  exact (VolatileFacts.exec_other secret d st c Hs Hp).
Qed.

Lemma pending_same_view d st1 st2 cmd :
  same_view d st1 st2 ->
  VolatileTrace.Pending st1 d cmd -> VolatileTrace.Pending st2 d cmd.
Proof.
  intros [A B] [H1 H2]. split; [now rewrite <- A|now rewrite <- B].
Qed.

(** What a call that names [d] answers and does to [d] depends on the state
    only through the stored command and the watermark of [d]. *)
Lemma exec_named secret d st1 st2 c :
  names d c = true -> same_view d st1 st2 ->
  same_view d (snd (VolatileTrace.exec secret st1 c))
    (snd (VolatileTrace.exec secret st2 c))
  /\ (VolatileTrace.polls d c = true ->
      VolatileTrace.delivered (fst (VolatileTrace.exec secret st1 c))
      = VolatileTrace.delivered (fst (VolatileTrace.exec secret st2 c))).
Proof.
  intros Hn Hv. destruct c as [now r|r]; simpl in *.
  - split; [|discriminate].
    unfold names in Hn. simpl in Hn. rewrite orb_false_r in Hn.
    destruct (GuardFacts.startMachine_full secret now st1 r)
      as [(_ & -> & Hno1) | (c1 & Hm1 & Hd1 & Ha1 & ->)];
      destruct (GuardFacts.startMachine_full secret now st2 r)
        as [(_ & -> & Hno2) | (c2 & Hm2 & Hd2 & Ha2 & ->)].
    + assumption.
    + exfalso. eauto.
    + exfalso. eauto.
    + rewrite Hd1 in Hd2. injection Hd2 as <-.
      rewrite Hd1 in Hn. apply String.eqb_eq in Hn. subst d.
      destruct Hv as [_ Hw]. split; simpl.
      * now rewrite !lookup_insert_eq.
      * exact Hw.
  - unfold names in Hn. simpl in Hn. apply String.eqb_eq in Hn.
    destruct (PollFacts.getLatest_full secret st1 r)
      as [(Hn1 & -> & Hno1) | (c1 & Hm1 & Hd1 & Ha1 & Hp1 & ->)];
      destruct (PollFacts.getLatest_full secret st2 r)
        as [(Hn2 & -> & Hno2) | (c2 & Hm2 & Hd2 & Ha2 & Hp2 & ->)];
      rewrite Hn in *.
    + split; [assumption|]. intros _. congruence.
    + exfalso. apply Hno1. repeat split; auto; try apply Ha2.
      exists c2. eapply pending_same_view; [|exact Hp2].
      destruct Hv. split; auto.
    + exfalso. apply Hno2. repeat split; auto; try apply Ha1.
      exists c1. eapply pending_same_view; eauto.
    + assert (c1 = c2) as <-.
      { destruct Hp1 as [H1 _], Hp2 as [H2 _], Hv as [Hv _]. congruence. }
      split; [|reflexivity]. destruct Hv as [Hv _]. split.
      * exact Hv.
      * cbn [snd]. rewrite !VolatileFacts.servedAt_insert.
        destruct (decide (d = d)); [reflexivity|contradiction].
Qed.

Lemma deliveries_projected secret d cs :
  forall st1 st2,
    same_view d st1 st2 ->
    VolatileTrace.deliveries d cs (fst (VolatileTrace.run secret st1 cs))
    = VolatileTrace.deliveries d (List.filter (names d) cs)
        (fst (VolatileTrace.run secret st2 (List.filter (names d) cs))).
Proof.
  induction cs as [|c cs IH]; intros st1 st2 Hv; [reflexivity|].
  rewrite VolatileFacts.run_cons. cbn [List.filter VolatileTrace.deliveries].
  destruct (names d c) eqn:Hn.
  - rewrite VolatileFacts.run_cons. cbn [VolatileTrace.deliveries].
    destruct (exec_named secret d st1 st2 c Hn Hv) as [Hv' Hd].
    destruct (VolatileTrace.polls d c) eqn:Hp.
    + rewrite (Hd eq_refl).
      destruct (VolatileTrace.delivered
                  (fst (VolatileTrace.exec secret st2 c)));
        [f_equal|]; now apply IH.
    + now apply IH.
  - assert (Hp : VolatileTrace.polls d c = false).
    { unfold names in Hn. now apply orb_false_iff in Hn as [_ ?]. }
    rewrite Hp. apply IH.
    eapply same_view_trans; [|exact Hv]. now apply exec_unnamed.
Qed.

(** The same over the table, where the view of [d] is its item. *)
Lemma table_exec_unnamed s d t c :
  table_names d c = false -> snd (DurableTrace.exec s t c) !! d = t !! d.
Proof.
  unfold table_names. intros H. apply orb_false_iff in H as [Hs Hp].
  exact (DurableFacts.table_exec_other s d t c Hs Hp).
Qed.

Lemma table_exec_named s d (t1 t2 : Table) c :
  table_names d c = true -> t1 !! d = t2 !! d ->
  snd (DurableTrace.exec s t1 c) !! d = snd (DurableTrace.exec s t2 c) !! d
  /\ (DurableTrace.polls d c = true ->
      DurableTrace.delivered (fst (DurableTrace.exec s t1 c))
      = DurableTrace.delivered (fst (DurableTrace.exec s t2 c))).
Proof.
  intros Hn Hv. destruct c as [now pe r|now gf uf r].
  - split; [|discriminate].
    unfold table_names in Hn. simpl in Hn. rewrite orb_false_r in Hn.
    cbn [DurableTrace.exec].
    destruct (GuardFacts.start_full s now pe t1 r)
      as [(_ & _ & E1 & Hno1) | (c1 & Hd1 & Ha1 & E1)];
      destruct (GuardFacts.start_full s now pe t2 r)
        as [(_ & _ & E2 & Hno2) | (c2 & Hd2 & Ha2 & E2)].
    + destruct (LaundryStart.handler s now pe t1 r),
        (LaundryStart.handler s now pe t2 r).
      simpl in *. now subst.
    + exfalso. eauto.
    + exfalso. eauto.
    + rewrite Hd1 in Hd2. injection Hd2 as <-.
      rewrite Hd1 in Hn. apply String.eqb_eq in Hn.
      rewrite E1, E2. destruct pe; simpl; [assumption|].
      rewrite Hn. now rewrite !lookup_insert_eq.
  - unfold table_names in Hn. simpl in Hn. apply String.eqb_eq in Hn.
    rewrite !DurableFacts.exec_poll. cbn [fst snd].
    destruct (PollFacts.latest_full s now gf uf t1 r)
      as [(Hn1 & E1 & Hno1) | (i1 & Hd1 & Ha1 & Hg1 & Hi1 & Hs1 & E1)];
      destruct (PollFacts.latest_full s now gf uf t2 r)
        as [(Hn2 & E2 & Hno2) | (i2 & Hd2 & Ha2 & Hg2 & Hi2 & Hs2 & E2)];
      rewrite Hn in *.
    + rewrite E1, E2. split; [assumption|]. intros _. congruence.
    + exfalso. apply Hno1. split; [assumption|]. split; [assumption|].
      split; [assumption|]. exists i2. rewrite Hv. auto.
    + exfalso. apply Hno2. split; [assumption|]. split; [assumption|].
      split; [assumption|]. exists i1. rewrite <- Hv. auto.
    + assert (i1 = i2) as <- by congruence.
      rewrite E1, E2. cbn [fst snd]. split; [|reflexivity].
      unfold UpdateItem_SET. destruct uf; [assumption|].
      rewrite !lookup_insert_eq. now rewrite Hi1, Hi2.
Qed.

Lemma table_deliveries_projected s d cs :
  forall t1 t2 : Table,
    t1 !! d = t2 !! d ->
    DurableTrace.deliveries d cs (fst (DurableTrace.run s t1 cs))
    = DurableTrace.deliveries d (List.filter (table_names d) cs)
        (fst (DurableTrace.run s t2 (List.filter (table_names d) cs))).
Proof.
  induction cs as [|c cs IH]; intros t1 t2 Hv; [reflexivity|].
  rewrite DurableFacts.table_run_cons.
  cbn [List.filter DurableTrace.deliveries].
  destruct (table_names d c) eqn:Hn.
  - rewrite DurableFacts.table_run_cons. cbn [DurableTrace.deliveries].
    destruct (table_exec_named s d t1 t2 c Hn Hv) as [Hv' Hd].
    destruct (DurableTrace.polls d c) eqn:Hp.
    + rewrite (Hd eq_refl).
      destruct (DurableTrace.delivered (fst (DurableTrace.exec s t2 c)));
        [f_equal|]; now apply IH.
    + now apply IH.
  - assert (Hp : DurableTrace.polls d c = false).
    { unfold table_names in Hn. now apply orb_false_iff in Hn as [_ ?]. }
    rewrite Hp. apply IH.
    rewrite <- Hv. now apply table_exec_unnamed.
Qed.

End IsolationFacts.

(** X8: devices do not interfere in the in-process server.  What the polls
    of a device return over a trace is what they return when every call that
    names another device is left out of the trace. *)
Theorem other_devices_do_not_interfere
    (secret d : string) (st : Volatile.State)
    (cs : list VolatileTrace.call) :
  VolatileTrace.deliveries d cs (fst (VolatileTrace.run secret st cs))
  = VolatileTrace.deliveries d (List.filter (names d) cs)
      (fst (VolatileTrace.run secret st (List.filter (names d) cs))).
Proof.
  apply IsolationFacts.deliveries_projected.
  apply IsolationFacts.same_view_refl.
Qed.

(** X9: devices do not interfere over the table either: the submits and
    polls of other devices (by trimmed identifier), whatever their store
    calls do, change nothing of what the polls of a device return. *)
Theorem other_devices_do_not_interfere_on_the_table
    (s : Server) (d : string) (t : Table) (cs : list DurableTrace.call) :
  DurableTrace.deliveries d cs (fst (DurableTrace.run s t cs))
  = DurableTrace.deliveries d (List.filter (table_names d) cs)
      (fst (DurableTrace.run s t (List.filter (table_names d) cs))).
Proof. now apply IsolationFacts.table_deliveries_projected. Qed.

(** X10: last write wins.  When two submits name the same device and the
    second is accepted, the state after both is the state after the second
    alone, and the second is answered the same: nothing of the first command
    is kept, in the maps and in the table alike. *)
Theorem second_submit_replaces_the_first
    (secret : string) (n1 n2 : Z) (st : Volatile.State)
    (r1 r2 : Volatile.Request) (c1 c2 : Volatile.Command)
    (s : Server) (m1 m2 : Z) (pe1 pe2 : option string) (t : Table)
    (q1 q2 : LaundryStart.Request) (b1 b2 : LaundryStart.Command) :
  Volatile.Decoded r1 = Some c1 -> Volatile.Decoded r2 = Some c2 ->
  Volatile.DeviceID c1 = Volatile.DeviceID c2 ->
  StatusCode (fst (Volatile.startMachine secret n2 st r2)) = 200 ->
  LaundryStart.Decoded q1 = Some b1 -> LaundryStart.Decoded q2 = Some b2 ->
  TrimSpace (LaundryStart.DeviceID b1) = TrimSpace (LaundryStart.DeviceID b2) ->
  StatusCode (fst (LaundryStart.handler s m2 pe2 t q2)) = 200 ->
  Volatile.startMachine secret n2
    (snd (Volatile.startMachine secret n1 st r1)) r2
  = Volatile.startMachine secret n2 st r2
  /\ LaundryStart.handler s m2 pe2
       (snd (LaundryStart.handler s m1 pe1 t q1)) q2
     = LaundryStart.handler s m2 pe2 t q2.
Proof.
  intros Hc1 Hc2 Hd H200 Hb1 Hb2 Hd' H200'. split.
  - destruct (GuardFacts.startMachine_full secret n2 st r2)
      as [(Hne & _) | (c & Hm & Hc & Ha & E2)]; [contradiction|].
    rewrite Hc2 in Hc. injection Hc as <-. rewrite E2.
    destruct (GuardFacts.startMachine_full secret n1 st r1)
      as [(_ & -> & _) | (c & _ & Hc & _ & ->)]; [exact E2|].
    rewrite Hc1 in Hc. injection Hc as <-. cbn [snd].
    destruct (GuardFacts.startMachine_full secret n2
                {| Volatile.latestByDevice :=
                     <[Volatile.DeviceID c1 := VolatileTrace.stored c1 n1]>
                       (Volatile.latestByDevice st);
                   Volatile.lastServedAt := Volatile.lastServedAt st |} r2)
      as [(_ & _ & Hno) | (c & _ & Hc & _ & ->)]; [exfalso; eauto|].
    rewrite Hc2 in Hc. injection Hc as <-. simpl.
    rewrite Hd. now rewrite insert_insert_eq.
  - destruct (GuardFacts.start_full s m2 pe2 t q2)
      as [(Hne & _) | (b & Hb & Ha & E2)]; [contradiction|].
    rewrite Hb2 in Hb. injection Hb as <-. rewrite E2.
    destruct (GuardFacts.start_full s m2 pe2
                (snd (LaundryStart.handler s m1 pe1 t q1)) q2)
      as [(_ & _ & _ & Hno) | (b & Hb & _ & ->)]; [exfalso; eauto|].
    rewrite Hb2 in Hb. injection Hb as <-.
    destruct pe2 as [e|].
    { rewrite E2 in H200'. discriminate H200'. }
    f_equal.
    destruct (GuardFacts.start_full s m1 pe1 t q1)
      as [(_ & _ & -> & _) | (b & Hb & _ & ->)]; [reflexivity|].
    rewrite Hb1 in Hb. injection Hb as <-.
    destruct pe1; cbn [snd]; [reflexivity|].
    rewrite Hd'. now rewrite insert_insert_eq.
Qed.

(** The scenario of two submits for D2 before any poll. *)
Lemma second_submit_replaces_the_first_witness :
  let wash := {| Volatile.DeviceID := "D2"; Volatile.Type_ := "wash";
                 Volatile.DurationMinutes := 30; Volatile.CreatedAt := 0;
                 Volatile.Token := "s3cret" |} in
  let dry := {| Volatile.DeviceID := "D2"; Volatile.Type_ := "dry";
                Volatile.DurationMinutes := 45; Volatile.CreatedAt := 0;
                Volatile.Token := "s3cret" |} in
  Volatile.startMachine "s3cret" 1700000005000
    (snd (Volatile.startMachine "s3cret" 1700000000000 empty_state
            (VolatileTrace.submit_request wash)))
    (VolatileTrace.submit_request dry)
  = Volatile.startMachine "s3cret" 1700000005000 empty_state
      (VolatileTrace.submit_request dry).
Proof.
  intros wash dry.
  pose (s := {| table := "commands"; sharedSecret := "s3cret" |}).
  pose (b1 := {| LaundryStart.DeviceID := "D2 "; LaundryStart.Type_ := "wash";
                 LaundryStart.DurationMinutes := 30;
                 LaundryStart.Token := "s3cret" |}).
  pose (b2 := {| LaundryStart.DeviceID := " D2"; LaundryStart.Type_ := "dry";
                 LaundryStart.DurationMinutes := 45;
                 LaundryStart.Token := "s3cret" |}).
  assert (H200 : StatusCode
                   (fst (Volatile.startMachine "s3cret" 1700000005000
                           empty_state (VolatileTrace.submit_request dry)))
                 = 200) by (vm_compute; reflexivity).
  assert (H200' : StatusCode
                    (fst (LaundryStart.handler s 1700000005000 None ∅
                            {| LaundryStart.Decoded := Some b2 |})) = 200)
    by (vm_compute; reflexivity).
  assert (Hd : TrimSpace (LaundryStart.DeviceID b1)
               = TrimSpace (LaundryStart.DeviceID b2))
    by (vm_compute; reflexivity).
  exact (proj1 (second_submit_replaces_the_first
                  "s3cret" 1700000000000 1700000005000 empty_state
                  (VolatileTrace.submit_request wash)
                  (VolatileTrace.submit_request dry) wash dry
                  s 1700000000000 1700000005000 None None ∅
                  {| LaundryStart.Decoded := Some b1 |}
                  {| LaundryStart.Decoded := Some b2 |} b1 b2
                  eq_refl eq_refl eq_refl H200 eq_refl eq_refl Hd H200')).
Defined.

(** X11: the mark-served write of the Lambda poll handler is best effort.
    When it fails, the poll still returns the command with status 200 and
    the table is as before, so the next accepted poll of the device returns
    the same command again. *)
Theorem failed_mark_delivers_again
    (s : Server) (n1 n2 : Z) (updFail : bool) (t : Table)
    (r1 r2 : LaundryLatest.Request) (item : Item) :
  let d :=
    TrimSpace (index (LaundryLatest.QueryStringParameters r1) "deviceId") in
  let out := LaundryLatest.handler s n1 false true t r1 in
  d <> "" ->
  TrimSpace (index (LaundryLatest.QueryStringParameters r2) "deviceId") = d ->
  authorized (index (LaundryLatest.QueryStringParameters r1) "token")
    (sharedSecret s) ->
  authorized (index (LaundryLatest.QueryStringParameters r2) "token")
    (sharedSecret s) ->
  t !! d = Some item ->
  item !! "servedAt" = None ->
  out
  = (LaundryLatest.resp 200
       (Struct {| LaundryLatest.Command_ :=
                    Some (DurableThreads.command_of d item) |}), t)
  /\ fst (LaundryLatest.handler s n2 false updFail (snd out) r2) = fst out.
Proof.
  intros d out Hd Hd2 Ha1 Ha2 Ht Hs. subst out.
  assert (E : LaundryLatest.handler s n1 false true t r1
              = (LaundryLatest.resp 200
                   (Struct {| LaundryLatest.Command_ :=
                                Some (DurableThreads.command_of d item) |}),
                 t)).
  { rewrite IdleFacts.latest_accepted by assumption. cbv zeta. fold d.
    unfold GetItem. now rewrite Ht, Hs. }
  rewrite E. split; [reflexivity|]. cbn [fst snd].
  rewrite IdleFacts.latest_accepted by (try rewrite Hd2; assumption).
  cbv zeta. rewrite Hd2. unfold GetItem. now rewrite Ht, Hs.
Qed.

Lemma failed_mark_delivers_again_witness :
  let s := {| table := "commands"; sharedSecret := "s3cret" |} in
  let item :=
    LaundryStart.item_of "D1"
      {| LaundryStart.DeviceID := "D1"; LaundryStart.Type_ := "wash";
         LaundryStart.DurationMinutes := 30;
         LaundryStart.Token := "s3cret" |} 1700000000000 in
  let poll := DurableTrace.poll_request "D1" "s3cret" in
  let out :=
    LaundryLatest.handler s 1700000001000 false true (<["D1" := item]> ∅) poll
  in
  fst out
  = LaundryLatest.resp 200
      (Struct {| LaundryLatest.Command_ :=
                   Some {| LaundryLatest.DeviceID := "D1";
                           LaundryLatest.Type_ := "wash";
                           LaundryLatest.DurationMinutes := 30;
                           LaundryLatest.CreatedAt := 1700000000000 |} |})
  /\ fst (LaundryLatest.handler s 1700000002000 false false (snd out) poll)
     = fst out.
Proof.
  intros s item poll out.
  assert (Ha : authorized "s3cret" "s3cret")
    by (repeat split; discriminate).
  assert (Hne : TrimSpace "D1" <> "") by (vm_compute; discriminate).
  assert (Ht : (<["D1" := item]> ∅ : Table) !! TrimSpace "D1" = Some item)
    by (vm_compute; reflexivity).
  assert (Hs : item !! "servedAt" = None) by (vm_compute; reflexivity).
  destruct (failed_mark_delivers_again s 1700000001000 1700000002000 false
              (<["D1" := item]> ∅) poll poll item Hne eq_refl Ha Ha Ht Hs)
    as [E1 E2].
  split; [|exact E2].
  subst out. rewrite E1. vm_compute. reflexivity.
Defined.

(** X12: the Lambda poll handler reports no malformed item.  For an item
    without [servedAt] whose [type] is not a string attribute and whose
    [durationMinutes] and [createdAt] are not number attributes (absent, or
    of another kind), it returns, with status 200, a command with an empty
    type and zero duration and [createdAt], and marks the item served. *)
Theorem poll_of_an_item_without_fields
    (s : Server) (now : Z) (t : Table) (req : LaundryLatest.Request)
    (item : Item) :
  let d :=
    TrimSpace (index (LaundryLatest.QueryStringParameters req) "deviceId") in
  d <> "" ->
  authorized (index (LaundryLatest.QueryStringParameters req) "token")
    (sharedSecret s) ->
  t !! d = Some item ->
  item !! "servedAt" = None ->
  (forall v, item !! "type" <> Some (AttributeValueMemberS v)) ->
  (forall v, item !! "durationMinutes" <> Some (AttributeValueMemberN v)) ->
  (forall v, item !! "createdAt" <> Some (AttributeValueMemberN v)) ->
  LaundryLatest.handler s now false false t req
  = (LaundryLatest.resp 200
       (Struct {| LaundryLatest.Command_ :=
                    Some {| LaundryLatest.DeviceID := d;
                            LaundryLatest.Type_ := "";
                            LaundryLatest.DurationMinutes := 0;
                            LaundryLatest.CreatedAt := 0 |} |}),
     <[d := <["servedAt" := AttributeValueMemberN (FormatInt now)]> item]> t).
Proof.
  intros d Hd Ha Ht Hs Hty Hdur Hcr.
  rewrite IdleFacts.latest_accepted by assumption. cbv zeta. fold d.
  unfold GetItem, UpdateItem_SET. rewrite Ht, Hs. cbn [default].
  unfold DurableThreads.command_of.
  destruct (item !! "type") as [[v| | |]|] eqn:E1;
    try (exfalso; eapply Hty; reflexivity);
    destruct (item !! "durationMinutes") as [[|v| |]|] eqn:E2;
    try (exfalso; eapply Hdur; reflexivity);
    destruct (item !! "createdAt") as [[|v| |]|] eqn:E3;
    try (exfalso; eapply Hcr; reflexivity);
    reflexivity.
Qed.

(** A stats item read as a command: the two deployments pointed at one
    table. *)
Lemma poll_of_an_item_without_fields_witness :
  let s := {| table := "shared"; sharedSecret := "s3cret" |} in
  let item : Item :=
    <["deviceId" := AttributeValueMemberS "D1"]>
    (<["totalSpent" := AttributeValueMemberN "12.35"]>
    (<["numRuns" := AttributeValueMemberN "7"]>
    (<["updatedAt" := AttributeValueMemberN "1700000000000"]> ∅))) in
  fst (LaundryLatest.handler s 1700000001000 false false
         (<["D1" := item]> ∅) (DurableTrace.poll_request "D1" "s3cret"))
  = LaundryLatest.resp 200
      (Struct {| LaundryLatest.Command_ :=
                   Some {| LaundryLatest.DeviceID := "D1";
                           LaundryLatest.Type_ := "";
                           LaundryLatest.DurationMinutes := 0;
                           LaundryLatest.CreatedAt := 0 |} |}).
Proof.
  intros s item.
  assert (Ha : authorized "s3cret" "s3cret")
    by (repeat split; discriminate).
  assert (Hne : TrimSpace "D1" <> "") by (vm_compute; discriminate).
  assert (Ht : (<["D1" := item]> ∅ : Table) !! TrimSpace "D1" = Some item)
    by (vm_compute; reflexivity).
  assert (Hs : item !! "servedAt" = None) by (vm_compute; reflexivity).
  assert (H1 : forall v, item !! "type" <> Some (AttributeValueMemberS v))
    by (intros v; vm_compute; discriminate).
  assert (H2 : forall v,
             item !! "durationMinutes" <> Some (AttributeValueMemberN v))
    by (intros v; vm_compute; discriminate).
  assert (H3 : forall v,
             item !! "createdAt" <> Some (AttributeValueMemberN v))
    by (intros v; vm_compute; discriminate).
  rewrite (poll_of_an_item_without_fields s 1700000001000
             (<["D1" := item]> ∅) (DurableTrace.poll_request "D1" "s3cret")
             item Hne Ha Ht Hs H1 H2 H3).
  vm_compute. reflexivity.
Defined.

(** X13: [mustInt64] reads back what [strconv.FormatInt] and
    [strconv.Itoa] write for a number that is not negative, and reads a
    negative number as 0: the minus sign stops it at once. *)
Theorem mustInt64_of_FormatInt (n : Z) :
  int64_range n ->
  LaundryLatest.mustInt64 (FormatInt n) = Z.max 0 n
  /\ LaundryLatest.mustInt64 (Itoa n) = Z.max 0 n.
Proof.
  unfold int64_range, Itoa. intros Hn.
  assert (H : LaundryLatest.mustInt64 (FormatInt n) = Z.max 0 n);
    [|split; exact H].
  destruct (Z.ltb_spec n 0) as [Hneg|Hpos].
  - unfold FormatInt. destruct (Z.ltb_spec n 0); [|lia].
    rewrite DecimalFacts.mustInt64_nondigit by reflexivity. lia.
  - rewrite DecimalFacts.mustInt64_FormatInt by lia. lia.
Qed.

Lemma mustInt64_of_FormatInt_witness :
  LaundryLatest.mustInt64 (FormatInt 1700000000000) = 1700000000000
  /\ LaundryLatest.mustInt64 (FormatInt (-30)) = 0.
Proof.
  split.
  - rewrite (proj1 (mustInt64_of_FormatInt 1700000000000
                      ltac:(unfold int64_range; lia))).
    reflexivity.
  - rewrite (proj1 (mustInt64_of_FormatInt (-30)
                      ltac:(unfold int64_range; lia))).
    reflexivity.
Defined.

Module StatsCaseFacts.
Import GoFacts AuthFacts GuardFacts.

Section Stats.
Context {float64 : Type}.
Variable zero : float64.
Variable FormatFloat : float64 -> ascii -> Z -> Z -> string.
Variable ParseFloat : string -> Z -> option float64.

(** [laundryUpdateStats], case by case. *)
Lemma update_full s now putErr t (req : @LaundryStats.UpdateRequest float64) :
  (StatusCode (fst (LaundryStats.update_handler FormatFloat s now putErr t req))
   <> 200
   /\ StatusCode
        (fst (LaundryStats.update_handler FormatFloat s now putErr t req))
      <> 500
   /\ snd (LaundryStats.update_handler FormatFloat s now putErr t req) = t
   /\ ~ (exists stats,
            LaundryStats.Decoded req = Some stats
            /\ authorized (LaundryStats.Token stats) (sharedSecret s)
            /\ TrimSpace (LaundryStats.DeviceID stats) <> ""))
  \/ (exists stats,
         LaundryStats.Decoded req = Some stats
         /\ authorized (LaundryStats.Token stats) (sharedSecret s)
         /\ TrimSpace (LaundryStats.DeviceID stats) <> ""
         /\ LaundryStats.update_handler FormatFloat s now putErr t req
            = match putErr with
              | Some err =>
                  (LaundryStats.resp 500
                     (MapStringString [("error", err); ("table", table s)]),
                   t)
              | None =>
                  (LaundryStats.resp 200
                     (MapStringAny
                        [("ok", VBool true);
                         ("lastUpdatedAt", VString (FormatInt now))]),
                   <[TrimSpace (LaundryStats.DeviceID stats) :=
                       LaundryStats.stats_item FormatFloat
                         (TrimSpace (LaundryStats.DeviceID stats)) stats now]>
                     t)
              end).
Proof.
  unfold LaundryStats.update_handler.
  destruct (LaundryStats.Decoded req) as [stats|];
    [|left; repeat split; try discriminate;
      intros (c & Hc & _); discriminate].
  cbv zeta.
  destruct (String.eqb (LaundryStats.Token stats) ""
            || String.eqb (sharedSecret s) ""
            || negb (timingSafeEq (LaundryStats.Token stats) (sharedSecret s)))
    eqn:Eg.
  { left. repeat split; try discriminate.
    intros (c & Hc & Ha & _). injection Hc as <-.
    apply guard_false_iff in Ha. congruence. }
  apply guard_false_iff in Eg.
  destruct (String.eqb_spec (TrimSpace (LaundryStats.DeviceID stats)) "")
    as [E|E].
  { left. repeat split; try discriminate.
    intros (c & Hc & _ & Hd). injection Hc as <-. contradiction. }
  right. exists stats. split; [reflexivity|]. split; [assumption|].
  split; [assumption|].
  unfold PutItem, key_of. destruct putErr; [reflexivity|].
  now rewrite lookup_insert_eq.
Qed.

Lemma get_accepted s getFail t req :
  TrimSpace (index (LaundryStats.QueryStringParameters req) "deviceId")
  <> "" ->
  authorized (index (LaundryStats.QueryStringParameters req) "token")
    (sharedSecret s) ->
  LaundryStats.get_handler zero ParseFloat s getFail t req
  = let d :=
      TrimSpace (index (LaundryStats.QueryStringParameters req) "deviceId")
    in
    match GetItem getFail t d with
    | None => LaundryStats.resp 500 (MapStringString [("error", "get failed")])
    | Some None =>
        LaundryStats.resp 404 (MapStringString [("error", "not found")])
    | Some (Some item) =>
        match
          match item !! "totalSpent" with
          | Some (AttributeValueMemberN v) => ParseFloat v 64
          | _ => Some zero
          end
        with
        | None =>
            LaundryStats.resp 500
              (MapStringString [("error", "float conversion failed")])
        | Some totalSpent =>
            match
              match item !! "numRuns" with
              | Some (AttributeValueMemberN v) => ParseInt v
              | _ => Some 0
              end
            with
            | None =>
                LaundryStats.resp 500
                  (MapStringString [("error", "int conversion failed")])
            | Some numRuns =>
                LaundryStats.resp 200
                  (Struct {| LaundryStats.DeviceID := d;
                             LaundryStats.TotalSpent := totalSpent;
                             LaundryStats.NumRuns := numRuns;
                             LaundryStats.Token := "" |})
            end
        end
    end.
Proof.
  intros Hd Ha. unfold LaundryStats.get_handler.
  rewrite (eqb_empty_false _ Hd). now rewrite guard_accepts.
Qed.

End Stats.

End StatsCaseFacts.

(** X14: [laundryUpdateStats] answers 200 exactly when the body decodes,
    carries the configured secret and names a device (after trimming), and
    [PutItem] succeeds: the amounts are not validated, whatever their sign.
    The item then held under the trimmed identifier is the one built from
    the body.  It answers 500 exactly when [PutItem] fails on such a body,
    and any answer but 200 leaves the table as it was. *)
Theorem update_stats_accepts_iff
    {float64 : Type} (FormatFloat : float64 -> ascii -> Z -> Z -> string)
    (s : Server) (now : Z) (putErr : option string) (t : Table)
    (req : @LaundryStats.UpdateRequest float64) :
  let out := LaundryStats.update_handler FormatFloat s now putErr t req in
  (StatusCode (fst out) = 200
   <-> putErr = None
       /\ exists stats,
           LaundryStats.Decoded req = Some stats
           /\ authorized (LaundryStats.Token stats) (sharedSecret s)
           /\ TrimSpace (LaundryStats.DeviceID stats) <> "")
  /\ (StatusCode (fst out) = 500
      <-> putErr <> None
          /\ exists stats,
              LaundryStats.Decoded req = Some stats
              /\ authorized (LaundryStats.Token stats) (sharedSecret s)
              /\ TrimSpace (LaundryStats.DeviceID stats) <> "")
  /\ (forall stats,
         StatusCode (fst out) = 200 ->
         LaundryStats.Decoded req = Some stats ->
         snd out
         = <[TrimSpace (LaundryStats.DeviceID stats) :=
               LaundryStats.stats_item FormatFloat
                 (TrimSpace (LaundryStats.DeviceID stats)) stats now]> t)
  /\ (StatusCode (fst out) <> 200 -> snd out = t).
Proof.
  intros out. subst out.
  destruct (StatsCaseFacts.update_full FormatFloat s now putErr t req)
    as [(Hne & Hne' & Ht & Hno) | (stats & Hd & Ha & Hid & E)].
  - split; [|split; [|split]].
    + split; [intros H; contradiction|].
      intros (_ & H). contradiction.
    + split; [intros H; contradiction|].
      intros (_ & H). contradiction.
    + intros stats H. contradiction.
    + intros _. exact Ht.
  - rewrite E. destruct putErr as [err|];
      cbn [fst snd StatusCode LaundryStats.resp].
    + split; [|split; [|split]].
      * split; [discriminate|]. intros (H & _). discriminate.
      * split; [|reflexivity]. intros _. split; [discriminate|eauto].
      * intros stats' H. discriminate.
      * reflexivity.
    + split; [|split; [|split]].
      * split; [eauto|reflexivity].
      * split; [discriminate|]. intros (H & _). now contradiction H.
      * intros stats' _ Hd'. rewrite Hd in Hd'. now injection Hd' as <-.
      * intros H. now contradiction H.
Qed.

(** X15: [laundryGetStats] answers 404 exactly when the request names a
    device and carries the configured secret, the read succeeds, and the
    table has no item for the (trimmed) device.  It answers 500 exactly when
    such a request meets a failed read, or an item whose [totalSpent] or
    [numRuns] number attribute does not parse. *)
Theorem get_stats_errors_iff
    {float64 : Type} (zero : float64)
    (ParseFloat : string -> Z -> option float64)
    (s : Server) (getFail : bool) (t : Table)
    (req : LaundryStats.GetRequest) :
  let d :=
    TrimSpace (index (LaundryStats.QueryStringParameters req) "deviceId") in
  let accepted :=
    d <> ""
    /\ authorized (index (LaundryStats.QueryStringParameters req) "token")
         (sharedSecret s) in
  let out := LaundryStats.get_handler zero ParseFloat s getFail t req in
  (StatusCode out = 404 <-> accepted /\ getFail = false /\ t !! d = None)
  /\ (StatusCode out = 500
      <-> accepted
          /\ (getFail = true
              \/ exists item : Item,
                  t !! d = Some item
                  /\ ((exists v,
                          item !! "totalSpent" = Some (AttributeValueMemberN v)
                          /\ ParseFloat v 64 = None)
                      \/ (exists v,
                             item !! "numRuns"
                             = Some (AttributeValueMemberN v)
                             /\ ParseInt v = None)))).
Proof.
  intros d accepted out. subst out accepted.
  destruct (String.eqb_spec d "") as [Hd|Hd].
  { rewrite RejectFacts.get_no_device by assumption.
    cbn [StatusCode LaundryStats.resp].
    split; (split; [discriminate|]); intros ((H & _) & _); contradiction. }
  destruct (AuthFacts.unauthorized_or_authorized
              (index (LaundryStats.QueryStringParameters req) "token")
              (sharedSecret s)) as [Hu|Ha].
  { rewrite RejectFacts.get_unauthorized by assumption.
    cbn [StatusCode LaundryStats.resp].
    split; (split; [discriminate|]); intros ((_ & H) & _);
      exfalso; eapply AuthFacts.not_both; eauto. }
  rewrite StatsCaseFacts.get_accepted by assumption. cbv zeta. fold d.
  unfold GetItem. destruct getFail.
  { cbn [StatusCode LaundryStats.resp]. split.
    - split; [discriminate|]. intros (_ & H & _). discriminate.
    - split; [|reflexivity]. intros _. split; [split; assumption|]. now left. }
  destruct (t !! d) as [item|] eqn:Et.
  - destruct (item !! "totalSpent") as [[|v| |]|] eqn:E1;
      try destruct (ParseFloat v 64) as [x|] eqn:P1;
      destruct (item !! "numRuns") as [[|w| |]|] eqn:E2;
      try destruct (ParseInt w) as [n|] eqn:P2;
      cbn [StatusCode LaundryStats.resp];
      (split;
       [split; [discriminate|]; intros (_ & _ & H); discriminate|]);
      (split;
       [first
          [discriminate
          |intros _; split; [split; assumption|]; right; exists item;
           split; [reflexivity|];
           first [left; eexists; split; [eassumption|assumption]
                 |right; eexists; split; [eassumption|assumption]]]
       |first
          [reflexivity
          |intros (_ & [H|(i & Hi & [(u & Hu & Hp)|(u & Hu & Hp)])]);
           first [discriminate|injection Hi as <-; congruence]]]).
  - cbn [StatusCode LaundryStats.resp]. split.
    + split; [|reflexivity]. intros _.
      split; [split; assumption|split; reflexivity].
    + split; [discriminate|].
      intros (_ & [H|(i & Hi & _)]); discriminate.
Qed.

Module StatsTableFacts.

Section Stats.
Context {float64 : Type}.
Variable zero : float64.
Variable ParseFloat : string -> Z -> option float64.

(** [laundryGetStats] reads one item of the table and nothing else. *)
Lemma get_handler_reads_one_item s getFail (t1 t2 : Table) req :
  t1 !! TrimSpace (index (LaundryStats.QueryStringParameters req) "deviceId")
  = t2 !! TrimSpace (index (LaundryStats.QueryStringParameters req) "deviceId")
  ->
  LaundryStats.get_handler zero ParseFloat s getFail t1 req
  = LaundryStats.get_handler zero ParseFloat s getFail t2 req.
Proof.
  intros H. unfold LaundryStats.get_handler, GetItem. cbv zeta.
  now rewrite H.
Qed.

End Stats.

End StatsTableFacts.



(** X17: the stats of a device are changed by the updates that name it and
    by nothing else.  After any call of [laundryUpdateStats] whose body does
    not name the device of a get-stats request (by trimmed identifier), that
    request is answered as before the call. *)
Theorem update_stats_touches_one_device
    {float64 : Type} (zero : float64)
    (FormatFloat : float64 -> ascii -> Z -> Z -> string)
    (ParseFloat : string -> Z -> option float64)
    (s : Server) (now : Z) (putErr : option string) (getFail : bool)
    (t : Table) (upd : @LaundryStats.UpdateRequest float64)
    (req : LaundryStats.GetRequest) :
  (forall stats,
      LaundryStats.Decoded upd = Some stats ->
      TrimSpace (LaundryStats.DeviceID stats)
      <> TrimSpace (index (LaundryStats.QueryStringParameters req) "deviceId"))
  ->
  LaundryStats.get_handler zero ParseFloat s getFail
    (snd (LaundryStats.update_handler FormatFloat s now putErr t upd)) req
  = LaundryStats.get_handler zero ParseFloat s getFail t req.
Proof.
  intros Hne. apply StatsTableFacts.get_handler_reads_one_item.
  destruct (StatsCaseFacts.update_full FormatFloat s now putErr t upd)
    as [(_ & _ & -> & _) | (stats & Hd & _ & _ & ->)]; [reflexivity|].
  destruct putErr; cbn [snd]; [reflexivity|].
  apply lookup_insert_ne. now apply Hne.
Qed.

(** Stats for D1 are on the table; an update for D2 comes in. *)
Lemma update_stats_touches_one_device_witness :
  let s := {| table := "stats"; sharedSecret := "s3cret" |} in
  let x := S754_finite false 6949617174986097 (-49) in
  let d1 := {| LaundryStats.DeviceID := "D1"; LaundryStats.TotalSpent := x;
               LaundryStats.NumRuns := 7; LaundryStats.Token := "s3cret" |} in
  let d2 := {| LaundryStats.DeviceID := "D2"; LaundryStats.TotalSpent := x;
               LaundryStats.NumRuns := 1; LaundryStats.Token := "s3cret" |} in
  let t := snd (LaundryStats.update_handler Float64.FormatFloat s
                  1700000000000 None ∅
                  {| LaundryStats.Decoded := Some d1 |}) in
  let req := {| LaundryStats.QueryStringParameters :=
                  <["deviceId" := "D1"]> (<["token" := "s3cret"]> ∅) |} in
  LaundryStats.get_handler Float64.zero Float64.ParseFloat s false
    (snd (LaundryStats.update_handler Float64.FormatFloat s 1700000005000
            None t {| LaundryStats.Decoded := Some d2 |})) req
  = LaundryStats.get_handler Float64.zero Float64.ParseFloat s false t req.
Proof.
  intros s x d1 d2 t req.
  apply (update_stats_touches_one_device Float64.zero Float64.FormatFloat
           Float64.ParseFloat s 1700000005000 None false t
           {| LaundryStats.Decoded := Some d2 |} req).
  intros stats H. injection H as <-. vm_compute. discriminate.
Defined.

(** X18: the stats are a snapshot, not a sum.  When two updates name the
    same device and the second is accepted, the table after both is the
    table after the second alone, and the second is answered the same:
    nothing of the first update is kept or added up. *)
Theorem second_update_replaces_the_first
    {float64 : Type} (FormatFloat : float64 -> ascii -> Z -> Z -> string)
    (s : Server) (n1 n2 : Z) (pe1 pe2 : option string) (t : Table)
    (u1 u2 : @LaundryStats.UpdateRequest float64)
    (s1 s2 : @LaundryStats.Stats float64) :
  LaundryStats.Decoded u1 = Some s1 -> LaundryStats.Decoded u2 = Some s2 ->
  TrimSpace (LaundryStats.DeviceID s1) = TrimSpace (LaundryStats.DeviceID s2)
  ->
  StatusCode (fst (LaundryStats.update_handler FormatFloat s n2 pe2 t u2))
  = 200 ->
  LaundryStats.update_handler FormatFloat s n2 pe2
    (snd (LaundryStats.update_handler FormatFloat s n1 pe1 t u1)) u2
  = LaundryStats.update_handler FormatFloat s n2 pe2 t u2.
Proof.
  intros H1 H2 Hd H200.
  destruct (StatsCaseFacts.update_full FormatFloat s n2 pe2 t u2)
    as [(Hne & _) | (b & Hb & Ha & Hid & E2)]; [contradiction|].
  rewrite H2 in Hb. injection Hb as <-. rewrite E2.
  destruct (StatsCaseFacts.update_full FormatFloat s n2 pe2
              (snd (LaundryStats.update_handler FormatFloat s n1 pe1 t u1))
              u2)
    as [(_ & _ & _ & Hno) | (b & Hb & _ & _ & ->)]; [exfalso; eauto|].
  rewrite H2 in Hb. injection Hb as <-.
  destruct pe2 as [e|].
  { rewrite E2 in H200. discriminate H200. }
  f_equal.
  destruct (StatsCaseFacts.update_full FormatFloat s n1 pe1 t u1)
    as [(_ & _ & -> & _) | (b & Hb & _ & _ & ->)]; [reflexivity|].
  rewrite H1 in Hb. injection Hb as <-.
  destruct pe1; cbn [snd]; [reflexivity|].
  rewrite Hd. now rewrite insert_insert_eq.
Qed.

Lemma second_update_replaces_the_first_witness :
  let s := {| table := "stats"; sharedSecret := "s3cret" |} in
  let x := S754_finite false 6949617174986097 (-49) in
  let s1 := {| LaundryStats.DeviceID := "D1 "; LaundryStats.TotalSpent := x;
               LaundryStats.NumRuns := 7; LaundryStats.Token := "s3cret" |} in
  let s2 := {| LaundryStats.DeviceID := " D1"; LaundryStats.TotalSpent := x;
               LaundryStats.NumRuns := 1; LaundryStats.Token := "s3cret" |} in
  LaundryStats.update_handler Float64.FormatFloat s 1700000005000 None
    (snd (LaundryStats.update_handler Float64.FormatFloat s 1700000000000
            None ∅ {| LaundryStats.Decoded := Some s1 |}))
    {| LaundryStats.Decoded := Some s2 |}
  = LaundryStats.update_handler Float64.FormatFloat s 1700000005000 None ∅
      {| LaundryStats.Decoded := Some s2 |}.
Proof.
  intros s x s1 s2.
  assert (Hd : TrimSpace (LaundryStats.DeviceID s1)
               = TrimSpace (LaundryStats.DeviceID s2))
    by (vm_compute; reflexivity).
  assert (H200 : StatusCode
                   (fst (LaundryStats.update_handler Float64.FormatFloat s
                           1700000005000 None ∅
                           {| LaundryStats.Decoded := Some s2 |})) = 200)
    by (vm_compute; reflexivity).
  exact (second_update_replaces_the_first Float64.FormatFloat s
           1700000000000 1700000005000 None None ∅
           {| LaundryStats.Decoded := Some s1 |}
           {| LaundryStats.Decoded := Some s2 |} s1 s2
           eq_refl eq_refl Hd H200).
Defined.

Module DeliveryFacts.
Import Volatile VolatileThreads ThreadFacts.

Lemma count_le_add (f g h : thread -> bool) l :
  (forall th, f th = true -> g th = true \/ h th = true) ->
  (count f l <= count g l + count h l)%nat.
Proof.
  intros H. induction l as [|th l IH]; simpl; [lia|].
  destruct (f th) eqn:E; [|lia].
  destruct (H _ E) as [-> | ->]; destruct (g th), (h th); lia.
Qed.

Lemma count_pos_In (f : thread -> bool) l :
  (1 <= count f l)%nat -> exists th, In th l /\ f th = true.
Proof.
  induction l as [|th l IH]; simpl; [lia|].
  destruct (f th) eqn:E.
  - intros _. exists th. auto.
  - intros H. destruct (IH ltac:(lia)) as (x & Hx & Hf). exists x. auto.
Qed.

Lemma answered_empty_at d dev p :
  answered_empty d {| deviceID := dev; at_ := p |}
  = String.eqb dev d
    && match p with
       | AtUnlock r | Done r =>
           (StatusCode r =? 200)
           && match VolatileTrace.delivered r with
              | Some _ => false
              | None => true
              end
       | _ => false
       end.
Proof. reflexivity. Qed.

Lemma done_accepted_answered d th :
  done_accepted d th = true ->
  delivers d th = true \/ answered_empty d th = true.
Proof.
  unfold done_accepted, delivers, answered_empty.
  destruct (String.eqb (deviceID th) d); [|discriminate]. cbn [andb].
  destruct (at_ th) as [| | | | |r]; try discriminate.
  intros ->. destruct (VolatileTrace.delivered r); auto.
Qed.

(** Evaluates the counted predicates on the thread that moves. *)
Ltac moved :=
  unfold goto in *; cbn [deviceID at_] in *;
  rewrite ?delivers_at, ?answered_empty_at in *;
  cbn [answer_of holds_lock local_ok at_ deviceID mu store latestByDevice
         VolatileTrace.delivered Body StatusCode writeJSON Command_] in *;
  rewrite ?andb_false_r, ?andb_true_r in *.

Lemma step_pending d cmd cfg cfg' :
  step cfg cfg' -> invariant d cfg ->
  pending_invariant d cmd cfg -> pending_invariant d cmd cfg'.
Proof.
  intros Hstep. destruct Hstep as [l1 l2 th th' sh sh' Hth].
  unfold invariant, pending_invariant. cbn [fst snd]. cbv zeta.
  rewrite !count_mid, !Forall_mid.
  intros (_ & (_ & Hloc & _) & _ & _) (Hl & Hw & He & (Ha1 & Ha & Ha2)).
  unfold step_thread in Hth.
  destruct th as [dev p]. cbn [at_ deviceID] in *.
  destruct p as [| |c|c|r|r].
  - destruct (mu sh); [discriminate|].
    injection Hth as <- <-. moved. repeat split; auto.
  - destruct (latestByDevice (store sh) !! dev) as [c|] eqn:El;
      injection Hth as <- <-; moved.
    + repeat split; auto; try discriminate.
    + rewrite eqb_decide in *. destruct (decide (dev = d)) as [->|Hne].
      * rewrite Hl in El. discriminate El.
      * repeat split; auto; try discriminate.
  - destruct (Z.geb_spec (servedAt (store sh) dev) (CreatedAt c)) as [G|G];
      injection Hth as <- <-; moved.
    + rewrite eqb_decide in *. destruct (decide (dev = d)) as [->|Hne].
      * rewrite Hl in Hloc. injection Hloc as <-.
        repeat split; auto; try discriminate; try (intros _; lia).
      * repeat split; auto; try discriminate.
    + repeat split; auto; try discriminate.
  - injection Hth as <- <-. moved. destruct Hloc as [Hlatest Hlt].
    rewrite servedAt_mark. rewrite eqb_decide in *.
    destruct (decide (dev = d)) as [->|Hne].
    + rewrite Hl in Hlatest. injection Hlatest as <-.
      repeat split; auto; try lia;
        try (intros _ c Hc; now injection Hc as <-).
    + repeat split; auto; try (intros Hd; contradiction).
  - injection Hth as <- <-. moved. repeat split; auto.
  - discriminate.
Qed.

Lemma initial_pending d cmd secret st rs :
  VolatileTrace.Pending st d cmd ->
  pending_invariant d cmd (initial secret st rs).
Proof.
  intros [Hl Hlt]. unfold pending_invariant, initial. cbn [fst snd store].
  cbv zeta. split; [assumption|]. split; [now left|]. split.
  - rewrite initial_counts; [lia|]. intros r.
    unfold answered_empty, start. cbn [at_ deviceID].
    destruct (negb (String.eqb (Method r) "GET")),
      (String.eqb (index (Query r) "deviceId") ""),
      (String.eqb (index (Query r) "token") ""
       || negb (timingSafeEq (index (Query r) "token") secret));
      rewrite ?andb_false_r; reflexivity.
  - apply List.Forall_forall. intros th Hin _ c.
    apply in_map_iff in Hin as (r & <- & _).
    unfold answer_of, start. cbn [at_].
    destruct (negb (String.eqb (Method r) "GET")),
      (String.eqb (index (Query r) "deviceId") ""),
      (String.eqb (index (Query r) "token") ""
       || negb (timingSafeEq (index (Query r) "token") secret));
      discriminate.
Qed.

Lemma reachable_pending d cmd secret st rs cfg :
  VolatileTrace.Pending st d cmd ->
  rtc step (initial secret st rs) cfg -> pending_invariant d cmd cfg.
Proof.
  intros Hp. revert cfg. apply rtc_ind_r.
  - now apply initial_pending.
  - intros y z Hy Hstep IH. eapply step_pending; eauto.
    eapply reachable_invariant; eauto.
Qed.

End DeliveryFacts.

(** X19: concurrent polls lose nothing.  While calls of [getLatest] run at
    once over a state in which a command is pending for a device, with their
    steps interleaved in any order, every command an answer carries for the
    device is that command; and as soon as one accepted poll of the device
    has returned, exactly one call has the command in its answer. *)
Theorem pending_command_reaches_exactly_one_poll
    (d secret : string) (st : Volatile.State) (cmd : Volatile.Command)
    (rs : list Volatile.Request)
    (ths : list VolatileThreads.thread) (sh : VolatileThreads.Shared) :
  VolatileTrace.Pending st d cmd ->
  rtc VolatileThreads.step (VolatileThreads.initial secret st rs) (ths, sh) ->
  (forall th, In th ths -> VolatileThreads.delivers d th = true ->
              answer_of th = Some cmd)
  /\ ((1 <= VolatileThreads.count (done_accepted d) ths)%nat ->
      VolatileThreads.count (VolatileThreads.delivers d) ths = 1%nat).
Proof.
  intros Hp Hreach.
  pose proof (DeliveryFacts.reachable_pending d cmd secret st rs _ Hp Hreach)
    as (Hl & Hw & He & Hall).
  pose proof (ThreadFacts.reachable_invariant d secret st rs _ Hreach)
    as (_ & _ & Hone & _).
  cbn [fst snd] in *. split.
  - intros th Hin Hd. rewrite List.Forall_forall in Hall.
    specialize (Hall th Hin).
    unfold VolatileThreads.delivers in Hd.
    apply andb_true_iff in Hd as [Hdev Hd].
    apply String.eqb_eq in Hdev. unfold answer_of in *.
    destruct (VolatileThreads.at_ th) as [| | | |r|r]; try discriminate;
      (destruct (VolatileTrace.delivered r) as [c|]; [|discriminate]);
      now rewrite (Hall Hdev c eq_refl).
  - intros Hdone.
    pose proof (DeliveryFacts.count_le_add (done_accepted d)
                  (VolatileThreads.delivers d) (answered_empty d) ths
                  (DeliveryFacts.done_accepted_answered d)) as Hle.
    destruct (VolatileThreads.count (VolatileThreads.delivers d) ths)
      as [|[|k]] eqn:Ek; [|reflexivity|lia].
    exfalso. specialize (He ltac:(lia)). destruct Hw as [Hw|Hw]; lia.
Qed.

(** Two polls of D1 while a wash command is pending: the second call
    takes the lock first and gets the command, the first gets none. *)
Lemma pending_command_reaches_exactly_one_poll_witness :
  let cmd := {| Volatile.DeviceID := "D1"; Volatile.Type_ := "wash";
                Volatile.DurationMinutes := 30;
                Volatile.CreatedAt := 1700000000000; Volatile.Token := "" |}
  in
  let th1 := {| VolatileThreads.deviceID := "D1";
                VolatileThreads.at_ :=
                  VolatileThreads.Done
                    (Volatile.writeJSON 200
                       (Struct {| Volatile.Command_ := None |})) |} in
  let th2 := {| VolatileThreads.deviceID := "D1";
                VolatileThreads.at_ :=
                  VolatileThreads.Done
                    (Volatile.writeJSON 200
                       (Struct {| Volatile.Command_ := Some cmd |})) |} in
  VolatileThreads.count (VolatileThreads.delivers "D1") [th1; th2] = 1%nat.
Proof.
  intros cmd th1 th2.
  pose (st := {| Volatile.latestByDevice := <["D1" := cmd]> ∅;
                 Volatile.lastServedAt := ∅ |}).
  pose (st' := {| Volatile.latestByDevice := <["D1" := cmd]> ∅;
                  Volatile.lastServedAt := <["D1" := 1700000000000]> ∅ |}).
  pose (poll := VolatileTrace.poll_request "D1" "s3cret").
  assert (Hp : VolatileTrace.Pending st "D1" cmd)
    by (split; vm_compute; reflexivity).
  assert (Hreach :
            rtc VolatileThreads.step
              (VolatileThreads.initial "s3cret" st [poll; poll])
              ([th1; th2],
               {| VolatileThreads.mu := false;
                  VolatileThreads.store := st' |})).
  { unfold VolatileThreads.initial. cbn [List.map].
    do 5 (eapply rtc_l;
          [apply (VolatileThreads.step_at [_] []); vm_compute; reflexivity|]).
    do 4 (eapply rtc_l;
          [apply (VolatileThreads.step_at [] [_]); vm_compute; reflexivity|]).
    vm_compute. apply rtc_refl. }
  assert (Hdone : (1 <= VolatileThreads.count (done_accepted "D1") [th1; th2])%nat)
    by (vm_compute; lia).
  exact (proj2 (pending_command_reaches_exactly_one_poll "D1" "s3cret" st cmd
                  [poll; poll] [th1; th2]
                  {| VolatileThreads.mu := false;
                     VolatileThreads.store := st' |} Hp Hreach) Hdone).
Defined.

Module TableDeliveryFacts.
Import LaundryLatest DurableThreads.

Lemma Exists_mid {A} (P : A -> Prop) l1 x l2 :
  Exists P (l1 ++ x :: l2) <-> Exists P l1 \/ P x \/ Exists P l2.
Proof. rewrite Exists_app, Exists_cons. tauto. Qed.

Lemma table_thread_start_cases s now req :
  at_ (start s now req) = AtGet
  \/ (exists r, at_ (start s now req) = Done r /\ StatusCode r <> 200).
Proof.
  unfold start. cbn [at_].
  destruct (String.eqb _ ""); [right; eexists; split; [reflexivity|]|].
  { cbn. discriminate. }
  destruct (_ || _); [right; eexists; split; [reflexivity|]|left; reflexivity].
  cbn. discriminate.
Qed.

Lemma table_initial_pending s d item0 t rs :
  t !! d = Some item0 ->
  table_pending_invariant d item0 (table_initial s t rs).
Proof.
  intros Ht. unfold table_pending_invariant, table_initial.
  cbn [fst snd]. cbv zeta. split; [now left|]. split.
  - apply List.Forall_forall. intros th Hin _.
    apply in_map_iff in Hin as ([now req] & <- & _). cbn [fst snd].
    destruct (table_thread_start_cases s now req) as [-> | (r & -> & Hr)]; [exact I|].
    unfold answered. intros c Hc.
    destruct (table_thread_start_cases s now req) as [E | (r' & E & Hr')];
      rewrite E in Hc; [discriminate|].
    injection Hc as ->. now contradiction Hr'.
  - intros Hex. exfalso. apply List.Exists_exists in Hex as (th & Hin & _ & Hth).
    apply in_map_iff in Hin as ([now req] & <- & _). cbn [fst snd] in Hth.
    destruct (table_thread_start_cases s now req) as [E | (r' & E & Hr')];
      rewrite E in Hth; [discriminate|].
    injection Hth as ->. now contradiction Hr'.
Qed.

Lemma table_step_pending d item0 cfg cfg' :
  item0 !! "servedAt" = None ->
  step cfg cfg' ->
  table_pending_invariant d item0 cfg -> table_pending_invariant d item0 cfg'.
Proof.
  intros Hs0 Hstep. destruct Hstep as [l1 l2 th th' t t' Hth].
  unfold table_pending_invariant. cbn [fst snd]. cbv zeta.
  rewrite !Exists_mid, !ThreadFacts.Forall_mid.
  intros (Ht & (Hl1 & Hok & Hl2) & Hempty).
  unfold step_thread in Hth.
  destruct th as [dev tm p]. cbn [at_ deviceID DurableThreads.now] in *.
  unfold table_got, table_empty, answered in *. cbn [at_ deviceID] in *.
  destruct p as [|c|r].
  - (* GetItem *)
    unfold GetItem in Hth.
    destruct (t !! dev) as [item|] eqn:Et.
    + destruct (item !! "servedAt") as [v|] eqn:Es;
        injection Hth as <- <-; unfold goto; cbn [at_ deviceID].
      * split; [|split].
        -- destruct Ht as [Ht|(Hi & [H|[[_ H]|H]])]; auto; discriminate H.
        -- repeat split; auto. intros _ c Hc. discriminate Hc.
        -- intros H Hd. destruct Ht as [Ht|((i & Hi & Hsi) & _)].
           ++ destruct (decide (dev = d)) as [->|Hne].
              ** rewrite Ht in Et. injection Et as <-. congruence.
              ** apply Hempty; [|assumption].
                 destruct H as [H|[[H _]|H]]; auto. contradiction.
           ++ rewrite Hi in Hd. injection Hd as ->. contradiction.
      * split; [|split].
        -- destruct Ht as [Ht|(Hi & [H|[[_ H]|H]])]; auto; discriminate H.
        -- repeat split; auto. intros ->.
           destruct Ht as [Ht|((i & Hi & Hsi) & _)].
           ++ rewrite Ht in Et. now injection Et as <-.
           ++ rewrite Hi in Et. injection Et as <-. contradiction.
        -- intros [H|[[_ H]|H]]; auto; discriminate H.
    + injection Hth as <- <-; unfold goto; cbn [at_ deviceID].
      split; [|split].
      * destruct Ht as [Ht|(Hi & [H|[[_ H]|H]])]; auto; discriminate H.
      * repeat split; auto. intros _ c Hc. discriminate Hc.
      * intros H Hd. destruct Ht as [Ht|((i & Hi & Hsi) & _)].
        -- destruct (decide (dev = d)) as [->|Hne].
           ++ rewrite Ht in Et. discriminate Et.
           ++ apply Hempty; [|assumption].
              destruct H as [H|[[H _]|H]]; auto. contradiction.
        -- rewrite Hi in Hd. injection Hd as ->. contradiction.
  - (* UpdateItem *)
    injection Hth as <- <-. unfold goto, UpdateItem_SET; cbn [at_ deviceID].
    destruct (decide (dev = d)) as [->|Hne].
    + specialize (Hok eq_refl). subst c.
      split; [|split].
      * right. split; [|right; left; split; reflexivity].
        eexists. rewrite lookup_insert_eq. split; [reflexivity|].
        rewrite lookup_insert_eq. discriminate.
      * repeat split; auto. intros _ c Hc. now injection Hc as <-.
      * intros _ Hd. rewrite lookup_insert_eq in Hd. injection Hd as Hd.
        rewrite <- Hd in Hs0. rewrite lookup_insert_eq in Hs0.
        discriminate Hs0.
    + rewrite lookup_insert_ne by assumption.
      split; [|split].
      * destruct Ht as [Ht|(Hi & [H|[[H _]|H]])]; auto. contradiction.
      * repeat split; auto. intros E. contradiction.
      * intros H. apply Hempty.
        destruct H as [H|[[H _]|H]]; auto. contradiction.
  - discriminate.
Qed.

Lemma table_reachable_pending s d item0 t rs cfg :
  t !! d = Some item0 -> item0 !! "servedAt" = None ->
  rtc step (table_initial s t rs) cfg -> table_pending_invariant d item0 cfg.
Proof.
  intros Ht Hs. revert cfg. apply rtc_ind_r.
  - now apply table_initial_pending.
  - intros y z _ Hstep IH. eapply table_step_pending; eauto.
Qed.

End TableDeliveryFacts.

(** X20: concurrent polls of the Lambda handler lose nothing either.  While
    calls of the handler run at once over a table that holds an unserved
    item for a device, their reads and writes interleaved in any order (and
    succeeding), every command returned for the device is the one of that
    item, and a poll of the device is answered without a command only when
    another poll of the device has returned the command. *)
Theorem table_command_is_never_lost
    (s : Server) (d : string) (item : Item) (t t' : Table)
    (rs : list (Z * LaundryLatest.Request))
    (ths : list DurableThreads.thread) :
  t !! d = Some item -> item !! "servedAt" = None ->
  rtc DurableThreads.step (table_initial s t rs) (ths, t') ->
  (forall th c,
      In th ths -> DurableThreads.deviceID th = d ->
      DurableThreads.answered c th -> c = DurableThreads.command_of d item)
  /\ (Exists (table_empty d) ths ->
      Exists (table_got d (DurableThreads.command_of d item)) ths).
Proof.
  intros Ht Hs Hreach.
  pose proof (TableDeliveryFacts.table_reachable_pending s d item t rs _
                Ht Hs Hreach) as (Hitem & Hall & Hempty).
  cbn [fst snd] in *. split.
  - intros th c Hin Hd Hc. rewrite List.Forall_forall in Hall.
    specialize (Hall th Hin Hd). unfold DurableThreads.answered in Hc.
    destruct (DurableThreads.at_ th) eqn:E; try discriminate.
    apply Hall. unfold DurableThreads.answered. now rewrite E.
  - intros Hex. destruct Hitem as [Hitem|[_ Hgot]]; [|exact Hgot].
    now apply Hempty in Hex.
Qed.

(** Two polls of D1, one after the other: the first gets the command and
    marks the item, the second finds the mark. *)
Lemma table_command_is_never_lost_witness :
  let s := {| table := "commands"; sharedSecret := "s3cret" |} in
  let item : Item :=
    LaundryStart.item_of "D1"
      {| LaundryStart.DeviceID := "D1"; LaundryStart.Type_ := "wash";
         LaundryStart.DurationMinutes := 30;
         LaundryStart.Token := "s3cret" |} 1700000000000 in
  let u1 := {| DurableThreads.deviceID := "D1";
               DurableThreads.now := 1700000001000;
               DurableThreads.at_ :=
                 DurableThreads.Done
                   (LaundryLatest.resp 200
                      (Struct {| LaundryLatest.Command_ :=
                                   Some (DurableThreads.command_of "D1" item)
                              |})) |} in
  let u2 := {| DurableThreads.deviceID := "D1";
               DurableThreads.now := 1700000001001;
               DurableThreads.at_ :=
                 DurableThreads.Done
                   (LaundryLatest.resp 200
                      (Struct {| LaundryLatest.Command_ := None |})) |} in
  Exists (table_empty "D1") [u1; u2]
  /\ Exists (table_got "D1" (DurableThreads.command_of "D1" item)) [u1; u2].
Proof.
  intros s item u1 u2.
  pose (poll := DurableTrace.poll_request "D1" "s3cret").
  pose (t := (<["D1" := item]> ∅ : Table)).
  pose (t' := UpdateItem_SET false t "D1" "servedAt"
                (AttributeValueMemberN (FormatInt 1700000001000))).
  assert (Ht : t !! "D1" = Some item) by (vm_compute; reflexivity).
  assert (Hs : item !! "servedAt" = None) by (vm_compute; reflexivity).
  assert (Hreach :
            rtc DurableThreads.step
              (table_initial s t
                 [(1700000001000, poll); (1700000001001, poll)])
              ([u1; u2], t')).
  { unfold table_initial. cbn [List.map fst snd].
    do 2 (eapply rtc_l;
          [apply (DurableThreads.step_at [] [_]); vm_compute; reflexivity|]).
    eapply rtc_l;
      [apply (DurableThreads.step_at [_] []); vm_compute; reflexivity|].
    vm_compute. apply rtc_refl. }
  assert (He : Exists (table_empty "D1") [u1; u2]).
  { apply Exists_cons_tl, Exists_cons_hd. split; reflexivity. }
  split; [exact He|].
  exact (proj2 (table_command_is_never_lost s "D1" item t t'
                  [(1700000001000, poll); (1700000001001, poll)] [u1; u2]
                  Ht Hs Hreach) He).
Defined.

Module ServerFacts.
Import Volatile ServerThreads.

Lemma perm_replace {A} (a b : A) l1 l2 x1 x2 :
  Permutation (l1 ++ a :: l2) (x1 ++ a :: x2) ->
  Permutation (l1 ++ b :: l2) (x1 ++ b :: x2).
Proof.
  intros H. apply Permutation_app_inv in H. now apply Permutation_elt.
Qed.

Lemma perm_move {A} (a b : A) l1 l2 x y1 y2 :
  Permutation (l1 ++ a :: l2) (x ++ y1 ++ a :: y2) ->
  Permutation (l1 ++ b :: l2) (x ++ b :: y1 ++ y2).
Proof.
  intros H. rewrite (app_assoc x y1) in H. apply Permutation_app_inv in H.
  rewrite <- app_assoc in H.
  etransitivity; [symmetry; apply Permutation_middle|].
  etransitivity; [apply perm_skip; exact H|]. apply Permutation_middle.
Qed.

Lemma map_Some_In {A B} (f : A -> option B) l l' x :
  List.map f l = List.map Some l' -> In x l -> exists y, f x = Some y.
Proof.
  revert l'. induction l as [|a l IH]; intros [|b l'] H Hin;
    try destruct Hin; try discriminate.
  - subst. injection H as H _. eauto.
  - injection H as _ H. eauto.
Qed.

Lemma start_submit_cases secret now r :
  (exists r', start_submit secret now r = SDone r')
  \/ (exists cmd, start_submit secret now r = SLock cmd).
Proof.
  unfold start_submit.
  destruct (negb _); [left; eauto|].
  destruct (Decoded r) as [cmd|]; [|left; eauto].
  destruct (_ || _); [left; eauto|].
  destruct (String.eqb _ _); [left; eauto|].
  destruct (_ && _); [left; eauto|].
  destruct (_ <=? _); [left; eauto|right; eauto].
Qed.

Lemma start_submit_rejected secret now r r' S :
  start_submit secret now r = SDone r' ->
  startMachine secret now S r = (r', S).
Proof.
  unfold start_submit, startMachine.
  destruct (negb _); [intros H; now injection H as <-|].
  destruct (Decoded r) as [cmd|]; [|intros H; now injection H as <-].
  destruct (_ || _); [intros H; now injection H as <-|].
  destruct (String.eqb _ _); [intros H; now injection H as <-|].
  destruct (_ && _); [intros H; now injection H as <-|].
  destruct (_ <=? _); [intros H; now injection H as <-|discriminate].
Qed.

Lemma start_submit_accepted secret now r cmd S :
  start_submit secret now r = SLock cmd ->
  startMachine secret now S r
  = (ok cmd,
     {| latestByDevice := <[DeviceID cmd := cmd]> (latestByDevice S);
        lastServedAt := lastServedAt S |}).
Proof.
  unfold start_submit, startMachine.
  destruct (negb _); [discriminate|].
  destruct (Decoded r) as [c|]; [|discriminate].
  destruct (_ || _); [discriminate|].
  destruct (String.eqb _ _); [discriminate|].
  destruct (_ && _); [discriminate|].
  destruct (_ <=? _); [discriminate|].
  intros H. injection H as <-. reflexivity.
Qed.

Lemma start_poll_cases secret r :
  (exists r', VolatileThreads.at_ (VolatileThreads.start secret r)
              = VolatileThreads.Done r')
  \/ VolatileThreads.at_ (VolatileThreads.start secret r)
     = VolatileThreads.AtLock.
Proof.
  unfold VolatileThreads.start. cbn [VolatileThreads.at_].
  destruct (negb _); [left; eauto|].
  destruct (String.eqb _ _); [left; eauto|].
  destruct (_ || _); [left; eauto|right; reflexivity].
Qed.

Lemma start_poll_rejected secret r r' S :
  VolatileThreads.at_ (VolatileThreads.start secret r)
  = VolatileThreads.Done r' ->
  getLatest secret S r = (r', S).
Proof.
  unfold VolatileThreads.start, getLatest. cbn [VolatileThreads.at_].
  destruct (negb _); [intros H; now injection H as <-|]. cbv zeta.
  destruct (String.eqb _ _); [intros H; now injection H as <-|].
  destruct (_ || _); [intros H; now injection H as <-|discriminate].
Qed.

Lemma start_poll_accepted secret r S :
  VolatileThreads.at_ (VolatileThreads.start secret r)
  = VolatileThreads.AtLock ->
  getLatest secret S r
  = let d := index (Query r) "deviceId" in
    match latestByDevice S !! d with
    | None => (writeJSON 200 (Struct {| Command_ := None |}), S)
    | Some cmd =>
        if servedAt S d >=? CreatedAt cmd then
          (writeJSON 200 (Struct {| Command_ := None |}), S)
        else
          (writeJSON 200 (Struct {| Command_ := Some cmd |}),
           {| latestByDevice := latestByDevice S;
              lastServedAt := <[d := CreatedAt cmd]> (lastServedAt S) |})
    end.
Proof.
  unfold VolatileThreads.start, getLatest. cbn [VolatileThreads.at_].
  destruct (negb _); [discriminate|]. cbv zeta.
  destruct (String.eqb _ _); [discriminate|].
  destruct (_ || _); [discriminate|reflexivity].
Qed.

Lemma run_snoc secret st cs c :
  VolatileTrace.run secret st (cs ++ [c])
  = ((fst (VolatileTrace.run secret st cs)
      ++ [fst (VolatileTrace.exec secret
                 (snd (VolatileTrace.run secret st cs)) c)])%list,
     snd (VolatileTrace.exec secret (snd (VolatileTrace.run secret st cs)) c)).
Proof.
  rewrite (surjective_pairing (VolatileTrace.run secret st (cs ++ [c]))).
  rewrite VolatileFacts.run_app, VolatileFacts.run_snd_app.
  cbn [VolatileTrace.run].
  destruct (VolatileTrace.exec secret _ c). reflexivity.
Qed.

Lemma step_thread_call th sh th' sh' :
  step_thread th sh = Some (th', sh') -> call th' = call th.
Proof.
  unfold step_thread. destruct (at_ th) as [p|p].
  - destruct (step_submit p sh) as [[p' s']|]; [|discriminate].
    intros H. now injection H as <- _.
  - destruct (VolatileThreads.step_thread p sh) as [[p' s']|]; [|discriminate].
    intros H. now injection H as <- _.
Qed.


Lemma step_linearized secret st cs cfg cfg' :
  step cfg cfg' -> linearized secret st cs cfg -> linearized secret st cs cfg'.
Proof.
  intros Hstep. destruct Hstep as [l1 l2 th th' sh sh' Hth].
  unfold linearized. cbn [fst snd].
  intros (Hcalls & lin & ins & pend & Hperm & Hpend & Hrun & Hmu).
  pose proof (step_thread_call _ _ _ _ Hth) as Hcall.
  split.
  { rewrite <- Hcalls. rewrite !List.map_app. cbn [List.map].
    now rewrite Hcall. }
  assert (Hin : In th (lin ++ ins ++ pend)).
  { eapply Permutation_in; [exact Hperm|]. apply in_elt. }
  apply in_app_or in Hin as [Hin|Hin];
    [|apply in_app_or in Hin as [Hin|Hin]].
  - (* a call that has left its critical section *)
    destruct (map_Some_In _ _ _ _ Hrun Hin) as (r0 & Hr0).
    apply in_split in Hin as (x1 & x2 & ->).
    unfold step_thread in Hth. unfold answer_due, answer in Hr0.
    destruct th as [c p]. cbn [at_ call] in *.
    destruct p as [[cmd|cmd|cmd|cmd|r]|q]; try discriminate.
    + cbn [step_submit] in Hth. injection Hth as <- <-.
      exists (x1 ++ {| call := c; at_ := Submitting (SDone (ok cmd)) |} :: x2)%list,
        ins, pend.
      split.
      { rewrite <- app_assoc in *. cbn [app] in *.
        eapply perm_replace; eassumption. }
      split; [assumption|].
      rewrite !List.map_app in *. cbn [List.map call] in *.
      split; [exact Hrun|exact Hmu].
    + destruct q as [dev [| | | | |r]]; try discriminate.
  - (* the call inside the critical section *)
    destruct (VolatileThreads.mu sh) eqn:Emu;
      [|destruct Hmu as [-> _]; destruct Hin].
    destruct Hmu as (th0 & -> & Hok). destruct Hin as [<-|[]].
    unfold inside_ok in Hok. unfold step_thread in Hth.
    destruct th0 as [c p]. cbn [at_ call] in *.
    destruct p as [[cmd|cmd|cmd|cmd|r]|[dev q]];
      destruct c as [now r0|r0]; try contradiction.
    + (* the store *)
      destruct Hok as [HS Hstart].
      cbn [step_submit] in Hth. injection Hth as <- <-.
      exists lin, [{| call := VolatileTrace.Submit now r0;
                      at_ := Submitting (SUnlock cmd) |}], pend.
      split; [eapply perm_replace; eassumption|].
      split; [assumption|]. split; [assumption|].
      cbn [VolatileThreads.mu]. rewrite Emu. eexists. split; [reflexivity|].
      unfold inside_ok. cbn [at_ call VolatileThreads.store].
      rewrite (start_submit_accepted _ _ _ _ _ Hstart). now rewrite HS.
    + (* mu.Unlock() of a submit *)
      cbn [step_submit] in Hth. injection Hth as <- <-.
      exists (lin ++ [{| call := VolatileTrace.Submit now r0;
                         at_ := Submitting (SWrite cmd) |}])%list, [], pend.
      split.
      { rewrite <- app_assoc. cbn [app]. eapply perm_replace; eassumption. }
      split; [assumption|].
      rewrite !List.map_app. cbn [List.map call]. rewrite run_snoc.
      cbn [fst snd VolatileTrace.exec]. rewrite Hok.
      cbn [fst snd VolatileThreads.mu VolatileThreads.store].
      rewrite List.map_app, Hrun. auto.
    + (* a statement of a poll *)
      cbn [VolatileThreads.deviceID VolatileThreads.at_] in Hok.
      destruct Hok as (-> & Hstart & Hok).
      pose proof (start_poll_accepted _ _
                    (snd (VolatileTrace.run secret st (List.map call lin)))
                    Hstart) as Hget.
      cbv zeta in Hget.
      unfold VolatileThreads.step_thread in Hth.
      cbn [VolatileThreads.at_ VolatileThreads.deviceID] in Hth.
      destruct q as [| |cmd|cmd|r|r]; try contradiction.
      * (* the lookup *)
        rewrite Hok in Hth.
        destruct (latestByDevice _ !! _) as [cmd|] eqn:El;
          injection Hth as <- <-.
        -- exists lin, [{| call := VolatileTrace.TakeNext r0;
                           at_ := Polling
                                    (VolatileThreads.goto
                                       {| VolatileThreads.deviceID :=
                                            index (Query r0) "deviceId";
                                          VolatileThreads.at_ :=
                                            VolatileThreads.AtLookup |}
                                       (VolatileThreads.AtCheck cmd)) |}],
             pend.
           split; [eapply perm_replace; eassumption|].
           split; [assumption|]. split; [assumption|].
           rewrite Emu. eexists. split; [reflexivity|].
           unfold inside_ok. cbn. auto.
        -- exists lin, [{| call := VolatileTrace.TakeNext r0;
                           at_ := Polling
                                    (VolatileThreads.goto
                                       {| VolatileThreads.deviceID :=
                                            index (Query r0) "deviceId";
                                          VolatileThreads.at_ :=
                                            VolatileThreads.AtLookup |}
                                       (VolatileThreads.AtUnlock
                                          (writeJSON 200
                                             (Struct {| Command_ := None |}))))
                        |}],
             pend.
           split; [eapply perm_replace; eassumption|].
           split; [assumption|]. split; [assumption|].
           rewrite Emu. eexists. split; [reflexivity|].
           unfold inside_ok. cbn. rewrite Hok. auto.
      * (* the test of the watermark *)
        destruct Hok as [HS El]. rewrite HS in Hth. rewrite El in Hget.
        destruct (servedAt _ _ >=? CreatedAt cmd) eqn:Eg;
          injection Hth as <- <-;
          eexists lin, [_], pend;
          (split; [eapply perm_replace; eassumption|]);
          (split; [assumption|]); (split; [assumption|]);
          rewrite Emu; eexists; (split; [reflexivity|]);
          unfold inside_ok; cbn; rewrite ?HS; auto.
        repeat split; auto. rewrite Z.geb_leb in Eg. apply Z.leb_gt in Eg. lia.
      * (* the mark *)
        destruct Hok as (HS & El & Hlt). rewrite El in Hget.
        destruct (Z.geb_spec
                    (servedAt
                       (snd (VolatileTrace.run secret st (List.map call lin)))
                       (index (Query r0) "deviceId"))
                    (CreatedAt cmd)) as [G|_]; [lia|].
        injection Hth as <- <-.
        eexists lin, [_], pend.
        split; [eapply perm_replace; eassumption|].
        split; [assumption|]. split; [assumption|].
        cbn [VolatileThreads.mu]. rewrite Emu. eexists. split; [reflexivity|].
        unfold inside_ok. cbn. rewrite HS. auto.
      * (* the deferred mu.Unlock() *)
        injection Hth as <- <-.
        eexists (lin ++ [_])%list, [], pend.
        split.
        { rewrite <- app_assoc. cbn [app]. eapply perm_replace; eassumption. }
        split; [assumption|].
        rewrite !List.map_app. cbn [List.map call]. rewrite run_snoc.
        cbn [fst snd VolatileTrace.exec]. rewrite Hok.
        cbn [fst snd VolatileThreads.mu VolatileThreads.store].
        rewrite List.map_app, Hrun. auto.
  - (* a call that has not begun *)
    apply in_split in Hin as (p1 & p2 & ->).
    apply ThreadFacts.Forall_mid in Hpend as (Hp1 & Hth0 & Hp2).
    assert (Hpend' : Forall (fun th => th = start secret (call th))
                       (p1 ++ p2)) by (apply Forall_app; auto).
    unfold step_thread in Hth. destruct th as [c p]. cbn [at_ call] in *.
    unfold start in Hth0. injection Hth0 as Hp.
    destruct c as [now r0|r0]; subst p.
    + destruct (start_submit_cases secret now r0) as [(r' & E)|(cmd & E)];
        rewrite E in *; cbn [step_submit] in Hth; [discriminate|].
      destruct (VolatileThreads.mu sh) eqn:Emu; [discriminate|].
      destruct Hmu as [-> HS]. injection Hth as <- <-.
      eexists lin, [_], (p1 ++ p2)%list.
      split; [cbn [app] in *; eapply perm_move; eassumption|].
      split; [assumption|]. split; [assumption|].
      cbn [VolatileThreads.mu]. eexists. split; [reflexivity|].
      unfold inside_ok. cbn. auto.
    + unfold VolatileThreads.step_thread in Hth.
      destruct (start_poll_cases secret r0) as [(r' & E)|E];
        rewrite E in Hth; [discriminate|].
      destruct (VolatileThreads.mu sh) eqn:Emu; [discriminate|].
      destruct Hmu as [-> HS]. injection Hth as <- <-.
      eexists lin, [_], (p1 ++ p2)%list.
      split; [cbn [app] in *; eapply perm_move; eassumption|].
      split; [assumption|]. split; [assumption|].
      cbn [VolatileThreads.mu]. eexists. split; [reflexivity|].
      unfold inside_ok. cbn. auto.
Qed.

Lemma initial_linearized secret st cs :
  linearized secret st cs (initial secret st cs).
Proof.
  unfold linearized, initial. cbn [fst snd]. split.
  - rewrite List.map_map. cbn [call start]. apply List.map_id.
  - exists [], [], (List.map (start secret) cs).
    split; [reflexivity|]. split; [|repeat split].
    apply List.Forall_forall. intros th Hin.
    apply in_map_iff in Hin as (c & <- & _). reflexivity.
Qed.

Lemma reachable_linearized secret st cs cfg :
  rtc step (initial secret st cs) cfg -> linearized secret st cs cfg.
Proof.
  revert cfg. apply rtc_ind_r.
  - apply initial_linearized.
  - intros y z _ Hstep IH. eapply step_linearized; eauto.
Qed.

Lemma inside_not_returned secret S sh th :
  inside_ok secret S sh th -> answer th = None.
Proof.
  unfold inside_ok, answer.
  destruct (at_ th) as [[cmd|cmd|cmd|cmd|r]|p]; try reflexivity;
    destruct (call th); try contradiction.
  intros (_ & _ & H).
  destruct (VolatileThreads.at_ p); try reflexivity; contradiction.
Qed.

Lemma inside_steps secret S sh th :
  inside_ok secret S sh th -> exists th' sh', step_thread th sh = Some (th', sh').
Proof.
  unfold inside_ok, step_thread.
  destruct (at_ th) as [[cmd|cmd|cmd|cmd|r]|p];
    destruct (call th); try contradiction;
    try solve [intros _; cbn [step_submit]; eauto].
  intros (_ & _ & H). unfold VolatileThreads.step_thread.
  destruct (VolatileThreads.at_ p) as [| |cmd|cmd|r'|r']; try contradiction.
  - destruct (latestByDevice _ !! _); eauto.
  - destruct (_ >=? _); eauto.
  - eauto.
  - eauto.
Qed.

Lemma answer_due_answer th :
  answer th <> None -> answer_due th = answer th.
Proof.
  unfold answer_due, answer.
  destruct (at_ th) as [[cmd|cmd|cmd|cmd|r]|p]; auto. intros H.
  now contradiction H.
Qed.

(** The calls that were turned away before the lock can be put at any
    place of the order: they change nothing. *)
Lemma rejected_run secret pend :
  Forall (fun th => th = start secret (call th)) pend ->
  Forall (fun th => answer th <> None) pend ->
  forall S,
    List.map answer pend
    = List.map Some (fst (VolatileTrace.run secret S (List.map call pend)))
    /\ snd (VolatileTrace.run secret S (List.map call pend)) = S.
Proof.
  induction pend as [|th pend IH]; intros H1 H2 S; [split; reflexivity|].
  apply Forall_cons in H1 as [Hth H1]. apply Forall_cons in H2 as [Ha H2].
  cbn [List.map]. rewrite VolatileFacts.run_cons, InvariantFacts.run_snd_cons.
  assert (E : VolatileTrace.exec secret S (call th)
              = (default (writeErr 0 "") (answer th), S)
              /\ answer th
                 = Some (fst (VolatileTrace.exec secret S (call th)))).
  { rewrite Hth in Ha |- *. unfold answer, start in *. cbn [at_ call] in *.
    destruct (call th) as [now r|r]; cbn [VolatileTrace.exec].
    - destruct (start_submit_cases secret now r) as [(r' & E)|(cmd & E)];
        rewrite E in *; [|now contradiction Ha].
      rewrite (start_submit_rejected _ _ _ _ S E). split; reflexivity.
    - destruct (start_poll_cases secret r) as [(r' & E)|E];
        rewrite E in *; [|now contradiction Ha].
      rewrite (start_poll_rejected _ _ _ S E). split; reflexivity. }
  destruct E as [E1 E2]. rewrite E1 at 2 3. cbn [snd].
  destruct (IH H1 H2 S) as [IH1 IH2]. split.
  - cbn [List.map]. now rewrite <- E2, <- IH1.
  - exact IH2.
Qed.

Lemma step_thread_steps_left th sh th' sh' :
  step_thread th sh = Some (th', sh') ->
  (steps_left_of th' < steps_left_of th)%nat.
Proof.
  unfold step_thread, steps_left_of.
  destruct (at_ th) as [[cmd|cmd|cmd|cmd|r]|[dev p]]; cbn [step_submit].
  - destruct (VolatileThreads.mu sh); [discriminate|].
    intros H. injection H as <- _. cbn. lia.
  - intros H. injection H as <- _. cbn. lia.
  - intros H. injection H as <- _. cbn. lia.
  - intros H. injection H as <- _. cbn. lia.
  - discriminate.
  - unfold VolatileThreads.step_thread. cbn [VolatileThreads.at_].
    destruct p as [| |cmd|cmd|r|r].
    + destruct (VolatileThreads.mu sh); [discriminate|].
      intros H. injection H as <- _. cbn. lia.
    + destruct (latestByDevice _ !! _);
        intros H; injection H as <- _; cbn; lia.
    + destruct (_ >=? _); intros H; injection H as <- _; cbn; lia.
    + intros H. injection H as <- _. cbn. lia.
    + intros H. injection H as <- _. cbn. lia.
    + discriminate.
Qed.

Lemma list_sum_mid {A} (f : A -> nat) l1 x l2 :
  list_sum (List.map f (l1 ++ x :: l2))
  = (list_sum (List.map f l1) + f x + list_sum (List.map f l2))%nat.
Proof. rewrite List.map_app, list_sum_app. simpl. lia. Qed.

Lemma step_steps_left cfg cfg' :
  step cfg cfg' -> (steps_left cfg' < steps_left cfg)%nat.
Proof.
  intros [l1 l2 th th' sh sh' Hth]. unfold steps_left. cbn [fst].
  rewrite !list_sum_mid.
  apply step_thread_steps_left in Hth. lia.
Qed.

Lemma nsteps_steps_left n cfg cfg' :
  nsteps step n cfg cfg' -> (steps_left cfg' + n <= steps_left cfg)%nat.
Proof.
  induction 1 as [|n x y z Hstep _ IH]; [lia|].
  apply step_steps_left in Hstep. lia.
Qed.

Lemma initial_steps_left secret st cs :
  (steps_left (initial secret st cs) <= 5 * List.length cs)%nat.
Proof.
  unfold steps_left, initial. cbn [fst].
  induction cs as [|c cs IH]; [simpl; lia|].
  change (list_sum
            (List.map steps_left_of (List.map (start secret) (c :: cs))))
    with (steps_left_of (start secret c)
          + list_sum (List.map steps_left_of (List.map (start secret) cs)))%nat.
  change (List.length (c :: cs)) with (S (List.length cs)).
  assert (steps_left_of (start secret c) <= 5)%nat; [|lia].
  unfold steps_left_of, start. cbn [at_].
  destruct c as [now r|r].
  - destruct (start_submit_cases secret now r) as [(r' & ->)|(cmd & ->)]; lia.
  - destruct (start_poll_cases secret r) as [(r' & ->)| ->]; lia.
Qed.

Lemma returned_or_not l :
  Forall (fun th => answer th <> None) l
  \/ exists th, In th l /\ answer th = None.
Proof.
  induction l as [|th l [IH|(x & Hx & Hn)]].
  - left. constructor.
  - destruct (answer th) eqn:E.
    + left. constructor; [rewrite E; discriminate|assumption].
    + right. exists th. split; [now left|assumption].
  - right. exists x. split; [now right|assumption].
Qed.

(** A configuration the server can reach is final or can move. *)
Lemma progress secret st cs ths sh :
  linearized secret st cs (ths, sh) ->
  Forall (fun th => answer th <> None) ths
  \/ exists cfg', step (ths, sh) cfg'.
Proof.
  intros (_ & lin & ins & pend & Hperm & Hpend & Hrun & Hmu).
  cbn [fst snd] in *.
  assert (Hgo : forall th,
             In th ths ->
             (exists th' sh', step_thread th sh = Some (th', sh')) ->
             exists cfg', step (ths, sh) cfg').
  { intros th Hin (th' & sh' & Hth).
    apply in_split in Hin as (l1 & l2 & ->).
    eexists. apply step_at. exact Hth. }
  destruct (VolatileThreads.mu sh) eqn:Emu.
  - right. destruct Hmu as (th & -> & Hok).
    apply (Hgo th); [|eapply inside_steps; eauto].
    eapply Permutation_in; [symmetry; exact Hperm|].
    apply in_or_app. right. now left.
  - destruct Hmu as [-> _].
    destruct (returned_or_not ths) as [H|(th & Hin & Hn)]; [now left|].
    right. apply (Hgo th Hin).
    pose proof (Permutation_in _ Hperm Hin) as Hin'. cbn [app] in Hin'.
    unfold step_thread.
    apply in_app_or in Hin' as [Hl|Hp].
    + destruct (map_Some_In _ _ _ _ Hrun Hl) as (r0 & Hr0).
      unfold answer_due in Hr0. unfold answer in *.
      destruct (at_ th) as [[cmd|cmd|cmd|cmd|r]|p]; try congruence.
      cbn [step_submit]. eauto.
    + rewrite List.Forall_forall in Hpend. specialize (Hpend _ Hp).
      rewrite Hpend in Hn |- *. unfold answer, start in *.
      cbn [at_ call] in *.
      destruct (call th) as [now r|r].
      * destruct (start_submit_cases secret now r) as [(r' & E)|(cmd & E)];
          rewrite E in *; [discriminate|].
        cbn [step_submit]. rewrite Emu. eauto.
      * unfold VolatileThreads.step_thread.
        destruct (start_poll_cases secret r) as [(r' & E)|E];
          rewrite E in *; [discriminate|].
        rewrite Emu. eauto.
Qed.

End ServerFacts.

Module ServerExample.
Import Volatile ServerThreads.

(** A submit for D1 and a poll of D1 at once: the submit stores its command
    and unlocks, the poll runs from lock to return, and only then the submit
    writes its response. *)
Lemma submit_and_poll_run :
  let cmd := {| DeviceID := "D1"; Type_ := "wash"; DurationMinutes := 30;
                CreatedAt := 0; Token := "s3cret" |} in
  let kept := VolatileTrace.stored cmd 1700000000000 in
  let submit :=
    VolatileTrace.Submit 1700000000000 (VolatileTrace.submit_request cmd) in
  let poll := VolatileTrace.TakeNext (VolatileTrace.poll_request "D1" "s3cret")
  in
  nsteps step 9 (initial "s3cret" empty_state [poll; submit])
    ([{| call := poll;
         at_ := Polling
                  {| VolatileThreads.deviceID := "D1";
                     VolatileThreads.at_ :=
                       VolatileThreads.Done
                         (writeJSON 200 (Struct {| Command_ := Some kept |}))
                  |} |};
      {| call := submit; at_ := Submitting (SDone (ok kept)) |}],
     {| VolatileThreads.mu := false;
        VolatileThreads.store :=
          {| latestByDevice := <["D1" := kept]> ∅;
             lastServedAt := <["D1" := 1700000000000]> ∅ |} |}).
Proof.
  intros cmd kept submit poll. unfold initial. cbn [List.map].
  do 3 (eapply nsteps_l;
        [apply (step_at [_] []); vm_compute; reflexivity|]).
  do 5 (eapply nsteps_l;
        [apply (step_at [] [_]); vm_compute; reflexivity|]).
  eapply nsteps_l; [apply (step_at [_] []); vm_compute; reflexivity|].
  vm_compute. apply nsteps_O.
Qed.

End ServerExample.

(** X21: the mutex makes the in-process server behave as if it served one
    request at a time.  Let calls of [startMachine] and [getLatest] run at
    once from any state, every statement from [mu.Lock()] on being a step
    and the steps of the calls interleaving in any order.  When all calls
    have returned, there is an order of the calls in which the two
    functions, run one call after the other from the initial state, return
    the same response to each call and leave the same maps. *)
Theorem the_mutex_serializes_the_calls
    (secret : string) (st : Volatile.State) (cs : list VolatileTrace.call)
    (ths : list ServerThreads.thread) (sh : VolatileThreads.Shared) :
  rtc ServerThreads.step (ServerThreads.initial secret st cs) (ths, sh) ->
  Forall (fun th => ServerThreads.answer th <> None) ths ->
  exists lin : list ServerThreads.thread,
    Permutation lin ths
    /\ Permutation (List.map ServerThreads.call lin) cs
    /\ List.map ServerThreads.answer lin
       = List.map Some
           (fst (VolatileTrace.run secret st
                   (List.map ServerThreads.call lin)))
    /\ VolatileThreads.store sh
       = snd (VolatileTrace.run secret st (List.map ServerThreads.call lin)).
Proof.
  intros Hreach Hall.
  destruct (ServerFacts.reachable_linearized _ _ _ _ Hreach)
    as (Hcalls & lin & ins & pend & Hperm & Hpend & Hrun & Hmu).
  cbn [fst snd] in *.
  pose proof (Permutation_Forall Hperm Hall) as Hall'.
  apply Forall_app in Hall' as [Hlin Hall'].
  apply Forall_app in Hall' as [Hins Hrej].
  destruct (VolatileThreads.mu sh).
  { destruct Hmu as (th & -> & Hok).
    apply Forall_cons in Hins as [Hth _].
    now rewrite (ServerFacts.inside_not_returned _ _ _ _ Hok) in Hth. }
  destruct Hmu as [-> HS]. cbn [app] in Hperm.
  destruct (ServerFacts.rejected_run secret pend Hpend Hrej
              (snd (VolatileTrace.run secret st
                      (List.map ServerThreads.call lin)))) as [Hr1 Hr2].
  exists (lin ++ pend)%list. split; [now symmetry|]. split.
  { rewrite <- Hcalls. apply Permutation_map. now symmetry. }
  rewrite !List.map_app, VolatileFacts.run_app, VolatileFacts.run_snd_app.
  rewrite List.map_app, <- Hrun, <- Hr1, Hr2. split; [|exact HS].
  f_equal. apply List.map_ext_in. intros th Hin. symmetry.
  apply ServerFacts.answer_due_answer.
  rewrite List.Forall_forall in Hlin. now apply Hlin.
Qed.

(** The poll is listed first and returns the command the submit stored;
    the submit writes its response last. *)
Lemma the_mutex_serializes_the_calls_witness :
  let cmd := {| Volatile.DeviceID := "D1"; Volatile.Type_ := "wash";
                Volatile.DurationMinutes := 30; Volatile.CreatedAt := 0;
                Volatile.Token := "s3cret" |} in
  let kept := VolatileTrace.stored cmd 1700000000000 in
  let submit :=
    VolatileTrace.Submit 1700000000000 (VolatileTrace.submit_request cmd) in
  let poll := VolatileTrace.TakeNext (VolatileTrace.poll_request "D1" "s3cret")
  in
  let th1 :=
    {| ServerThreads.call := poll;
       ServerThreads.at_ :=
         ServerThreads.Polling
           {| VolatileThreads.deviceID := "D1";
              VolatileThreads.at_ :=
                VolatileThreads.Done
                  (Volatile.writeJSON 200
                     (Struct {| Volatile.Command_ := Some kept |})) |} |} in
  let th2 :=
    {| ServerThreads.call := submit;
       ServerThreads.at_ :=
         ServerThreads.Submitting (ServerThreads.SDone (ServerThreads.ok kept))
    |} in
  exists lin : list ServerThreads.thread,
    Permutation lin [th1; th2]
    /\ Permutation (List.map ServerThreads.call lin) [poll; submit]
    /\ List.map ServerThreads.answer lin
       = List.map Some
           (fst (VolatileTrace.run "s3cret" empty_state
                   (List.map ServerThreads.call lin)))
    /\ {| Volatile.latestByDevice := <["D1" := kept]> ∅;
          Volatile.lastServedAt := <["D1" := 1700000000000]> ∅ |}
       = snd (VolatileTrace.run "s3cret" empty_state
                (List.map ServerThreads.call lin)).
Proof.
  intros cmd kept submit poll th1 th2.
  apply (the_mutex_serializes_the_calls "s3cret" empty_state [poll; submit]
           [th1; th2]
           {| VolatileThreads.mu := false;
              VolatileThreads.store :=
                {| Volatile.latestByDevice := <["D1" := kept]> ∅;
                   Volatile.lastServedAt := <["D1" := 1700000000000]> ∅ |}
           |}).
  - eapply rtc_nsteps_2. exact ServerExample.submit_and_poll_run.
  - repeat constructor; discriminate.
Defined.

(** X22: every call returns.  A run of the calls of [startMachine] and
    [getLatest] from any state has at most five steps for each call, and it
    can stop only when every call has returned: as long as one has not, some
    call can take a step.  The mutex is never left locked. *)
Theorem every_call_returns
    (secret : string) (st : Volatile.State) (cs : list VolatileTrace.call)
    (n : nat) (ths : list ServerThreads.thread)
    (sh : VolatileThreads.Shared) :
  nsteps ServerThreads.step n (ServerThreads.initial secret st cs) (ths, sh) ->
  (n <= 5 * List.length cs)%nat
  /\ (Forall (fun th => ServerThreads.answer th <> None) ths
      \/ exists cfg', ServerThreads.step (ths, sh) cfg').
Proof.
  intros Hrun. split.
  - pose proof (ServerFacts.nsteps_steps_left _ _ _ Hrun).
    pose proof (ServerFacts.initial_steps_left secret st cs). lia.
  - eapply ServerFacts.progress. eapply ServerFacts.reachable_linearized.
    eapply rtc_nsteps_2. exact Hrun.
Qed.

(** The run of X21's example: nine steps for two calls, after which both
    have returned. *)
Lemma every_call_returns_witness :
  let cmd := {| Volatile.DeviceID := "D1"; Volatile.Type_ := "wash";
                Volatile.DurationMinutes := 30; Volatile.CreatedAt := 0;
                Volatile.Token := "s3cret" |} in
  let kept := VolatileTrace.stored cmd 1700000000000 in
  let submit :=
    VolatileTrace.Submit 1700000000000 (VolatileTrace.submit_request cmd) in
  let poll := VolatileTrace.TakeNext (VolatileTrace.poll_request "D1" "s3cret")
  in
  let ths :=
    [{| ServerThreads.call := poll;
        ServerThreads.at_ :=
          ServerThreads.Polling
            {| VolatileThreads.deviceID := "D1";
               VolatileThreads.at_ :=
                 VolatileThreads.Done
                   (Volatile.writeJSON 200
                      (Struct {| Volatile.Command_ := Some kept |})) |} |};
     {| ServerThreads.call := submit;
        ServerThreads.at_ :=
          ServerThreads.Submitting
            (ServerThreads.SDone (ServerThreads.ok kept)) |}] in
  let sh :=
    {| VolatileThreads.mu := false;
       VolatileThreads.store :=
         {| Volatile.latestByDevice := <["D1" := kept]> ∅;
            Volatile.lastServedAt := <["D1" := 1700000000000]> ∅ |} |} in
  (9 <= 5 * List.length [poll; submit])%nat
  /\ (Forall (fun th => ServerThreads.answer th <> None) ths
      \/ exists cfg', ServerThreads.step (ths, sh) cfg').
Proof.
  intros cmd kept submit poll ths sh.
  exact (every_call_returns "s3cret" empty_state [poll; submit] 9 ths sh
           ServerExample.submit_and_poll_run).
Defined.
